(** * tritonbench profiler analyzers: NCU and nsys report aggregation

    Shallow embedding of
      - [tritonbench/components/ncu/ncu_analyzer.py]
      - [tritonbench/components/ncu/nsys_analyzer.py]

    Python numbers are modelled as tagged values: an [int] carries a [Z],
    a [float] carries an exact rational (binary64 rounding is abstracted
    away; every float operation returns the reduced fraction).  Python
    exceptions are an explicit error type, and the calls that reach outside
    the interpreter (loading a report, running [nsys stats], opening a CSV)
    are recorded in a trace of events. *)

From Stdlib Require Import QArith.
From stdpp Require Import gmap strings list fin_maps pretty.

Local Open Scope string_scope.
Local Open Scope Z_scope.

(** ** Python numbers *)

Inductive PyNum : Type :=
  | PyInt (z : Z)
  | PyFloat (q : Q).

(** The coercion Python applies to an operand of a mixed operation. *)
Definition to_float (x : PyNum) : Q :=
  match x with
  | PyInt z => inject_Z z
  | PyFloat q => q
  end.

Definition is_float (x : PyNum) : bool :=
  match x with
  | PyInt _ => false
  | PyFloat _ => true
  end.

Definition py_add (x y : PyNum) : PyNum :=
  match x, y with
  | PyInt a, PyInt b => PyInt (a + b)
  | _, _ => PyFloat (Qred (to_float x + to_float y))
  end.

Definition py_sub (x y : PyNum) : PyNum :=
  match x, y with
  | PyInt a, PyInt b => PyInt (a - b)
  | _, _ => PyFloat (Qred (to_float x - to_float y))
  end.

Definition py_mul (x y : PyNum) : PyNum :=
  match x, y with
  | PyInt a, PyInt b => PyInt (a * b)
  | _, _ => PyFloat (Qred (to_float x * to_float y))
  end.

(** [x == 0] for either tag. *)
Definition py_is_zero (x : PyNum) : bool :=
  match x with
  | PyInt z => z =? 0
  | PyFloat q => Qnum q =? 0
  end.

(** ** Exceptions and the two monads *)

Inductive exn : Type :=
  | AssertionError (msg : string)
  | FileNotFoundError (msg : string)
  | ZeroDivisionError
  | TypeError
  | AttributeError
  | CalledProcessError (cmd : string)
  | RuntimeError (msg : string)
  | KeyError (key : string)
  | ValueError (arg : string).

Inductive result (A : Type) : Type :=
  | Ok (a : A)
  | Raise (e : exn).
Arguments Ok {A} a.
Arguments Raise {A} e.

#[global] Instance result_ret : MRet result := λ A a, Ok a.
#[global] Instance result_bind : MBind result := λ A B f r,
  match r with
  | Ok a => f a
  | Raise e => Raise e
  end.

(** True division [x / y]: always a float, [ZeroDivisionError] on a zero
    divisor of either tag. *)
Definition quotient (x y : PyNum) : PyNum :=
  PyFloat (Qred (to_float x / to_float y)).

Definition py_truediv (x y : PyNum) : result PyNum :=
  if py_is_zero y then Raise ZeroDivisionError
  else Ok (quotient x y).

(** Calls that leave the interpreter. *)
Inductive event : Type :=
  | EvLoadReport (path : string)
  | EvSubprocess (cmd : string)
  | EvReadCsv (path : string).

Record IO (A : Type) : Type := MkIO
  { trace : list event;
    outcome : result A }.
Arguments MkIO {A} trace outcome.
Arguments trace {A} i.
Arguments outcome {A} i.

#[global] Instance IO_ret : MRet IO := λ A a, MkIO [] (Ok a).
#[global] Instance IO_bind : MBind IO := λ A B f m,
  match outcome m with
  | Ok a => MkIO (trace m ++ trace (f a)) (outcome (f a))
  | Raise e => MkIO (trace m) (Raise e)
  end.

Definition io_lift {A} (r : result A) : IO A := MkIO [] r.
Definition io_raise {A} (e : exn) : IO A := MkIO [] (Raise e).
Definition io_emit (ev : event) : IO unit := MkIO [ev] (Ok tt).
Definition io_assert (b : bool) (msg : string) : IO unit :=
  if b then mret tt else io_raise (AssertionError msg).

Definition py_assert (b : bool) (msg : string) : result unit :=
  if b then Ok tt else Raise (AssertionError msg).

(** [foldM]: a [for] loop whose body may raise. *)
Fixpoint foldM {S A : Type} (body : S → A → result S) (l : list A) (st : S)
  : result S :=
  match l with
  | [] => Ok st
  | a :: l' => st' ← body st a; foldM body l' st'
  end.

(** ** Python values stored in the result dictionaries *)

#[warnings="-register-all"]
Inductive value : Type :=
  | VNum (n : PyNum)
  | VStr (s : string)
  | VTuple (a b : value)
  | VList (l : list value).

Definition as_num (v : value) : result PyNum :=
  match v with
  | VNum n => Ok n
  | _ => Raise TypeError
  end.

Definition as_list (v : value) : result (list value) :=
  match v with
  | VList l => Ok l
  | _ => Raise TypeError
  end.

(** Truth value of an object used as a condition. *)
Definition truthy (v : value) : bool :=
  match v with
  | VNum n => negb (py_is_zero n)
  | VStr s => negb (String.eqb s "")
  | VTuple _ _ => true
  | VList l => match l with [] => false | _ => true end
  end.

(** [v[i]] on a pair. *)
Definition getitem (v : value) (i : Z) : result value :=
  match v with
  | VTuple a b => if i =? 0 then Ok a else if i =? 1 then Ok b
                  else Raise (KeyError "tuple index out of range")
  | _ => Raise TypeError
  end.

(** The builtin [sum(xs)]: left to right from the int [0]. *)
Definition py_sum (xs : list PyNum) : PyNum := fold_left py_add xs (PyInt 0).

Definition py_sum_values (vs : list value) : result PyNum :=
  foldM (λ acc v, x ← as_num v; Ok (py_add acc x)) vs (PyInt 0).

(** [x in xs] on a list of strings. *)
Fixpoint in_list (x : string) (xs : list string) : bool :=
  match xs with
  | [] => false
  | y :: ys => String.eqb x y || in_list x ys
  end.

(** [collections.defaultdict(list)]: [d[k]] creates the key on a miss. *)
Definition dd_get (k : string) (d : gmap string value) : value :=
  default (VList []) (d !! k).

Definition dd_touch (k : string) (d : gmap string value) : gmap string value :=
  match d !! k with
  | Some _ => d
  | None => <[k := VList []]> d
  end.

(** [d[k].append(v)] *)
Definition dd_append (k : string) (v : value) (d : gmap string value)
  : result (gmap string value) :=
  match dd_get k d with
  | VList l => Ok (<[k := VList (l ++ [v])]> d)
  | _ => Raise AttributeError
  end.

(** ** ncu_analyzer.py *)

Module Ncu.

Definition short_ncu_metric_name : gmap string string :=
  list_to_map
    [ ("inst_executed_ffma_peak", "sm__sass_thread_inst_executed_op_ffma_pred_on.sum.peak_sustained");
      ("inst_executed_dfma_peak", "sm__sass_thread_inst_executed_op_dfma_pred_on.sum.peak_sustained");
      ("inst_executed_fadd", "smsp__sass_thread_inst_executed_op_fadd_pred_on.sum.per_cycle_elapsed");
      ("inst_executed_fmul", "smsp__sass_thread_inst_executed_op_fmul_pred_on.sum.per_cycle_elapsed");
      ("inst_executed_ffma", "smsp__sass_thread_inst_executed_op_ffma_pred_on.sum.per_cycle_elapsed");
      ("inst_executed_dadd", "smsp__sass_thread_inst_executed_op_dadd_pred_on.sum.per_cycle_elapsed");
      ("inst_executed_dmul", "smsp__sass_thread_inst_executed_op_dmul_pred_on.sum.per_cycle_elapsed");
      ("inst_executed_dfma", "smsp__sass_thread_inst_executed_op_dfma_pred_on.sum.per_cycle_elapsed");
      ("dram_bytes_write", "dram__bytes_write.sum");
      ("dram_bytes_read", "dram__bytes_read.sum");
      ("dram_bytes_per_second", "dram__bytes.sum.per_second");
      ("dram_bytes", "dram__bytes.sum");
      ("sm_freq", "smsp__cycles_elapsed.avg.per_second");
      ("dram_bandwidth", "dram__bytes.sum.per_second");
      ("duration", "gpu__time_duration.sum") ].

Definition bench_metric_to_short_ncu_metric : list (string * list string) :=
  [ ("memory_traffic", ["dram_bytes_write"; "dram_bytes_read"]);
    ("arithmetic_intensity",
      [ "inst_executed_ffma_peak"; "inst_executed_dfma_peak";
        "inst_executed_fadd"; "inst_executed_fmul"; "inst_executed_ffma";
        "inst_executed_dadd"; "inst_executed_dmul"; "inst_executed_dfma";
        "dram_bytes_write"; "dram_bytes_read"; "dram_bytes"; "sm_freq";
        "dram_bandwidth"; "duration" ]);
    ("ncu_tflops",
      [ "inst_executed_fadd"; "inst_executed_fmul"; "inst_executed_ffma";
        "inst_executed_dadd"; "inst_executed_dmul"; "inst_executed_dfma";
        "duration"; "sm_freq" ]) ].

Definition get_ncu_metrics (metrics : list string) : result (list string) :=
  foldM (λ ncu_metrics (item : string * list string),
           let '(bench_metric, short_ncu_metrics) := item in
           if in_list bench_metric metrics then
             foldM (λ ncu_metrics short_ncu_metric,
                      match short_ncu_metric_name !! short_ncu_metric with
                      | Some full_metric_name => Ok (ncu_metrics ++ [full_metric_name])%list
                      | None => Raise (KeyError short_ncu_metric)
                      end)
                   short_ncu_metrics ncu_metrics
           else Ok ncu_metrics)
        bench_metric_to_short_ncu_metric [].

(** A kernel action of the vendor report: [metric_by_name k name] is
    [kernel.metric_by_name(name).value()].  The report holds the counters
    that [get_ncu_metrics] asked the profiler for, so every counter read
    here is present and numeric. *)
Record Kernel : Type := MkKernel { metric_by_name : string → PyNum }.

(** [kernel.metric_by_name(short_ncu_metric_name[short]).value()] *)
Definition counter (kernel : Kernel) (short : string) : PyNum :=
  metric_by_name kernel (default "" (short_ncu_metric_name !! short)).

Definition get_mem_traffic (kernel : Kernel) : PyNum * PyNum :=
  (counter kernel "dram_bytes_read", counter kernel "dram_bytes_write").

Definition get_duration (kernel : Kernel) : PyNum := counter kernel "duration".

Definition get_flops (kernel : Kernel) : PyNum * PyNum :=
  let fp32_add_achieved := counter kernel "inst_executed_fadd" in
  let fp32_mul_achieved := counter kernel "inst_executed_fmul" in
  let fp32_fma_achieved := counter kernel "inst_executed_ffma" in
  let fp32_achieved :=
    py_add (py_add fp32_add_achieved fp32_mul_achieved)
           (py_mul (PyInt 2) fp32_fma_achieved) in
  let fp64_add_achieved := counter kernel "inst_executed_dadd" in
  let fp64_mul_achieved := counter kernel "inst_executed_dmul" in
  let fp64_fma_achieved := counter kernel "inst_executed_dfma" in
  let fp64_achieved :=
    py_add (py_add fp64_add_achieved fp64_mul_achieved)
           (py_mul (PyInt 2) fp64_fma_achieved) in
  let sm_freq := counter kernel "sm_freq" in
  let fp32_flops := py_mul fp32_achieved sm_freq in
  let fp64_flops := py_mul fp64_achieved sm_freq in
  (fp32_flops, fp64_flops).

Definition get_arithmetic_intensity (kernel : Kernel) : result (PyNum * PyNum) :=
  let dram_bandwidth := counter kernel "dram_bandwidth" in
  let '(fp32_flops, fp64_flops) := get_flops kernel in
  fp32_arithmetic_intensity ← py_truediv fp32_flops dram_bandwidth;
  fp64_arithmetic_intensity ← py_truediv fp64_flops dram_bandwidth;
  Ok (fp32_arithmetic_intensity, fp64_arithmetic_intensity).

(** The accumulators of the loop over the kernel actions. *)
Record LoopState : Type := MkLoopState
  { results : gmap string value;
    total_duration : PyNum;
    total_dram_bytes : PyNum;
    weighted_fp32_ai_sum : PyNum;
    weighted_fp64_ai_sum : PyNum }.

Definition needs_duration (required_metrics : list string) : bool :=
  in_list "arithmetic_intensity" required_metrics
  || in_list "ncu_tflops" required_metrics.

Definition pair_value (p : PyNum * PyNum) : value :=
  VTuple (VNum (fst p)) (VNum (snd p)).

Definition loop_body (required_metrics : list string)
    (st : LoopState) (kernel : Kernel) : result LoopState :=
  st ← (if needs_duration required_metrics then
          let duration := get_duration kernel in
          d ← dd_append "durations" (VNum duration) (results st);
          Ok (MkLoopState d (py_add (total_duration st) duration)
                (total_dram_bytes st)
                (weighted_fp32_ai_sum st) (weighted_fp64_ai_sum st))
        else Ok st);
  st ← (if in_list "memory_traffic" required_metrics then
          d ← dd_append "memory_traffic_raw"
                (pair_value (get_mem_traffic kernel)) (results st);
          Ok (MkLoopState d (total_duration st) (total_dram_bytes st)
                (weighted_fp32_ai_sum st) (weighted_fp64_ai_sum st))
        else Ok st);
  st ← (if in_list "arithmetic_intensity" required_metrics then
          let dram_bytes := counter kernel "dram_bytes" in
          ai ← get_arithmetic_intensity kernel;
          let w32 := py_add (weighted_fp32_ai_sum st) (py_mul (fst ai) dram_bytes) in
          let w64 := py_add (weighted_fp64_ai_sum st) (py_mul (snd ai) dram_bytes) in
          d ← dd_append "arithmetic_intensity_raw" (pair_value ai) (results st);
          Ok (MkLoopState d (total_duration st)
                (py_add (total_dram_bytes st) dram_bytes) w32 w64)
        else Ok st);
  if in_list "ncu_tflops" required_metrics then
    d ← dd_append "ncu_tflops_raw" (pair_value (get_flops kernel)) (results st);
    Ok (MkLoopState d (total_duration st) (total_dram_bytes st)
          (weighted_fp32_ai_sum st) (weighted_fp64_ai_sum st))
  else Ok st.

Definition init_state : LoopState :=
  MkLoopState ∅ (PyInt 0) (PyInt 0) (PyInt 0) (PyInt 0).

(** [sum(flop[i] * dur for flop, dur in zip(raw, durations))] *)
Definition weighted_flops_sum (i : Z) (raw durations : list value) : result PyNum :=
  products ← mapM (λ fd : value * value,
                     f ← getitem (fst fd) i;
                     x ← as_num f;
                     y ← as_num (snd fd);
                     Ok (VNum (py_mul x y)))
                  (zip raw durations);
  py_sum_values products.

(** The three [if] blocks after the loop. *)
Definition finish_memory_traffic (d : gmap string value) : result (gmap string value) :=
  let d := dd_touch "memory_traffic_raw" d in
  raw ← as_list (dd_get "memory_traffic_raw" d);
  memory_traffic_read ← mapM (λ item, getitem item 0) raw;
  memory_traffic_write ← mapM (λ item, getitem item 1) raw;
  read_sum ← py_sum_values memory_traffic_read;
  let d := <["memory_traffic_read_sum" := VNum read_sum]> d in
  write_sum ← py_sum_values memory_traffic_write;
  let d := <["memory_traffic_write_sum" := VNum write_sum]> d in
  Ok (<["memory_traffic" :=
          VTuple (dd_get "memory_traffic_read_sum" d)
                 (dd_get "memory_traffic_write_sum" d)]> d).

Definition finish_arithmetic_intensity (st : LoopState) (d : gmap string value)
  : result (gmap string value) :=
  w32 ← py_truediv (weighted_fp32_ai_sum st) (total_dram_bytes st);
  let d := <["weighted_fp32_arithmetic_intensity" := VNum w32]> d in
  w64 ← py_truediv (weighted_fp64_ai_sum st) (total_dram_bytes st);
  let d := <["weighted_fp64_arithmetic_intensity" := VNum w64]> d in
  Ok (<["arithmetic_intensity" :=
          VTuple (dd_get "weighted_fp32_arithmetic_intensity" d)
                 (dd_get "weighted_fp64_arithmetic_intensity" d)]> d).

Definition tera : PyNum := PyInt (10 ^ 12).

Definition finish_ncu_tflops (st : LoopState) (d : gmap string value)
  : result (gmap string value) :=
  let d := dd_touch "durations" d in
  py_assert (truthy (dd_get "durations" d))
            "No kernel durations found in the NCU report.";;
  let d := dd_touch "ncu_tflops_raw" d in
  raw ← as_list (dd_get "ncu_tflops_raw" d);
  durations ← as_list (dd_get "durations" d);
  weighted_fp32_flops_sum ← weighted_flops_sum 0 raw durations;
  weighted_fp64_flops_sum ← weighted_flops_sum 1 raw durations;
  weighted_fp32_tflops_sum ← py_truediv weighted_fp32_flops_sum tera;
  weighted_fp64_tflops_sum ← py_truediv weighted_fp64_flops_sum tera;
  t32 ← py_truediv weighted_fp32_tflops_sum (total_duration st);
  t64 ← py_truediv weighted_fp64_tflops_sum (total_duration st);
  Ok (<["ncu_tflops" := VTuple (VNum t32) (VNum t64)]> d).

(** Everything [read_ncu_report] does once the default range is in hand. *)
Definition aggregate (required_metrics : list string) (actions : list Kernel)
  : result (gmap string value) :=
  st ← foldM (loop_body required_metrics) actions init_state;
  d ← (if in_list "memory_traffic" required_metrics
       then finish_memory_traffic (results st) else Ok (results st));
  d ← (if in_list "arithmetic_intensity" required_metrics
       then finish_arithmetic_intensity st d else Ok d);
  if in_list "ncu_tflops" required_metrics
  then finish_ncu_tflops st d else Ok d.

(** [os.path.join(a, b)] for a relative [b]. *)
Definition os_path_join (a b : string) : string :=
  if String.eqb a "" then b
  else if String.eqb (String.substring (String.length a - 1) 1 a) "/" then a ++ b
  else a ++ "/" ++ b.

(** What the analyzer sees of the machine: the file system, the result of
    [shutil.which("ncu")], [os.path.dirname], and the vendor's
    [ncu_report.load_report], which yields the ranges of a report, each a
    list of kernel actions. *)
Record Env : Type := MkEnv
  { path_exists : string → bool;
    which_ncu : option string;
    os_path_dirname : string → string;
    load_report : string → list (list Kernel) }.

Definition _import_ncu_python_path (w : Env) : IO unit :=
  match which_ncu w with
  | None => io_raise (FileNotFoundError "Could not find 'ncu' command in PATH.")
  | Some ncu_path =>
      let ncu_path := os_path_dirname w ncu_path in
      if path_exists w (os_path_join ncu_path "extras/python")
      then mret tt
      else io_raise (FileNotFoundError
             ("'extras/python' does not exist in the provided ncu_path: " ++ ncu_path))
  end.

Definition read_ncu_report (w : Env) (report_path : string)
    (required_metrics : list string) : IO (gmap string value) :=
  io_assert (path_exists w report_path)
    ("The NCU report at " ++ report_path ++ " does not exist.");;
  _import_ncu_python_path w;;
  io_emit (EvLoadReport report_path);;
  let test_report := load_report w report_path in
  io_assert (0 <? Z.of_nat (length test_report))
    ("No profile data found in the NCU report at " ++ report_path);;
  let default_range := default [] (test_report !! 0%nat) in
  io_assert (0 <? Z.of_nat (length default_range))
    ("No profile data found in the default range of the NCU report at " ++ report_path);;
  io_lift (aggregate required_metrics default_range).

End Ncu.

(** ** nsys_analyzer.py *)

Module Nsys.

Abbreviation Row := (gmap string string).

(** The table in the order it is written; the dictionary is keyed by metric. *)
Definition nsys_metrics_to_reports_items : list (string * list string) :=
  [ ("nsys_gpu_kernel_sum", ["nvtx_kern_sum"; "nvtx_sum"]);
    ("nsys_launch_overhead", ["nvtx_kern_sum"; "nvtx_sum"]);
    ("nsys_kernel_names", ["nvtx_kern_sum"]);
    ("nsys_kernel_durations", ["nvtx_kern_sum"]);
    ("nsys_nvtx_range_duration", ["nvtx_sum"]);
    ("nsys_num_of_kernels", ["nvtx_kern_sum"]) ].

Definition nsys_metrics_to_reports : gmap string (list string) :=
  list_to_map nsys_metrics_to_reports_items.

Definition get_nsys_metrics (metrics : list string) : list string :=
  List.filter (λ metric_name, in_list metric_name metrics)
              (fst <$> nsys_metrics_to_reports_items).

(** What the analyzer sees of the machine.  [check_call cmd] is the run of
    the export command: [None] for a non-zero exit, otherwise the CSV files
    found afterwards, each already split into rows by [csv.DictReader]
    ([None] for a path that does not exist).  [os_path_stem p] is
    [os.path.join(os.path.dirname(p), os.path.splitext(os.path.basename(p))[0])]. *)
Record Env : Type := MkEnv
  { path_exists : string → bool;
    os_path_stem : string → string;
    check_call : string → option (string → option (list Row)) }.

Section WithBuiltins.

(** The builtins [float(s)] ([None]: [ValueError]) and [str(x)]. *)
Variable float_of_string : string → option Q.
Variable str : PyNum → string.

Definition py_float (s : string) : result PyNum :=
  match float_of_string s with
  | Some q => Ok (PyFloat q)
  | None => Raise (ValueError s)
  end.

(** [row[key]] *)
Definition row_get (row : Row) (key : string) : result string :=
  match row !! key with
  | Some s => Ok s
  | None => Raise (KeyError key)
  end.

(** The first loop of [read_nsys_report]. *)
Definition reports_of_metrics (required_metrics : list string) : list string :=
  foldl (λ reports_required metric,
           match nsys_metrics_to_reports !! metric with
           | Some reports => (reports_required ++ reports)%list
           | None => reports_required
           end) [] required_metrics.

(** [list(set(reports_required))] *)
Definition reports_required (required_metrics : list string) : list string :=
  elements (list_to_set (reports_of_metrics required_metrics) : gset string).

Fixpoint join (sep : string) (xs : list string) : string :=
  match xs with
  | [] => ""
  | [x] => x
  | x :: xs' => x ++ sep ++ join sep xs'
  end.

Definition nsys_cmd (reports : list string) (report_path : string) : string :=
  "nsys stats --report " ++ join "," reports
  ++ " --timeunit ns --force-export=true --format csv --output . --force-overwrite=true "
  ++ report_path.

Definition csv_path (w : Env) (report_path report : string) : string :=
  os_path_stem w report_path ++ "_" ++ report ++ ".csv".

(** The loop that reads one CSV per required report. *)
Fixpoint read_csvs (w : Env) (files : string → option (list Row))
    (report_path : string) (reports : list string)
    (csv_contents : gmap string (list Row)) : IO (gmap string (list Row)) :=
  match reports with
  | [] => mret csv_contents
  | report :: reports' =>
      let path := csv_path w report_path report in
      match files path with
      | None => io_raise (RuntimeError ("Expected CSV report not found at " ++ path))
      | Some rows =>
          io_emit (EvReadCsv path);;
          read_csvs w files report_path reports' (<[report := rows]> csv_contents)
      end
  end.

Definition million : PyNum := PyInt 1000000.

(** The body of the loop over the rows of the per-kernel summary. *)
Definition kernel_row (acc : list PyNum * list string) (row : Row)
  : result (list PyNum * list string) :=
  t ← row_get row "Total Time (ns)";
  ns ← py_float t;
  ms ← py_truediv ns million;
  name ← row_get row "Kernel Name";
  Ok ((fst acc ++ [ms])%list, (snd acc ++ [name])%list).

Definition metrics_map (kernel_duration : list PyNum) (kernel_names : list string)
    (sum_kernel_duration nvtx_range_duration : PyNum) : gmap string value :=
  list_to_map
    [ ("nsys_kernel_durations", VList ((λ duration, VStr (str duration)) <$> kernel_duration));
      ("nsys_kernel_names", VList (VStr <$> kernel_names));
      ("nsys_gpu_kernel_sum", VNum sum_kernel_duration);
      ("nsys_nvtx_range_duration", VNum nvtx_range_duration);
      ("nsys_launch_overhead", VNum (py_sub nvtx_range_duration sum_kernel_duration));
      ("nsys_num_of_kernels", VNum (PyInt (Z.of_nat (length kernel_names)))) ].

(** Everything between reading the CSVs and selecting the requested keys. *)
Definition analyze (csv_contents : gmap string (list Row)) : result (gmap string value) :=
  '(kernel_duration, kernel_names, sum_kernel_duration) ←
    match csv_contents !! "nvtx_kern_sum" with
    | Some rows =>
        acc ← foldM kernel_row rows ([], []);
        Ok (fst acc, snd acc, py_sum (fst acc))
    | None => Ok ([], [], PyInt 0)
    end;
  nvtx_range_duration ←
    match csv_contents !! "nvtx_sum" with
    | Some rows =>
        py_assert (Z.of_nat (length rows) =? 1) "";;
        row ← match rows !! 0%nat with
              | Some row => Ok row
              | None => Raise (KeyError "list index out of range")
              end;
        t ← row_get row "Total Time (ns)";
        ns ← py_float t;
        py_truediv ns million
    | None => Ok (PyInt 0)
    end;
  let metrics_map :=
    metrics_map kernel_duration kernel_names sum_kernel_duration nvtx_range_duration in
  py_assert (bool_decide (dom metrics_map = dom nsys_metrics_to_reports))
    "Mismatch between metrics_map keys and nsys_metrics_to_reports keys.";;
  Ok metrics_map.

(** [results.update({metric: metrics_map[metric] for metric in
    required_metrics if metric in metrics_map})] on the empty [results]. *)
Definition select (required_metrics : list string) (metrics_map : gmap string value)
  : gmap string value :=
  foldl (λ results metric,
           match metrics_map !! metric with
           | Some v => <[metric := v]> results
           | None => results
           end) ∅ required_metrics.

Definition read_nsys_report (w : Env) (report_path : string)
    (required_metrics : list string) : IO (gmap string value) :=
  io_assert (path_exists w report_path)
    ("The nsys report at " ++ report_path ++ " does not exist.");;
  let reports_required := reports_required required_metrics in
  io_assert (match reports_required with [] => false | _ => true end)
    "No nsys reports required";;
  let cmd := nsys_cmd reports_required report_path in
  io_emit (EvSubprocess cmd);;
  match check_call w cmd with
  | None => io_raise (CalledProcessError cmd)
  | Some files =>
      csv_contents ← read_csvs w files report_path reports_required ∅;
      metrics_map ← io_lift (analyze csv_contents);
      mret (select required_metrics metrics_map)
  end.

End WithBuiltins.

End Nsys.

(** ** Concrete machines and reports used by the examples *)

Module Examples.

(** A kernel action given by its counters, keyed by short metric name;
    a counter that is not listed reads [0.0]. *)
Definition kernel_of (counters : list (string * PyNum)) : Ncu.Kernel :=
  Ncu.MkKernel (λ name,
    default (PyFloat 0)
      (snd <$> List.find
         (λ p, String.eqb (default "" (Ncu.short_ncu_metric_name !! fst p)) name)
         counters)).

(** A machine with the profiler installed and one report on disk. *)
Definition ncu_env (ranges : list (list Ncu.Kernel)) : Ncu.Env :=
  Ncu.MkEnv (λ _, true) (Some "/opt/nvidia/ncu") (λ _, "/opt/nvidia") (λ _, ranges).

(** Two kernels with intensities 2 and 6 and DRAM traffic of 100 and 300
    bytes, and a kernel that computes without touching DRAM. *)
Definition kernel_a : Ncu.Kernel :=
  kernel_of [ ("inst_executed_fadd", PyFloat 2); ("sm_freq", PyFloat 10);
              ("dram_bandwidth", PyFloat 10); ("dram_bytes", PyFloat 100);
              ("dram_bytes_read", PyFloat 60); ("dram_bytes_write", PyFloat 40);
              ("duration", PyFloat 1000) ].
Definition kernel_b : Ncu.Kernel :=
  kernel_of [ ("inst_executed_ffma", PyFloat 3); ("sm_freq", PyFloat 10);
              ("dram_bandwidth", PyFloat 10); ("dram_bytes", PyFloat 300);
              ("dram_bytes_read", PyFloat 200); ("dram_bytes_write", PyFloat 100);
              ("duration", PyFloat 3000) ].
Definition kernel_no_dram : Ncu.Kernel :=
  kernel_of [ ("inst_executed_fadd", PyFloat 4); ("sm_freq", PyFloat 10);
              ("duration", PyFloat 1000) ].
Definition kernel_no_time : Ncu.Kernel :=
  kernel_of [ ("inst_executed_fadd", PyFloat 4); ("sm_freq", PyFloat 10);
              ("duration", PyFloat 0) ].

(** [kernel.metric_by_name(...)] replaced for one counter. *)
Definition with_metric (name : string) (v : PyNum) (k : Ncu.Kernel) : Ncu.Kernel :=
  Ncu.MkKernel (λ n, if String.eqb n name then v else Ncu.metric_by_name k n).

(** Enough of [float(s)] for the examples: a string of decimal digits. *)
Fixpoint digits_value (s : string) (acc : Z) : option Z :=
  match s with
  | EmptyString => Some acc
  | String c s' =>
      let n := Z.of_nat (Ascii.nat_of_ascii c) in
      if (48 <=? n) && (n <=? 57) then digits_value s' (10 * acc + (n - 48))
      else None
  end.

Definition float_of_digits (s : string) : option Q :=
  match s with
  | EmptyString => None
  | _ => inject_Z <$> digits_value s 0
  end.

(** Enough of [str(x)] for the examples: decimal digits, at least one
    after the point of a float. *)
Fixpoint frac_digits (fuel : nat) (r d : Z) : string :=
  match fuel with
  | O => ""
  | S fuel' =>
      if r =? 0 then ""
      else pretty (r * 10 / d) ++ frac_digits fuel' (r * 10 mod d) d
  end.

Definition str_decimal (x : PyNum) : string :=
  match x with
  | PyInt z => pretty z
  | PyFloat q =>
      let n := Z.abs (Qnum q) in
      let d := Z.pos (Qden q) in
      let fr := frac_digits 17 (n mod d) d in
      (if Qnum q <? 0 then "-" else "") ++ pretty (n / d) ++ "."
      ++ (if String.eqb fr "" then "0" else fr)
  end.

(** A machine on which the export succeeds and leaves the two CSVs. *)
Definition nsys_files (kern_rows range_rows : list Nsys.Row)
  : string → option (list Nsys.Row) :=
  λ path,
    if String.eqb path "bench_nvtx_kern_sum.csv" then Some kern_rows
    else if String.eqb path "bench_nvtx_sum.csv" then Some range_rows
    else None.

Definition nsys_env (kern_rows range_rows : list Nsys.Row) : Nsys.Env :=
  Nsys.MkEnv (λ _, true) (λ _, "bench") (λ _, Some (nsys_files kern_rows range_rows)).

Definition kern_row (ns name : string) : Nsys.Row :=
  {[ "Total Time (ns)" := ns; "Kernel Name" := name ]}.
Definition range_row (ns : string) : Nsys.Row :=
  {[ "Total Time (ns)" := ns; "Range" := ":tritonbench_range" ]}.

End Examples.


(** * Facts *)

(** ** Arithmetic of the number model *)

Section PyNumFacts.

Local Open Scope Q_scope.

(** A float produced by an operation is a reduced fraction. *)
Definition normal (x : PyNum) : Prop :=
  match x with
  | PyInt _ => True
  | PyFloat q => Qred q = q
  end.

Lemma Qred_idem (q : Q) : Qred (Qred q) = Qred q.
Proof. apply Qred_complete, Qred_correct. Qed.

Lemma py_num_ext (x y : PyNum) :
  normal x → normal y → is_float x = is_float y →
  to_float x == to_float y → x = y.
Proof.
  destruct x as [a|p], y as [b|q]; simpl; intros Hx Hy Ht He; try discriminate.
  - f_equal. by apply inject_Z_injective.
  - rewrite <- Hx, <- Hy. f_equal. by apply Qred_complete.
Qed.

Lemma to_float_add (x y : PyNum) :
  to_float (py_add x y) == to_float x + to_float y.
Proof.
  destruct x, y; simpl; rewrite ?Qred_correct, ?inject_Z_plus; reflexivity.
Qed.

Lemma to_float_mul (x y : PyNum) :
  to_float (py_mul x y) == to_float x * to_float y.
Proof.
  destruct x, y; simpl; rewrite ?Qred_correct, ?inject_Z_mult; reflexivity.
Qed.

Lemma to_float_sub (x y : PyNum) :
  to_float (py_sub x y) == to_float x - to_float y.
Proof.
  destruct x, y; simpl; rewrite ?Qred_correct; try reflexivity.
  unfold Z.sub. rewrite inject_Z_plus, inject_Z_opp. reflexivity.
Qed.

Lemma is_float_add (x y : PyNum) :
  is_float (py_add x y) = is_float x || is_float y.
Proof. by destruct x, y. Qed.

Lemma is_float_mul (x y : PyNum) :
  is_float (py_mul x y) = is_float x || is_float y.
Proof. by destruct x, y. Qed.

Lemma normal_add (x y : PyNum) : normal (py_add x y).
Proof. destruct x, y; simpl; auto using Qred_idem. Qed.

Lemma normal_mul (x y : PyNum) : normal (py_mul x y).
Proof. destruct x, y; simpl; auto using Qred_idem. Qed.

Lemma py_add_comm (x y : PyNum) : py_add x y = py_add y x.
Proof.
  apply py_num_ext; auto using normal_add.
  - rewrite !is_float_add. apply orb_comm.
  - rewrite !to_float_add. ring.
Qed.

Lemma py_add_assoc (x y z : PyNum) :
  py_add (py_add x y) z = py_add x (py_add y z).
Proof.
  apply py_num_ext; auto using normal_add.
  - rewrite !is_float_add. symmetry. apply orb_assoc.
  - rewrite !to_float_add. ring.
Qed.

Lemma py_add_swap (a x y : PyNum) :
  py_add (py_add a x) y = py_add (py_add a y) x.
Proof. by rewrite !py_add_assoc, (py_add_comm x y). Qed.

End PyNumFacts.

Lemma fold_left_py_add_perm (xs ys : list PyNum) (a : PyNum) :
  xs ≡ₚ ys → fold_left py_add xs a = fold_left py_add ys a.
Proof.
  intros Hp. revert a.
  induction Hp as [|x xs ys _ IH|x y xs|xs ys zs _ IH1 _ IH2]; intros a; simpl.
  - done.
  - apply IH.
  - by rewrite py_add_swap.
  - by rewrite IH1.
Qed.

Lemma py_sum_perm (xs ys : list PyNum) : xs ≡ₚ ys → py_sum xs = py_sum ys.
Proof. apply fold_left_py_add_perm. Qed.

(** ** Generic facts about the monads and the dictionary helpers *)

Lemma bind_Ok {A B} (m : result A) (f : A → result B) (b : B) :
  (m ≫= f) = Ok b → ∃ a, m = Ok a ∧ f a = Ok b.
Proof. destruct m as [a|e]; simpl; [eauto | discriminate]. Qed.

Lemma Ok_inj {A} (a b : A) : Ok a = Ok b → a = b.
Proof. by intros [= ->]. Qed.

Lemma foldM_app {S A} (body : S → A → result S) (l1 l2 : list A) (st : S) :
  foldM body (l1 ++ l2) st = (foldM body l1 st ≫= foldM body l2).
Proof.
  revert st. induction l1 as [|a l1 IH]; intros st; simpl; [done|].
  destruct (body st a) as [st'|e]; simpl; [apply IH | done].
Qed.

Lemma foldM_ext {S A} (f g : S → A → result S) (l : list A) (st : S) :
  (∀ s a, f s a = g s a) → foldM f l st = foldM g l st.
Proof.
  intros Hfg. revert st. induction l as [|a l IH]; intros st; simpl; [done|].
  rewrite Hfg. destruct (g st a); simpl; auto.
Qed.

Lemma mapM_Ok {A B} (f : A → result B) (g : A → B) (l : list A) :
  Forall (λ x, f x = Ok (g x)) l → mapM f l = Ok (g <$> l).
Proof.
  induction 1 as [|x l Hx _ IH]; [done|].
  simpl. rewrite Hx. simpl. by rewrite IH.
Qed.

Lemma py_sum_values_from (xs : list PyNum) (a : PyNum) :
  foldM (λ acc v, x ← as_num v; Ok (py_add acc x)) (VNum <$> xs) a
  = Ok (fold_left py_add xs a).
Proof. revert a. induction xs as [|x xs IH]; intros a; simpl; [done | apply IH]. Qed.

Lemma py_sum_values_nums (xs : list PyNum) :
  py_sum_values (VNum <$> xs) = Ok (py_sum xs).
Proof. apply py_sum_values_from. Qed.

Lemma py_sum_snoc (xs : list PyNum) (x : PyNum) :
  py_sum (xs ++ [x]) = py_add (py_sum xs) x.
Proof. unfold py_sum. by rewrite fold_left_app. Qed.

Lemma py_truediv_Ok (x y : PyNum) :
  py_is_zero y = false → py_truediv x y = Ok (quotient x y).
Proof. unfold py_truediv. by intros ->. Qed.

Lemma in_list_elem_of (x : string) (xs : list string) :
  in_list x xs = true ↔ x ∈ xs.
Proof.
  induction xs as [|y ys IH]; simpl.
  - split; [done | by intros ?%not_elem_of_nil].
  - rewrite orb_true_iff, String.eqb_eq, IH, elem_of_cons. done.
Qed.

Lemma io_ret_bind {A B} (a : A) (f : A → IO B) : (mret a ≫= f) = f a.
Proof. unfold mbind, IO_bind. simpl. by destruct (f a). Qed.

Lemma io_emit_bind {B} (ev : event) (f : () → IO B) :
  (io_emit ev ≫= f) = MkIO (ev :: trace (f tt)) (outcome (f tt)).
Proof. reflexivity. Qed.

Lemma io_Ok_bind {A B} (tr : list event) (a : A) (f : A → IO B) :
  (MkIO tr (Ok a) ≫= f) = MkIO (tr ++ trace (f a)) (outcome (f a)).
Proof. reflexivity. Qed.

Lemma io_lift_bind_ret {A B} (r : result A) (g : A → B) :
  (io_lift r ≫= λ a, mret (g a)) = MkIO [] (r ≫= λ a, Ok (g a)).
Proof. by destruct r. Qed.

Lemma dd_append_list (k : string) (v : value) (d : gmap string value) (l : list value) :
  dd_get k d = VList l → dd_append k v d = Ok (<[k := VList (l ++ [v])]> d).
Proof. unfold dd_append. by intros ->. Qed.

(** ** The loop over the kernel actions *)

Module NcuLoop.
Import Ncu.

(** Per-kernel intensity where the division is defined. *)
Definition intensity (k : Kernel) : PyNum * PyNum :=
  (quotient (fst (get_flops k)) (counter k "dram_bandwidth"),
   quotient (snd (get_flops k)) (counter k "dram_bandwidth")).

Definition dram_bytes (k : Kernel) : PyNum := counter k "dram_bytes".

Definition weighted32 (k : Kernel) : PyNum := py_mul (fst (intensity k)) (dram_bytes k).
Definition weighted64 (k : Kernel) : PyNum := py_mul (snd (intensity k)) (dram_bytes k).

(** A [defaultdict] key exists once something was appended under it. *)
Definition entry (b : bool) (vs : list value) : option value :=
  if b then match vs with [] => None | _ => Some (VList vs) end else None.

Definition loop_lookup (req : list string) (ks : list Kernel) (key : string)
  : option value :=
  if decide (key = "durations") then
    entry (needs_duration req) ((λ k, VNum (get_duration k)) <$> ks)
  else if decide (key = "memory_traffic_raw") then
    entry (in_list "memory_traffic" req) ((λ k, pair_value (get_mem_traffic k)) <$> ks)
  else if decide (key = "arithmetic_intensity_raw") then
    entry (in_list "arithmetic_intensity" req) ((λ k, pair_value (intensity k)) <$> ks)
  else if decide (key = "ncu_tflops_raw") then
    entry (in_list "ncu_tflops" req) ((λ k, pair_value (get_flops k)) <$> ks)
  else None.

Definition when (b : bool) (x : PyNum) : PyNum := if b then x else PyInt 0.

Record loop_inv (req : list string) (ks : list Kernel) (st : LoopState) : Prop :=
  { inv_duration :
      total_duration st = when (needs_duration req) (py_sum (get_duration <$> ks));
    inv_bytes :
      total_dram_bytes st
      = when (in_list "arithmetic_intensity" req) (py_sum (dram_bytes <$> ks));
    inv_w32 :
      weighted_fp32_ai_sum st
      = when (in_list "arithmetic_intensity" req) (py_sum (weighted32 <$> ks));
    inv_w64 :
      weighted_fp64_ai_sum st
      = when (in_list "arithmetic_intensity" req) (py_sum (weighted64 <$> ks));
    inv_results : ∀ key, results st !! key = loop_lookup req ks key }.

Lemma entry_get (key : string) (d : gmap string value) (vs : list value) :
  d !! key = entry true vs → dd_get key d = VList vs.
Proof. unfold dd_get. intros ->. by destruct vs. Qed.

Lemma entry_snoc (vs : list value) (v : value) :
  entry true (vs ++ [v]) = Some (VList (vs ++ [v])).
Proof. by destruct vs. Qed.

Lemma get_arithmetic_intensity_Ok (k : Kernel) :
  py_is_zero (counter k "dram_bandwidth") = false →
  get_arithmetic_intensity k = Ok (intensity k).
Proof.
  intros Hz. unfold get_arithmetic_intensity, intensity.
  destruct (get_flops k) as [f32 f64]. simpl.
  by rewrite !py_truediv_Ok.
Qed.

Lemma loop_inv_init (req : list string) : loop_inv req [] init_state.
Proof.
  split; simpl; unfold when; try by case_match.
  intros key. rewrite lookup_empty. unfold loop_lookup.
  repeat case_decide; try done; unfold entry; by repeat case_match.
Qed.

Lemma loop_lookup_durations req ks :
  loop_lookup req ks "durations"
  = entry (needs_duration req) ((λ k, VNum (get_duration k)) <$> ks).
Proof. done. Qed.
Lemma loop_lookup_memory_traffic_raw req ks :
  loop_lookup req ks "memory_traffic_raw"
  = entry (in_list "memory_traffic" req) ((λ k, pair_value (get_mem_traffic k)) <$> ks).
Proof. done. Qed.
Lemma loop_lookup_arithmetic_intensity_raw req ks :
  loop_lookup req ks "arithmetic_intensity_raw"
  = entry (in_list "arithmetic_intensity" req) ((λ k, pair_value (intensity k)) <$> ks).
Proof. done. Qed.
Lemma loop_lookup_ncu_tflops_raw req ks :
  loop_lookup req ks "ncu_tflops_raw"
  = entry (in_list "ncu_tflops" req) ((λ k, pair_value (get_flops k)) <$> ks).
Proof. done. Qed.

#[local] Arguments entry : simpl never.
#[local] Arguments py_add : simpl never.
#[local] Arguments py_mul : simpl never.
#[local] Arguments quotient : simpl never.
#[local] Arguments counter : simpl never.
#[local] Arguments get_flops : simpl never.
#[local] Arguments get_duration : simpl never.
#[local] Arguments get_mem_traffic : simpl never.
#[local] Arguments intensity : simpl never.
#[local] Arguments pair_value : simpl never.
#[local] Arguments py_sum : simpl never.

Ltac dd_step :=
  erewrite dd_append_list
    by (apply entry_get; simpl; rewrite ?lookup_insert_ne by done; eassumption);
  simpl.

Lemma loop_body_step (req : list string) (ks : list Kernel) (st : LoopState)
    (k : Kernel) :
  loop_inv req ks st →
  (in_list "arithmetic_intensity" req = true →
   py_is_zero (counter k "dram_bandwidth") = false) →
  ∃ st', loop_body req st k = Ok st' ∧ loop_inv req (ks ++ [k]) st'.
Proof.
  intros [Hd Hb H32 H64 Hr] Hbw.
  pose proof (Hr "durations") as R1.
  pose proof (Hr "memory_traffic_raw") as R2.
  pose proof (Hr "arithmetic_intensity_raw") as R3.
  pose proof (Hr "ncu_tflops_raw") as R4.
  rewrite loop_lookup_durations in R1.
  rewrite loop_lookup_memory_traffic_raw in R2.
  rewrite loop_lookup_arithmetic_intensity_raw in R3.
  rewrite loop_lookup_ncu_tflops_raw in R4.
  unfold loop_body, needs_duration in *.
  destruct (in_list "memory_traffic" req) eqn:Emt,
           (in_list "arithmetic_intensity" req) eqn:Eai,
           (in_list "ncu_tflops" req) eqn:Etf; simpl in *;
    rewrite ?get_arithmetic_intensity_Ok by auto; simpl.
  all: repeat dd_step.
  all: eexists; split; [reflexivity|].
  all: split; simpl; unfold needs_duration; rewrite ?Emt, ?Eai, ?Etf; simpl;
    rewrite ?fmap_app; simpl; rewrite ?py_sum_snoc; try congruence.
  all: try (rewrite ?Hb, ?H32, ?H64; reflexivity).
  all: intros key; rewrite ?lookup_insert; unfold loop_lookup, needs_duration;
    rewrite ?Emt, ?Eai, ?Etf; simpl; rewrite ?fmap_app; simpl;
    repeat case_decide; subst; rewrite ?entry_snoc; try done.
  all: rewrite Hr; unfold loop_lookup, needs_duration; rewrite ?Emt, ?Eai, ?Etf;
    repeat case_decide; done.
Qed.

Lemma loop_run (req : list string) (ks : list Kernel) :
  (in_list "arithmetic_intensity" req = true →
   Forall (λ k, py_is_zero (counter k "dram_bandwidth") = false) ks) →
  ∃ st, foldM (loop_body req) ks init_state = Ok st ∧ loop_inv req ks st.
Proof.
  induction ks as [|k ks IH] using rev_ind; intros Hbw.
  - exists init_state. split; [done | apply loop_inv_init].
  - destruct IH as (st & Hrun & Hinv).
    { intros Hai. specialize (Hbw Hai). by apply Forall_app in Hbw as [? _]. }
    destruct (loop_body_step req ks st k Hinv) as (st' & Hstep & Hinv').
    { intros Hai. specialize (Hbw Hai). apply Forall_app in Hbw as [_ Hk].
      by inversion Hk. }
    exists st'. split; [|done].
    rewrite foldM_app, Hrun. simpl. by rewrite Hstep.
Qed.

Lemma dd_get_Some (k : string) (d : gmap string value) (v : value) :
  d !! k = Some v → dd_get k d = v.
Proof. unfold dd_get. by intros ->. Qed.

Lemma mapM_fmap_Ok {A B C} (f : B → result C) (h : A → B) (g : A → C) (l : list A) :
  (∀ x, f (h x) = Ok (g x)) → mapM f (h <$> l) = Ok (g <$> l).
Proof.
  intros Hf. induction l as [|x l IH]; [done|].
  cbn. change (list_fmap A B h l) with (h <$> l). rewrite Hf. cbn.
  change ((fix go (l0 : list B) : result (list C) :=
          match l0 with
          | [] => mret []
          | x0 :: l1 => f x0 ≫= λ y : C, go l1 ≫= λ k : list C, mret (y :: k)
          end) (h <$> l)) with (mapM f (h <$> l)).
  by rewrite IH.
Qed.

Lemma py_sum_values_fmap {A} (g : A → PyNum) (l : list A) :
  py_sum_values ((λ x, VNum (g x)) <$> l) = Ok (py_sum (g <$> l)).
Proof.
  rewrite <- py_sum_values_nums. f_equal.
  by rewrite <- list_fmap_compose.
Qed.

Lemma zip_fmap_diag {A B C} (f : A → B) (g : A → C) (l : list A) :
  zip (f <$> l) (g <$> l) = (λ x, (f x, g x)) <$> l.
Proof. induction l as [|x l IH]; [done|]. cbn. f_equal. apply IH. Qed.

(** Per-kernel products summed for [ncu_tflops]. *)
Definition flops_time32 (k : Kernel) : PyNum := py_mul (fst (get_flops k)) (get_duration k).
Definition flops_time64 (k : Kernel) : PyNum := py_mul (snd (get_flops k)) (get_duration k).

Definition memory_traffic_value (ks : list Kernel) : value :=
  VTuple (VNum (py_sum ((λ k, fst (get_mem_traffic k)) <$> ks)))
         (VNum (py_sum ((λ k, snd (get_mem_traffic k)) <$> ks))).

Definition arithmetic_intensity_value (ks : list Kernel) : value :=
  VTuple (VNum (quotient (py_sum (weighted32 <$> ks)) (py_sum (dram_bytes <$> ks))))
         (VNum (quotient (py_sum (weighted64 <$> ks)) (py_sum (dram_bytes <$> ks)))).

Definition ncu_tflops_value (ks : list Kernel) : value :=
  VTuple (VNum (quotient (quotient (py_sum (flops_time32 <$> ks)) tera)
                         (py_sum (get_duration <$> ks))))
         (VNum (quotient (quotient (py_sum (flops_time64 <$> ks)) tera)
                         (py_sum (get_duration <$> ks)))).

Lemma finish_memory_traffic_Ok (d : gmap string value) (ks : list Kernel) :
  d !! "memory_traffic_raw"
    = Some (VList ((λ k, pair_value (get_mem_traffic k)) <$> ks)) →
  finish_memory_traffic d
  = Ok (<["memory_traffic" := memory_traffic_value ks]>
         (<["memory_traffic_write_sum" :=
              VNum (py_sum ((λ k, snd (get_mem_traffic k)) <$> ks))]>
           (<["memory_traffic_read_sum" :=
                VNum (py_sum ((λ k, fst (get_mem_traffic k)) <$> ks))]> d))).
Proof.
  intros Hraw. unfold finish_memory_traffic, dd_touch. rewrite Hraw.
  cbv zeta. rewrite (dd_get_Some _ _ _ Hraw). cbn [as_list mbind result_bind].
  rewrite (mapM_fmap_Ok (λ item, getitem item 0) _
             (λ k, VNum (fst (get_mem_traffic k)))) by done.
  cbn [mbind result_bind].
  rewrite (mapM_fmap_Ok (λ item, getitem item 1) _
             (λ k, VNum (snd (get_mem_traffic k)))) by done.
  cbn [mbind result_bind].
  rewrite !py_sum_values_fmap. cbn [mbind result_bind].
  unfold dd_get. by simplify_map_eq.
Qed.

Lemma finish_arithmetic_intensity_Ok (st : LoopState) (d : gmap string value)
    (ks : list Kernel) :
  weighted_fp32_ai_sum st = py_sum (weighted32 <$> ks) →
  weighted_fp64_ai_sum st = py_sum (weighted64 <$> ks) →
  total_dram_bytes st = py_sum (dram_bytes <$> ks) →
  py_is_zero (py_sum (dram_bytes <$> ks)) = false →
  finish_arithmetic_intensity st d
  = Ok (<["arithmetic_intensity" := arithmetic_intensity_value ks]>
         (<["weighted_fp64_arithmetic_intensity" :=
              VNum (quotient (py_sum (weighted64 <$> ks)) (py_sum (dram_bytes <$> ks)))]>
           (<["weighted_fp32_arithmetic_intensity" :=
                VNum (quotient (py_sum (weighted32 <$> ks)) (py_sum (dram_bytes <$> ks)))]> d))).
Proof.
  intros H32 H64 Hb Hz. unfold finish_arithmetic_intensity.
  rewrite H32, H64, Hb.
  rewrite !py_truediv_Ok by done. cbn [mbind result_bind].
  unfold dd_get. by simplify_map_eq.
Qed.

Lemma weighted_flops_sum_0 (ks : list Kernel) :
  weighted_flops_sum 0 ((λ k, pair_value (get_flops k)) <$> ks)
                       ((λ k, VNum (get_duration k)) <$> ks)
  = Ok (py_sum (flops_time32 <$> ks)).
Proof.
  unfold weighted_flops_sum. rewrite zip_fmap_diag.
  rewrite (mapM_fmap_Ok _ _ (λ k, VNum (flops_time32 k))) by done.
  cbn [mbind result_bind]. apply py_sum_values_fmap.
Qed.

Lemma weighted_flops_sum_1 (ks : list Kernel) :
  weighted_flops_sum 1 ((λ k, pair_value (get_flops k)) <$> ks)
                       ((λ k, VNum (get_duration k)) <$> ks)
  = Ok (py_sum (flops_time64 <$> ks)).
Proof.
  unfold weighted_flops_sum. rewrite zip_fmap_diag.
  rewrite (mapM_fmap_Ok _ _ (λ k, VNum (flops_time64 k))) by done.
  cbn [mbind result_bind]. apply py_sum_values_fmap.
Qed.

Lemma finish_ncu_tflops_Ok (st : LoopState) (d : gmap string value)
    (ks : list Kernel) :
  ks ≠ [] →
  d !! "durations" = Some (VList ((λ k, VNum (get_duration k)) <$> ks)) →
  d !! "ncu_tflops_raw" = Some (VList ((λ k, pair_value (get_flops k)) <$> ks)) →
  total_duration st = py_sum (get_duration <$> ks) →
  py_is_zero (py_sum (get_duration <$> ks)) = false →
  finish_ncu_tflops st d = Ok (<["ncu_tflops" := ncu_tflops_value ks]> d).
Proof.
  intros Hne Hd Hraw Ht Hz. unfold finish_ncu_tflops, dd_touch.
  rewrite Ht, Hd. cbv zeta. rewrite Hraw.
  rewrite (dd_get_Some _ _ _ Hd), (dd_get_Some _ _ _ Hraw).
  replace (truthy _) with true by (by destruct ks).
  cbn [py_assert mbind result_bind as_list].
  rewrite weighted_flops_sum_0, weighted_flops_sum_1. cbn [mbind result_bind].
  rewrite !(py_truediv_Ok _ tera) by done. cbn [mbind result_bind].
  by rewrite !py_truediv_Ok by done.
Qed.

Lemma entry_fmap {A} (f : A → value) (l : list A) :
  l ≠ [] → entry true (f <$> l) = Some (VList (f <$> l)).
Proof. by destruct l. Qed.

(** What [aggregate] returns when no division in it is by zero. *)
Lemma aggregate_Ok (req : list string) (ks : list Kernel) :
  ks ≠ [] →
  (in_list "arithmetic_intensity" req = true →
   Forall (λ k, py_is_zero (counter k "dram_bandwidth") = false) ks
   ∧ py_is_zero (py_sum (dram_bytes <$> ks)) = false) →
  (in_list "ncu_tflops" req = true →
   py_is_zero (py_sum (get_duration <$> ks)) = false) →
  ∃ d, aggregate req ks = Ok d
    ∧ (in_list "memory_traffic" req = true →
       d !! "memory_traffic" = Some (memory_traffic_value ks))
    ∧ (in_list "arithmetic_intensity" req = true →
       d !! "arithmetic_intensity" = Some (arithmetic_intensity_value ks))
    ∧ (in_list "ncu_tflops" req = true →
       d !! "ncu_tflops" = Some (ncu_tflops_value ks)).
Proof.
  intros Hne Hai Htf.
  destruct (loop_run req ks) as (st & Hrun & [Hd Hb H32 H64 Hr]).
  { intros H. by destruct (Hai H). }
  pose proof (Hr "durations") as R1.
  pose proof (Hr "memory_traffic_raw") as R2.
  pose proof (Hr "ncu_tflops_raw") as R4.
  rewrite loop_lookup_durations in R1.
  rewrite loop_lookup_memory_traffic_raw in R2.
  rewrite loop_lookup_ncu_tflops_raw in R4.
  unfold aggregate. rewrite Hrun. cbn [mbind result_bind].
  unfold needs_duration in *.
  destruct (in_list "memory_traffic" req) eqn:Emt,
           (in_list "arithmetic_intensity" req) eqn:Eai,
           (in_list "ncu_tflops" req) eqn:Etf;
    cbn [orb when] in *;
    try rewrite (entry_fmap _ _ Hne) in R1;
    try rewrite (entry_fmap _ _ Hne) in R2;
    try rewrite (entry_fmap _ _ Hne) in R4.
  all: try (destruct Hai as [_ Hbz]; [done|]).
  all: try specialize (Htf eq_refl).
  all: rewrite ?(finish_memory_traffic_Ok _ ks) by done; cbn [mbind result_bind].
  all: rewrite ?(finish_arithmetic_intensity_Ok _ _ ks) by done; cbn [mbind result_bind].
  all: rewrite ?(finish_ncu_tflops_Ok _ _ ks)
         by (try done; rewrite ?lookup_insert_ne by done; done);
       cbn [mbind result_bind].
  all: eexists; split; [reflexivity|].
  all: repeat split; intros; try discriminate; by simplify_map_eq.
Qed.

(** The machine lets [read_ncu_report] get as far as loading the report. *)
Definition ready (w : Env) (report_path : string) : Prop :=
  path_exists w report_path = true
  ∧ ∃ ncu_path, which_ncu w = Some ncu_path
      ∧ path_exists w (os_path_join (os_path_dirname w ncu_path) "extras/python") = true.

Definition no_ranges_msg (report_path : string) : string :=
  "No profile data found in the NCU report at " ++ report_path.
Definition no_actions_msg (report_path : string) : string :=
  "No profile data found in the default range of the NCU report at " ++ report_path.

Lemma read_ncu_report_ready (w : Env) (report_path : string) (req : list string) :
  ready w report_path →
  read_ncu_report w report_path req
  = MkIO [EvLoadReport report_path]
      match load_report w report_path with
      | [] => Raise (AssertionError (no_ranges_msg report_path))
      | [] :: _ => Raise (AssertionError (no_actions_msg report_path))
      | (k :: ks) :: _ => aggregate req (k :: ks)
      end.
Proof.
  intros (Hp & ncu & Hw & Hx).
  unfold read_ncu_report, _import_ncu_python_path. rewrite Hp, Hw, Hx.
  destruct (load_report w report_path) as [|[|k ks] rest]; reflexivity.
Qed.

Lemma aggregate_flags (req req' : list string) (ks : list Kernel) :
  in_list "memory_traffic" req = in_list "memory_traffic" req' →
  in_list "arithmetic_intensity" req = in_list "arithmetic_intensity" req' →
  in_list "ncu_tflops" req = in_list "ncu_tflops" req' →
  aggregate req ks = aggregate req' ks.
Proof.
  intros Hmt Hai Htf. unfold aggregate.
  rewrite (foldM_ext (loop_body req) (loop_body req')).
  - by rewrite Hmt, Hai, Htf.
  - intros st k. unfold loop_body, needs_duration. by rewrite Hmt, Hai, Htf.
Qed.

Lemma aggregate_nothing (ks : list Kernel) : aggregate [] ks = Ok ∅.
Proof.
  unfold aggregate.
  assert (∀ st, foldM (loop_body []) ks st = Ok st) as ->; [|done].
  induction ks as [|k ks IH]; intros st; [done|]. cbn. apply IH.
Qed.

Lemma memory_traffic_value_perm (ks ks' : list Kernel) :
  ks ≡ₚ ks' → memory_traffic_value ks = memory_traffic_value ks'.
Proof.
  intros Hp. unfold memory_traffic_value.
  by rewrite (py_sum_perm _ _ (fmap_Permutation (λ k, fst (get_mem_traffic k)) _ _ Hp)),
             (py_sum_perm _ _ (fmap_Permutation (λ k, snd (get_mem_traffic k)) _ _ Hp)).
Qed.

(** *** The keys of the returned dictionary *)

Definition loop_keys : gset string :=
  {[ "durations"; "memory_traffic_raw"; "arithmetic_intensity_raw"; "ncu_tflops_raw" ]}.

Definition result_keys : gset string :=
  loop_keys ∪
  {[ "memory_traffic_read_sum"; "memory_traffic_write_sum"; "memory_traffic";
     "weighted_fp32_arithmetic_intensity"; "weighted_fp64_arithmetic_intensity";
     "arithmetic_intensity"; "ncu_tflops" ]}.

Ltac inv_bind :=
  repeat match goal with
  | H : (_ ≫= _) = Ok _ |- _ =>
      apply bind_Ok in H as (? & ? & ?)
  | H : Ok _ = Ok _ |- _ => apply Ok_inj in H
  | H : (if ?b then _ else _) = Ok _ |- _ => destruct b eqn:?
  | H : Raise _ = Ok _ |- _ => discriminate H
  end.

Ltac keys_solver :=
  repeat match goal with
  | H : _ ⊆ _ |- _ => rewrite elem_of_subseteq in H
  end;
  apply elem_of_subseteq; intros ?key;
  repeat match goal with
  | H : ∀ x : string, _ |- _ => specialize (H key)
  end;
  rewrite ?dom_insert_L, ?dom_empty_L in *;
  rewrite ?elem_of_union, ?elem_of_singleton in *;
  rewrite ?elem_of_empty in *;
  tauto.

Lemma dd_append_dom (k : string) (v : value) (d d' : gmap string value) :
  dd_append k v d = Ok d' → dom d' = {[k]} ∪ dom d.
Proof.
  unfold dd_append. destruct (dd_get k d); try discriminate.
  intros [= <-]. apply dom_insert_L.
Qed.

Lemma dd_touch_dom (k : string) (d : gmap string value) :
  dom (dd_touch k d) ⊆ {[k]} ∪ dom d.
Proof.
  unfold dd_touch. destruct (d !! k); [keys_solver|].
  rewrite dom_insert_L. keys_solver.
Qed.

Lemma loop_body_dom (req : list string) (st st' : LoopState) (k : Kernel) :
  loop_body req st k = Ok st' →
  dom (results st') ⊆ loop_keys ∪ dom (results st).
Proof.
  unfold loop_body, loop_keys. intros H. inv_bind; subst; simpl in *;
    repeat match goal with
    | H : dd_append _ _ _ = Ok _ |- _ =>
        let D := fresh "D" in pose proof (dd_append_dom _ _ _ _ H) as D; clear H
    end.
  all: repeat match goal with D : dom _ = _ |- _ => rewrite D; clear D end.
  all: clear; keys_solver.
Qed.

Lemma foldM_loop_dom (req : list string) (ks : list Kernel) (st st' : LoopState) :
  foldM (loop_body req) ks st = Ok st' →
  dom (results st') ⊆ loop_keys ∪ dom (results st).
Proof.
  revert st. induction ks as [|k ks IH]; intros st; simpl.
  - intros [= <-]. keys_solver.
  - intros H. apply bind_Ok in H as (st1 & H1 & H2).
    apply loop_body_dom in H1. apply IH in H2. keys_solver.
Qed.

Lemma finish_memory_traffic_dom (d d' : gmap string value) :
  finish_memory_traffic d = Ok d' → dom d' ⊆ result_keys ∪ dom d.
Proof.
  unfold finish_memory_traffic. intros H. inv_bind. subst.
  pose proof (dd_touch_dom "memory_traffic_raw" d).
  rewrite !dom_insert_L. unfold result_keys, loop_keys. keys_solver.
Qed.

Lemma finish_arithmetic_intensity_dom (st : LoopState) (d d' : gmap string value) :
  finish_arithmetic_intensity st d = Ok d' → dom d' ⊆ result_keys ∪ dom d.
Proof.
  unfold finish_arithmetic_intensity. intros H. inv_bind. subst.
  rewrite !dom_insert_L. unfold result_keys, loop_keys. keys_solver.
Qed.

Lemma finish_ncu_tflops_dom (st : LoopState) (d d' : gmap string value) :
  finish_ncu_tflops st d = Ok d' → dom d' ⊆ result_keys ∪ dom d.
Proof.
  unfold finish_ncu_tflops. intros H. inv_bind. subst.
  pose proof (dd_touch_dom "durations" d).
  pose proof (dd_touch_dom "ncu_tflops_raw" (dd_touch "durations" d)).
  rewrite !dom_insert_L. unfold result_keys, loop_keys. keys_solver.
Qed.

Lemma aggregate_dom (req : list string) (ks : list Kernel) (d : gmap string value) :
  aggregate req ks = Ok d → dom d ⊆ result_keys.
Proof.
  unfold aggregate. intros H.
  apply bind_Ok in H as (st & Hloop & H).
  apply bind_Ok in H as (d1 & H1 & H).
  apply bind_Ok in H as (d2 & H2 & H3).
  apply foldM_loop_dom in Hloop. simpl in Hloop.
  assert (dom d1 ⊆ result_keys) as D1.
  { destruct (in_list "memory_traffic" req).
    - apply finish_memory_traffic_dom in H1. unfold result_keys in *. keys_solver.
    - injection H1 as <-. unfold result_keys. keys_solver. }
  assert (dom d2 ⊆ result_keys) as D2.
  { destruct (in_list "arithmetic_intensity" req).
    - apply finish_arithmetic_intensity_dom in H2. keys_solver.
    - by injection H2 as <-. }
  destruct (in_list "ncu_tflops" req).
  - apply finish_ncu_tflops_dom in H3. keys_solver.
  - by injection H3 as <-.
Qed.

End NcuLoop.

Example counter_name :
  default "" (Ncu.short_ncu_metric_name !! "sm_freq") = "smsp__cycles_elapsed.avg.per_second".
Proof. reflexivity. Qed.

(** ** Facts about the nsys analyzer *)

Module NsysFacts.
Import Nsys.

Lemma select_lookup (req : list string) (mm : gmap string value) (k : string) :
  select req mm !! k = if decide (k ∈ req) then mm !! k else None.
Proof.
  unfold select.
  assert (∀ acc : gmap string value, foldl (λ results metric,
             match mm !! metric with
             | Some v => <[metric := v]> results
             | None => results
             end) acc req !! k
           = match (if decide (k ∈ req) then mm !! k else None) with
             | Some v => Some v
             | None => acc !! k
             end) as H.
  { induction req as [|m req IH]; intros acc; cbn [foldl].
    - by rewrite decide_False by apply not_elem_of_nil.
    - rewrite IH. clear IH.
      destruct (decide (k = m)) as [->|Hne].
      + rewrite (decide_True (P := m ∈ m :: req)) by left.
        destruct (mm !! m) eqn:Em; case_decide; rewrite ?lookup_insert_eq; done.
      + assert (k ∈ m :: req ↔ k ∈ req) as Hiff by (rewrite elem_of_cons; tauto).
        rewrite (decide_ext _ _ _ _ Hiff).
        destruct (mm !! m); rewrite ?lookup_insert_ne by done; done. }
  rewrite H. by destruct (if decide (k ∈ req) then mm !! k else None).
Qed.


Section WithBuiltins.

Variable float_of_string : string → option Q.
Variable str : PyNum → string.

(** A row of the per-kernel summary that the loop body accepts. *)
Definition row_parses (row : Row) (p : Q * string) : Prop :=
  ∃ t, row !! "Total Time (ns)" = Some t
     ∧ float_of_string t = Some (fst p)
     ∧ row !! "Kernel Name" = Some (snd p).

(** Nanoseconds to milliseconds, as the code does it. *)
Definition ms_of_ns (ns : Q) : PyNum := quotient (PyFloat ns) million.

Definition kernel_ms (parsed : list (Q * string)) : list PyNum :=
  (λ p, ms_of_ns (fst p)) <$> parsed.

Lemma reports_of_metrics_elem (req : list string) (r : string) :
  r ∈ reports_of_metrics req
  ↔ ∃ m rs, m ∈ req ∧ nsys_metrics_to_reports !! m = Some rs ∧ r ∈ rs.
Proof.
  unfold reports_of_metrics.
  assert (∀ acc, r ∈ foldl (λ reports_required metric,
             match nsys_metrics_to_reports !! metric with
             | Some reports => (reports_required ++ reports)%list
             | None => reports_required
             end) acc req
           ↔ r ∈ acc ∨ ∃ m rs, m ∈ req ∧ nsys_metrics_to_reports !! m = Some rs ∧ r ∈ rs) as H.
  { induction req as [|m req IH]; intros acc; simpl.
    - split; [auto|]. intros [?|(m & rs & Hm & _)]; [done|]. by apply not_elem_of_nil in Hm.
    - rewrite IH. split.
      + intros [Hacc|(m' & rs & Hm & Ht & Hr)].
        * destruct (nsys_metrics_to_reports !! m) as [rs|] eqn:E; [|by left].
          apply elem_of_app in Hacc as [?|?]; [by left|].
          right. exists m, rs. split; [left|done].
        * right. exists m', rs. split; [by right|done].
      + intros [Hacc|(m' & rs & Hm & Ht & Hr)].
        * left. destruct (nsys_metrics_to_reports !! m); [|done].
          apply elem_of_app. by left.
        * apply elem_of_cons in Hm as [->|Hm].
          -- left. rewrite Ht. apply elem_of_app. by right.
          -- right. by exists m', rs. }
  rewrite H. split; [|auto]. intros [Hnil|?]; [|done]. by apply not_elem_of_nil in Hnil.
Qed.

Lemma reports_required_elem (req : list string) (r : string) :
  r ∈ reports_required req
  ↔ ∃ m rs, m ∈ req ∧ nsys_metrics_to_reports !! m = Some rs ∧ r ∈ rs.
Proof.
  unfold reports_required.
  by rewrite elem_of_elements, elem_of_list_to_set, reports_of_metrics_elem.
Qed.

Lemma read_csvs_Ok (w : Env) (files : string → option (list Row))
    (path : string) (reports : list string) (csv0 : gmap string (list Row)) :
  (∀ r, r ∈ reports → is_Some (files (csv_path w path r))) →
  ∃ csv,
    read_csvs w files path reports csv0
    = MkIO ((λ r, EvReadCsv (csv_path w path r)) <$> reports) (Ok csv)
    ∧ ∀ r, csv !! r = if decide (r ∈ reports) then files (csv_path w path r)
                      else csv0 !! r.
Proof.
  revert csv0. induction reports as [|r0 reports IH]; intros csv0 Hfiles.
  - exists csv0. split; [done|]. intros r. by rewrite decide_False by apply not_elem_of_nil.
  - destruct (Hfiles r0) as [rows Hrows]; [left|].
    destruct (IH (<[r0 := rows]> csv0)) as (csv & Hrun & Hlook).
    { intros r Hr. apply Hfiles. by right. }
    exists csv. split.
    + simpl. rewrite Hrows. unfold mbind, IO_bind. simpl. rewrite Hrun. done.
    + intros r. rewrite Hlook.
      destruct (decide (r = r0)) as [->|Hne].
      * rewrite (decide_True (P := r0 ∈ r0 :: reports)) by left.
        case_decide; [done|]. by rewrite lookup_insert_eq.
      * rewrite lookup_insert_ne by done.
        apply decide_ext. rewrite elem_of_cons. tauto.
Qed.

Lemma kernel_row_Ok (acc : list PyNum * list string) (row : Row) (p : Q * string) :
  row_parses row p →
  kernel_row float_of_string acc row
  = Ok ((fst acc ++ [ms_of_ns (fst p)])%list, (snd acc ++ [snd p])%list).
Proof.
  intros (t & Ht & Hf & Hn). unfold kernel_row, row_get, py_float.
  rewrite Ht. cbn. rewrite Hf. cbn. rewrite Hn. reflexivity.
Qed.

Lemma foldM_kernel_row (rows : list Row) (parsed : list (Q * string))
    (acc : list PyNum * list string) :
  Forall2 row_parses rows parsed →
  foldM (kernel_row float_of_string) rows acc
  = Ok ((fst acc ++ kernel_ms parsed)%list, (snd acc ++ (snd <$> parsed))%list).
Proof.
  intros H. revert acc. induction H as [|row p rows parsed Hp _ IH]; intros acc.
  - simpl. rewrite !app_nil_r. by destruct acc.
  - simpl. rewrite (kernel_row_Ok _ _ _ Hp). simpl. rewrite IH. simpl.
    unfold kernel_ms. simpl. by rewrite <- !app_assoc.
Qed.

Lemma metrics_map_dom (ds : list PyNum) (names : list string) (s d : PyNum) :
  dom (metrics_map str ds names s d) = dom nsys_metrics_to_reports.
Proof.
  clear float_of_string.
  unfold metrics_map, nsys_metrics_to_reports, nsys_metrics_to_reports_items.
  rewrite !dom_list_to_map_L.
  apply set_eq. intros k. cbn [fmap list_fmap fst list_to_set foldr].
  rewrite !elem_of_union, !elem_of_singleton. tauto.
Qed.

Lemma analyze_dom (csv : gmap string (list Row)) (mm : gmap string value) :
  analyze float_of_string str csv = Ok mm → dom mm = dom nsys_metrics_to_reports.
Proof.
  unfold analyze. intros H.
  apply bind_Ok in H as ([[ds names] s] & _ & H).
  apply bind_Ok in H as (d & _ & H).
  apply bind_Ok in H as (_ & _ & H).
  apply Ok_inj in H as <-. apply metrics_map_dom.
Qed.

(** The four shapes the parsed CSVs can take. *)
Definition kernel_part (csv : gmap string (list Row)) (parsed : list (Q * string)) : Prop :=
  match csv !! "nvtx_kern_sum" with
  | Some rows => Forall2 row_parses rows parsed
  | None => parsed = []
  end.

Definition range_part (csv : gmap string (list Row)) (range : PyNum) : Prop :=
  match csv !! "nvtx_sum" with
  | Some rows => ∃ row t ns, rows = [row] ∧ row !! "Total Time (ns)" = Some t
                   ∧ float_of_string t = Some ns ∧ range = ms_of_ns ns
  | None => range = PyInt 0
  end.

#[local] Arguments metrics_map : simpl never.
#[local] Arguments py_sum : simpl never.
#[local] Arguments py_sub : simpl never.
#[local] Arguments quotient : simpl never.
#[local] Arguments kernel_ms : simpl never.
#[local] Arguments ms_of_ns : simpl never.
#[local] Arguments million : simpl never.
#[local] Arguments py_truediv : simpl never.

Lemma py_truediv_million (x : PyNum) : py_truediv x million = Ok (quotient x million).
Proof. reflexivity. Qed.

Lemma analyze_Ok (csv : gmap string (list Row)) (parsed : list (Q * string))
    (range : PyNum) :
  kernel_part csv parsed → range_part csv range →
  analyze float_of_string str csv
  = Ok (metrics_map str (kernel_ms parsed) (snd <$> parsed)
          (py_sum (kernel_ms parsed)) range).
Proof.
  unfold kernel_part, range_part, analyze. intros Hk Hr.
  assert (∀ mm : gmap string value,
            dom mm = dom nsys_metrics_to_reports →
            (py_assert (bool_decide (dom mm = dom nsys_metrics_to_reports))
               "Mismatch between metrics_map keys and nsys_metrics_to_reports keys."
             ≫= λ _, Ok mm) = Ok mm) as Htail.
  { intros mm Hmm. by rewrite bool_decide_eq_true_2. }
  destruct (csv !! "nvtx_kern_sum") as [krows|].
  - rewrite (foldM_kernel_row _ _ _ Hk). simpl.
    destruct (csv !! "nvtx_sum") as [rows|].
    + destruct Hr as (row & t & ns & -> & Ht & Hf & ->).
      simpl. unfold row_get, py_float. rewrite Ht. simpl. rewrite Hf. simpl.
      rewrite ?py_truediv_million. simpl. unfold ms_of_ns. apply Htail, metrics_map_dom.
    + subst range. simpl. apply Htail, metrics_map_dom.
  - subst parsed. simpl.
    destruct (csv !! "nvtx_sum") as [rows|].
    + destruct Hr as (row & t & ns & -> & Ht & Hf & ->).
      simpl. unfold row_get, py_float. rewrite Ht. simpl. rewrite Hf. simpl.
      rewrite ?py_truediv_million. simpl. unfold ms_of_ns. apply Htail, metrics_map_dom.
    + subst range. simpl. apply Htail, metrics_map_dom.
Qed.

Lemma analyze_bad_range (csv : gmap string (list Row)) (rows : list Row) :
  csv !! "nvtx_sum" = Some rows → length rows ≠ 1%nat →
  ∃ e, analyze float_of_string str csv = Raise e
     ∧ (∀ parsed, kernel_part csv parsed → e = AssertionError "").
Proof.
  intros Hrows Hlen. unfold analyze, kernel_part. rewrite Hrows.
  assert ((Z.of_nat (length rows) =? 1) = false) as Hb by (apply Z.eqb_neq; lia).
  destruct (csv !! "nvtx_kern_sum") as [krows|].
  - destruct (foldM (kernel_row float_of_string) krows ([], [])) as [acc|e] eqn:E.
    + cbn. rewrite Hb. cbn. eauto.
    + cbn. exists e. split; [done|]. intros parsed Hp.
      rewrite (foldM_kernel_row _ _ _ Hp) in E. discriminate.
  - cbn. rewrite Hb. cbn. eauto.
Qed.

(** The export succeeded and left a CSV for every required report. *)
Definition exported (w : Env) (report_path : string) (req : list string)
    (files : string → option (list Row)) : Prop :=
  path_exists w report_path = true
  ∧ check_call w (nsys_cmd (reports_required req) report_path) = Some files
  ∧ ∀ r, r ∈ reports_required req → is_Some (files (csv_path w report_path r)).

Definition nsys_trace (w : Env) (report_path : string) (req : list string) : list event :=
  EvSubprocess (nsys_cmd (reports_required req) report_path)
  :: ((λ r, EvReadCsv (csv_path w report_path r)) <$> reports_required req).

Lemma read_nsys_report_run (w : Env) (report_path : string) (req : list string)
    (files : string → option (list Row)) :
  reports_required req ≠ [] →
  exported w report_path req files →
  ∃ csv,
    (∀ r, csv !! r = if decide (r ∈ reports_required req)
                     then files (csv_path w report_path r) else None)
    ∧ read_nsys_report float_of_string str w report_path req
      = MkIO (nsys_trace w report_path req)
             (analyze float_of_string str csv ≫= λ mm, Ok (select req mm)).
Proof.
  intros Hne (Hp & Hcall & Hfiles).
  destruct (read_csvs_Ok w files report_path (reports_required req) ∅ Hfiles)
    as (csv & Hrun & Hlook).
  exists csv. split.
  { intros r. rewrite Hlook. by case_decide. }
  unfold read_nsys_report, nsys_trace. rewrite Hp. cbn [io_assert].
  rewrite io_ret_bind.
  destruct (reports_required req) as [|r0 rs] eqn:E; [done|].
  cbv zeta. cbn [io_assert].
  rewrite io_ret_bind, io_emit_bind, Hcall, Hrun, io_Ok_bind, io_lift_bind_ret.
  cbn [trace outcome]. by rewrite app_nil_r.
Qed.

End WithBuiltins.
End NsysFacts.

(** * The claims *)

Section NcuClaims.
Import Ncu NcuLoop Examples.

Local Abbreviation FADD := "smsp__sass_thread_inst_executed_op_fadd_pred_on.sum.per_cycle_elapsed".
Local Abbreviation FMUL := "smsp__sass_thread_inst_executed_op_fmul_pred_on.sum.per_cycle_elapsed".
Local Abbreviation FFMA := "smsp__sass_thread_inst_executed_op_ffma_pred_on.sum.per_cycle_elapsed".
Local Abbreviation DADD := "smsp__sass_thread_inst_executed_op_dadd_pred_on.sum.per_cycle_elapsed".
Local Abbreviation DMUL := "smsp__sass_thread_inst_executed_op_dmul_pred_on.sum.per_cycle_elapsed".
Local Abbreviation DFMA := "smsp__sass_thread_inst_executed_op_dfma_pred_on.sum.per_cycle_elapsed".
Local Abbreviation SM_FREQ := "smsp__cycles_elapsed.avg.per_second".

Lemma fma_counts_twice (a m f e s : PyNum) :
  py_mul (py_add (py_add a m) (py_mul (PyInt 2) (py_add f e))) s
  = py_add (py_mul (py_add (py_add a m) (py_mul (PyInt 2) f)) s)
           (py_mul (py_mul (PyInt 2) e) s).
Proof.
  apply py_num_ext; auto using normal_add, normal_mul.
  - repeat (rewrite is_float_add || rewrite is_float_mul). simpl.
    by destruct (is_float a), (is_float m), (is_float f), (is_float e), (is_float s).
  - repeat (rewrite to_float_add || rewrite to_float_mul). simpl. ring.
Qed.



(** No division of the call is by zero: with [arithmetic_intensity]
    requested every kernel has a non-zero DRAM bandwidth and the DRAM bytes
    do not sum to zero; with [ncu_tflops] requested the durations do not
    sum to zero. *)
Definition divisions_defined (req : list string) (ks : list Kernel) : Prop :=
  ("arithmetic_intensity" ∈ req →
   Forall (λ k, py_is_zero (counter k "dram_bandwidth") = false) ks
   ∧ py_is_zero (py_sum (dram_bytes <$> ks)) = false)
  ∧ ("ncu_tflops" ∈ req → py_is_zero (py_sum (get_duration <$> ks)) = false).

Lemma read_ncu_report_Ok (w : Env) (path : string) (req : list string)
    (ks : list Kernel) (rest : list (list Kernel)) :
  ready w path → load_report w path = ks :: rest → ks ≠ [] →
  divisions_defined req ks →
  ∃ d, read_ncu_report w path req = MkIO [EvLoadReport path] (Ok d)
    ∧ ("memory_traffic" ∈ req →
       d !! "memory_traffic" = Some (memory_traffic_value ks))
    ∧ ("arithmetic_intensity" ∈ req →
       d !! "arithmetic_intensity" = Some (arithmetic_intensity_value ks))
    ∧ ("ncu_tflops" ∈ req →
       d !! "ncu_tflops" = Some (ncu_tflops_value ks)).
Proof.
  intros Hready Hload Hne [Hai Htf].
  destruct (aggregate_Ok req ks Hne) as (d & Hagg & Hmt & Hai' & Htf').
  { intros H. by apply Hai, in_list_elem_of. }
  { intros H. by apply Htf, in_list_elem_of. }
  exists d. rewrite (read_ncu_report_ready _ _ _ Hready), Hload.
  destruct ks as [|k ks]; [done|]. rewrite Hagg.
  repeat split; intros H%in_list_elem_of; auto.
Qed.

(** C1, amended: for a report whose default range has at least one
    kernel action, with [arithmetic_intensity] requested and no division of
    the call by zero, [read_ncu_report] returns under
    ["arithmetic_intensity"] the pair (sum of intensity * DRAM bytes) /
    (sum of DRAM bytes), for FP32 and for FP64, where a kernel's intensity
    is its FLOPS divided by its DRAM bandwidth. *)
Theorem arithmetic_intensity_weighted (w : Env) (path : string)
    (req : list string) (ks : list Kernel) (rest : list (list Kernel)) :
  ready w path → load_report w path = ks :: rest → ks ≠ [] →
  "arithmetic_intensity" ∈ req →
  divisions_defined req ks →
  ∃ d, read_ncu_report w path req = MkIO [EvLoadReport path] (Ok d)
    ∧ d !! "arithmetic_intensity"
      = Some (VTuple
          (VNum (quotient
             (py_sum ((λ k, py_mul (quotient (fst (get_flops k)) (counter k "dram_bandwidth"))
                                   (counter k "dram_bytes")) <$> ks))
             (py_sum ((λ k, counter k "dram_bytes") <$> ks))))
          (VNum (quotient
             (py_sum ((λ k, py_mul (quotient (snd (get_flops k)) (counter k "dram_bandwidth"))
                                   (counter k "dram_bytes")) <$> ks))
             (py_sum ((λ k, counter k "dram_bytes") <$> ks))))).
Proof.
  intros Hready Hload Hne Hin Hdef.
  destruct (read_ncu_report_Ok w path req ks rest) as (d & Hrun & _ & Hai & _);
    try done.
  exists d. split; [done|]. by rewrite (Hai Hin).
Qed.

(** C2, amended: for a report whose default range has at least one
    kernel action, with [ncu_tflops] requested and no division of the call
    by zero, [read_ncu_report] returns under ["ncu_tflops"] the pair
    ((sum of FLOPS * duration) / 10^12) / (sum of durations), for FP32 and
    for FP64. *)
Theorem ncu_tflops_weighted (w : Env) (path : string)
    (req : list string) (ks : list Kernel) (rest : list (list Kernel)) :
  ready w path → load_report w path = ks :: rest → ks ≠ [] →
  "ncu_tflops" ∈ req →
  divisions_defined req ks →
  ∃ d, read_ncu_report w path req = MkIO [EvLoadReport path] (Ok d)
    ∧ d !! "ncu_tflops"
      = Some (VTuple
          (VNum (quotient
             (quotient (py_sum ((λ k, py_mul (fst (get_flops k)) (get_duration k)) <$> ks))
                       (PyInt (10 ^ 12)))
             (py_sum (get_duration <$> ks))))
          (VNum (quotient
             (quotient (py_sum ((λ k, py_mul (snd (get_flops k)) (get_duration k)) <$> ks))
                       (PyInt (10 ^ 12)))
             (py_sum (get_duration <$> ks))))).
Proof.
  intros Hready Hload Hne Hin Hdef.
  destruct (read_ncu_report_Ok w path req ks rest) as (d & Hrun & _ & _ & Htf);
    try done.
  exists d. split; [done|]. by rewrite (Htf Hin).
Qed.

Lemma divisions_defined_perm (req : list string) (ks ks' : list Kernel) :
  ks ≡ₚ ks' → divisions_defined req ks → divisions_defined req ks'.
Proof.
  intros Hp [Hai Htf]. split.
  - intros H. destruct (Hai H) as [Hbw Hz]. split.
    + by rewrite <- Hp.
    + by rewrite <- (py_sum_perm _ _ (fmap_Permutation dram_bytes _ _ Hp)).
  - intros H. rewrite <- (py_sum_perm _ _ (fmap_Permutation get_duration _ _ Hp)).
    by apply Htf.
Qed.


(** The spec's two-kernel example: (2 * 100 + 6 * 300) / 400 = 5. *)
Example arithmetic_intensity_two_kernels :
  outcome (read_ncu_report (ncu_env [[kernel_a; kernel_b]]) "bench.ncu-rep"
             ["arithmetic_intensity"]) ≫= (λ d, Ok (d !! "arithmetic_intensity"))
  = Ok (Some (VTuple (VNum (PyFloat 5)) (VNum (PyFloat 0)))).
Proof. vm_compute. reflexivity. Qed.

Lemma arithmetic_intensity_weighted_witness :
  ∃ d, read_ncu_report (ncu_env [[kernel_a; kernel_b]]) "bench.ncu-rep"
         ["arithmetic_intensity"]
       = MkIO [EvLoadReport "bench.ncu-rep"] (Ok d)
    ∧ d !! "arithmetic_intensity"
      = Some (VTuple
          (VNum (quotient
             (py_sum ((λ k, py_mul (quotient (fst (get_flops k)) (counter k "dram_bandwidth"))
                                   (counter k "dram_bytes")) <$> [kernel_a; kernel_b]))
             (py_sum ((λ k, counter k "dram_bytes") <$> [kernel_a; kernel_b]))))
          (VNum (quotient
             (py_sum ((λ k, py_mul (quotient (snd (get_flops k)) (counter k "dram_bandwidth"))
                                   (counter k "dram_bytes")) <$> [kernel_a; kernel_b]))
             (py_sum ((λ k, counter k "dram_bytes") <$> [kernel_a; kernel_b]))))).
Proof.
  apply (arithmetic_intensity_weighted (ncu_env [[kernel_a; kernel_b]])
           "bench.ncu-rep" ["arithmetic_intensity"] [kernel_a; kernel_b] []).
  - split; [reflexivity|]. exists "/opt/nvidia/ncu". split; reflexivity.
  - reflexivity.
  - discriminate.
  - apply in_list_elem_of. reflexivity.
  - split.
    + intros _. split; [repeat constructor | reflexivity].
    + intros H%in_list_elem_of. discriminate H.
Defined.

(** C1, counterexample: a kernel that never touches DRAM has a zero DRAM
    bandwidth, and the call raises instead of returning the pair. *)
Lemma arithmetic_intensity_zero_bandwidth :
  outcome (read_ncu_report (ncu_env [[kernel_no_dram]]) "bench.ncu-rep"
             ["arithmetic_intensity"])
  = Raise ZeroDivisionError.
Proof. vm_compute. reflexivity. Qed.

Lemma ncu_tflops_weighted_witness :
  ∃ d, read_ncu_report (ncu_env [[kernel_a; kernel_b]]) "bench.ncu-rep" ["ncu_tflops"]
       = MkIO [EvLoadReport "bench.ncu-rep"] (Ok d)
    ∧ d !! "ncu_tflops"
      = Some (VTuple
          (VNum (quotient
             (quotient (py_sum ((λ k, py_mul (fst (get_flops k)) (get_duration k))
                                  <$> [kernel_a; kernel_b]))
                       (PyInt (10 ^ 12)))
             (py_sum (get_duration <$> [kernel_a; kernel_b]))))
          (VNum (quotient
             (quotient (py_sum ((λ k, py_mul (snd (get_flops k)) (get_duration k))
                                  <$> [kernel_a; kernel_b]))
                       (PyInt (10 ^ 12)))
             (py_sum (get_duration <$> [kernel_a; kernel_b]))))).
Proof.
  apply (ncu_tflops_weighted (ncu_env [[kernel_a; kernel_b]])
           "bench.ncu-rep" ["ncu_tflops"] [kernel_a; kernel_b] []).
  - split; [reflexivity|]. exists "/opt/nvidia/ncu". split; reflexivity.
  - reflexivity.
  - discriminate.
  - apply in_list_elem_of. reflexivity.
  - split.
    + intros H%in_list_elem_of. discriminate H.
    + intros _. reflexivity.
Defined.

(** Durations 1000 and 3000 with 20 and 60 FLOPS:
    ((20 * 1000 + 60 * 3000) / 10^12) / 4000 = 50 / 10^12. *)
Example ncu_tflops_two_kernels :
  outcome (read_ncu_report (ncu_env [[kernel_a; kernel_b]]) "bench.ncu-rep"
             ["ncu_tflops"]) ≫= (λ d, Ok (d !! "ncu_tflops"))
  = Ok (Some (VTuple (VNum (PyFloat (1 # 20000000000))) (VNum (PyFloat 0)))).
Proof. vm_compute. reflexivity. Qed.

(** C2, counterexample: with [arithmetic_intensity] requested too, a kernel
    that never touches DRAM makes the call raise before any TFLOPS value is
    returned; so does a report whose durations sum to zero. *)
Lemma ncu_tflops_not_returned :
  outcome (read_ncu_report (ncu_env [[kernel_no_dram]]) "bench.ncu-rep"
             ["ncu_tflops"; "arithmetic_intensity"])
  = Raise ZeroDivisionError
  ∧ outcome (read_ncu_report (ncu_env [[kernel_no_time]]) "bench.ncu-rep"
               ["ncu_tflops"])
    = Raise ZeroDivisionError.
Proof. split; vm_compute; reflexivity. Qed.


Example memory_traffic_two_kernels :
  outcome (read_ncu_report (ncu_env [[kernel_a; kernel_b]]) "bench.ncu-rep"
             ["memory_traffic"]) ≫= (λ d, Ok (d !! "memory_traffic"))
  = Ok (Some (VTuple (VNum (PyFloat 260)) (VNum (PyFloat 140)))).
Proof. vm_compute. reflexivity. Qed.


(** C7: once the report is loaded, [read_ncu_report] raises an assertion
    error, returning nothing, when the report has no range and when its
    first range has no kernel action; with at least one range and one action
    both checks pass and the call goes on to aggregate the default range. *)
Theorem read_ncu_report_checks (w : Env) (path : string) (req : list string) :
  ready w path →
  (load_report w path = [] →
   read_ncu_report w path req
   = MkIO [EvLoadReport path]
       (Raise (AssertionError ("No profile data found in the NCU report at " ++ path))))
  ∧ (∀ rest, load_report w path = [] :: rest →
     read_ncu_report w path req
     = MkIO [EvLoadReport path]
         (Raise (AssertionError
            ("No profile data found in the default range of the NCU report at " ++ path))))
  ∧ (∀ k ks rest, load_report w path = (k :: ks) :: rest →
     read_ncu_report w path req
     = MkIO [EvLoadReport path] (aggregate req (k :: ks))).
Proof.
  intros Hready. rewrite (read_ncu_report_ready _ _ _ Hready).
  repeat split.
  - by intros ->.
  - by intros rest ->.
  - by intros k ks rest ->.
Qed.

Lemma read_ncu_report_checks_witness :
  (load_report (ncu_env []) "bench.ncu-rep" = [] →
   read_ncu_report (ncu_env []) "bench.ncu-rep" ["memory_traffic"]
   = MkIO [EvLoadReport "bench.ncu-rep"]
       (Raise (AssertionError
          ("No profile data found in the NCU report at " ++ "bench.ncu-rep"))))
  ∧ (∀ rest, load_report (ncu_env []) "bench.ncu-rep" = [] :: rest →
     read_ncu_report (ncu_env []) "bench.ncu-rep" ["memory_traffic"]
     = MkIO [EvLoadReport "bench.ncu-rep"]
         (Raise (AssertionError
            ("No profile data found in the default range of the NCU report at "
             ++ "bench.ncu-rep"))))
  ∧ (∀ k ks rest, load_report (ncu_env []) "bench.ncu-rep" = (k :: ks) :: rest →
     read_ncu_report (ncu_env []) "bench.ncu-rep" ["memory_traffic"]
     = MkIO [EvLoadReport "bench.ncu-rep"] (aggregate ["memory_traffic"] (k :: ks))).
Proof.
  apply (read_ncu_report_checks (ncu_env []) "bench.ncu-rep" ["memory_traffic"]).
  split; [reflexivity|]. exists "/opt/nvidia/ncu". split; reflexivity.
Defined.

Example read_ncu_report_no_ranges :
  read_ncu_report (ncu_env []) "bench.ncu-rep" ["memory_traffic"]
  = MkIO [EvLoadReport "bench.ncu-rep"]
      (Raise (AssertionError "No profile data found in the NCU report at bench.ncu-rep")).
Proof. reflexivity. Qed.

Example read_ncu_report_no_actions :
  read_ncu_report (ncu_env [[]; [kernel_a]]) "bench.ncu-rep" ["memory_traffic"]
  = MkIO [EvLoadReport "bench.ncu-rep"]
      (Raise (AssertionError
         "No profile data found in the default range of the NCU report at bench.ncu-rep")).
Proof. reflexivity. Qed.

(** The benchmark metrics the NCU analyzer knows. *)
Definition is_bench_metric (m : string) : bool :=
  in_list m (fst <$> bench_metric_to_short_ncu_metric).

Lemma in_list_filter (p : string → bool) (k : string) (req : list string) :
  p k = true → in_list k (List.filter p req) = in_list k req.
Proof.
  intros Hk. induction req as [|m req IH]; [done|]. simpl.
  destruct (p m) eqn:Em; simpl; rewrite IH; [done|].
  destruct (String.eqb_spec k m) as [->|]; [congruence | done].
Qed.

Lemma read_ncu_report_ext (w : Env) (path : string) (req req' : list string) :
  (∀ ks, aggregate req ks = aggregate req' ks) →
  read_ncu_report w path req = read_ncu_report w path req'.
Proof.
  intros H. unfold read_ncu_report, _import_ncu_python_path.
  destruct (path_exists w path); [|reflexivity].
  destruct (which_ncu w) as [ncu|]; [|reflexivity].
  destruct (path_exists w (os_path_join (os_path_dirname w ncu) "extras/python"));
    [|reflexivity].
  destruct (load_report w path) as [|[|k ks] rest]; try reflexivity.
  cbn -[aggregate]. by rewrite H.
Qed.

Lemma read_ncu_report_ignores_unknown (w : Env) (path : string) (req : list string) :
  read_ncu_report w path req
  = read_ncu_report w path (List.filter is_bench_metric req).
Proof.
  apply read_ncu_report_ext. intros ks.
  apply aggregate_flags; symmetry; by apply in_list_filter.
Qed.

Lemma read_ncu_report_dom (w : Env) (path : string) (req : list string)
    (d : gmap string value) :
  outcome (read_ncu_report w path req) = Ok d → dom d ⊆ result_keys.
Proof.
  unfold read_ncu_report, _import_ncu_python_path.
  destruct (path_exists w path); [|discriminate].
  destruct (which_ncu w) as [ncu|]; [|discriminate].
  destruct (path_exists w (os_path_join (os_path_dirname w ncu) "extras/python"));
    [|discriminate].
  destruct (load_report w path) as [|[|k ks] rest]; try discriminate.
  cbn -[aggregate]. apply aggregate_dom.
Qed.

End NcuClaims.

Section NsysClaims.
Import Nsys NsysFacts Examples.

Variable float_of_string : string → option Q.
Variable str : PyNum → string.

(** The per-kernel summary, when it is among the required reports, parses
    into [parsed] (nanoseconds and kernel name per row). *)
Definition kernel_summary_parses (w : Env) (path : string) (req : list string)
    (files : string → option (list Row)) (parsed : list (Q * string)) : Prop :=
  match (if decide ("nvtx_kern_sum" ∈ reports_required req)
         then files (csv_path w path "nvtx_kern_sum") else None) with
  | Some rows => Forall2 (row_parses float_of_string) rows parsed
  | None => parsed = []
  end.

(** The range summary, when it is among the required reports, has exactly
    one row, which gives [range] milliseconds. *)
Definition range_summary_parses (w : Env) (path : string) (req : list string)
    (files : string → option (list Row)) (range : PyNum) : Prop :=
  match (if decide ("nvtx_sum" ∈ reports_required req)
         then files (csv_path w path "nvtx_sum") else None) with
  | Some rows => ∃ row t ns, rows = [row] ∧ row !! "Total Time (ns)" = Some t
                   ∧ float_of_string t = Some ns ∧ range = ms_of_ns ns
  | None => range = PyInt 0
  end.

Lemma read_nsys_report_Ok (w : Env) (path : string) (req : list string)
    (files : string → option (list Row)) (parsed : list (Q * string)) (range : PyNum) :
  reports_required req ≠ [] →
  exported w path req files →
  kernel_summary_parses w path req files parsed →
  range_summary_parses w path req files range →
  read_nsys_report float_of_string str w path req
  = MkIO (nsys_trace w path req)
      (Ok (select req (metrics_map str (kernel_ms parsed) (snd <$> parsed)
                         (py_sum (kernel_ms parsed)) range))).
Proof.
  intros Hne Hexp Hk Hr.
  destruct (read_nsys_report_run float_of_string str w path req files Hne Hexp)
    as (csv & Hlook & ->).
  f_equal. rewrite (analyze_Ok float_of_string str csv parsed range); [done|..].
  - unfold kernel_part. by rewrite Hlook.
  - unfold range_part. by rewrite Hlook.
Qed.

Lemma read_nsys_report_inv (w : Env) (path : string) (req : list string)
    (d : gmap string value) :
  outcome (read_nsys_report float_of_string str w path req) = Ok d →
  ∃ csv mm, analyze float_of_string str csv = Ok mm ∧ d = select req mm.
Proof.
  unfold read_nsys_report.
  destruct (path_exists w path); [|discriminate]. cbn [io_assert].
  rewrite io_ret_bind. cbv zeta.
  destruct (reports_required req) as [|r0 rs]; [discriminate|]. cbn [io_assert].
  rewrite io_ret_bind, io_emit_bind. cbn [outcome].
  destruct (check_call w _) as [files|]; [|discriminate].
  destruct (read_csvs w files path (r0 :: rs) ∅) as [tr [csv|e]]; [|discriminate].
  rewrite io_Ok_bind, io_lift_bind_ret. cbn [outcome].
  destruct (analyze float_of_string str csv) as [mm|e] eqn:E; [|discriminate].
  intros [= <-]. by exists csv, mm.
Qed.

(** The metrics the nsys analyzer knows. *)
Definition is_nsys_metric (m : string) : bool :=
  match nsys_metrics_to_reports !! m with
  | Some _ => true
  | None => false
  end.

Lemma reports_of_metrics_filter (req : list string) :
  reports_of_metrics (List.filter is_nsys_metric req) = reports_of_metrics req.
Proof.
  unfold reports_of_metrics. generalize (@nil string).
  induction req as [|m req IH]; intros acc; [done|]. simpl.
  unfold is_nsys_metric at 1.
  destruct (nsys_metrics_to_reports !! m) as [rs|] eqn:E; simpl.
  - rewrite E. apply IH.
  - apply IH.
Qed.

Lemma select_filter (req : list string) (mm : gmap string value) :
  dom mm = dom nsys_metrics_to_reports →
  select (List.filter is_nsys_metric req) mm = select req mm.
Proof.
  clear float_of_string str.
  intros Hdom. apply map_eq. intros k. rewrite !select_lookup.
  destruct (mm !! k) as [v|] eqn:Ek; [|by repeat case_decide].
  assert (is_nsys_metric k = true) as Hk.
  { unfold is_nsys_metric.
    assert (k ∈ dom nsys_metrics_to_reports) as [rs ->]%elem_of_dom; [|done].
    rewrite <- Hdom. apply elem_of_dom. eauto. }
  apply decide_ext. rewrite !list_elem_of_In, filter_In. tauto.
Qed.

Lemma read_nsys_report_ignores_unknown (w : Env) (path : string) (req : list string) :
  read_nsys_report float_of_string str w path req
  = read_nsys_report float_of_string str w path (List.filter is_nsys_metric req).
Proof.
  unfold read_nsys_report, reports_required. rewrite reports_of_metrics_filter.
  destruct (path_exists w path); [|reflexivity]. cbn [io_assert].
  rewrite !io_ret_bind. cbv zeta.
  destruct (elements _) as [|r0 rs]; [reflexivity|]. cbn [io_assert].
  rewrite !io_ret_bind, !io_emit_bind.
  destruct (check_call w _) as [files|]; [|reflexivity].
  destruct (read_csvs w files path (r0 :: rs) ∅) as [tr [csv|e]]; [|reflexivity].
  rewrite !io_Ok_bind, !io_lift_bind_ret.
  destruct (analyze float_of_string str csv) as [mm|e] eqn:E; [|reflexivity].
  cbn. by rewrite (select_filter _ _ (analyze_dom _ _ _ _ E)).
Qed.

Lemma read_nsys_report_keys (w : Env) (path : string) (req : list string)
    (d : gmap string value) (k : string) :
  outcome (read_nsys_report float_of_string str w path req) = Ok d →
  is_Some (d !! k) → k ∈ req ∧ is_Some (nsys_metrics_to_reports !! k).
Proof.
  intros (csv & mm & Han & ->)%read_nsys_report_inv. rewrite select_lookup.
  case_decide as Hin; [|by intros [? ?]].
  intros Hk. split; [done|].
  apply elem_of_dom. rewrite <- (analyze_dom _ _ _ _ Han). by apply elem_of_dom.
Qed.


Lemma requested_reports (req : list string) (m r : string) (rs : list string) :
  m ∈ req → nsys_metrics_to_reports !! m = Some rs → r ∈ rs →
  r ∈ reports_required req.
Proof. intros Hm Ht Hr. apply reports_required_elem. eauto. Qed.

Lemma reports_nonempty (req : list string) (r : string) :
  r ∈ reports_required req → reports_required req ≠ [].
Proof. intros Hr E. rewrite E in Hr. by apply not_elem_of_nil in Hr. Qed.

(** C4: when the per-kernel summary and the range summary are both parsed
    and [nsys_launch_overhead] is requested, the value returned for it is
    the range duration minus the sum of the kernel durations, both in
    milliseconds (nanoseconds / 1_000_000); nothing looks at its sign. *)
Theorem nsys_launch_overhead_difference (w : Env) (path : string)
    (req : list string) (files : string → option (list Row))
    (kernel_rows : list Row) (parsed : list (Q * string))
    (range_row : Row) (t : string) (ns : Q) :
  exported w path req files →
  "nsys_launch_overhead" ∈ req →
  files (csv_path w path "nvtx_kern_sum") = Some kernel_rows →
  Forall2 (row_parses float_of_string) kernel_rows parsed →
  files (csv_path w path "nvtx_sum") = Some [range_row] →
  range_row !! "Total Time (ns)" = Some t →
  float_of_string t = Some ns →
  ∃ d, read_nsys_report float_of_string str w path req
       = MkIO (nsys_trace w path req) (Ok d)
    ∧ d !! "nsys_launch_overhead"
      = Some (VNum (py_sub (quotient (PyFloat ns) (PyInt 1000000))
                           (py_sum ((λ p, quotient (PyFloat (fst p)) (PyInt 1000000))
                                      <$> parsed)))).
Proof.
  intros Hexp Hin Hk Hparsed Hr Ht Hf.
  assert ("nvtx_kern_sum" ∈ reports_required req) as Hkern.
  { eapply (requested_reports _ "nsys_launch_overhead"); [done|reflexivity|].
    apply list_elem_of_here. }
  assert ("nvtx_sum" ∈ reports_required req) as Hsum.
  { eapply (requested_reports _ "nsys_launch_overhead"); [done|reflexivity|].
    apply list_elem_of_further, list_elem_of_here. }
  eexists. split.
  - apply (read_nsys_report_Ok w path req files parsed (ms_of_ns ns)).
    + by apply (reports_nonempty _ "nvtx_sum").
    + done.
    + unfold kernel_summary_parses. by rewrite decide_True, Hk.
    + unfold range_summary_parses. rewrite decide_True, Hr by done.
      by exists range_row, t, ns.
  - rewrite select_lookup, decide_True by done. reflexivity.
Qed.

Lemma is_float_py_sum (xs : list PyNum) :
  xs ≠ [] → Forall (λ x, is_float x = true) xs → is_float (py_sum xs) = true.
Proof.
  intros Hne Hall. unfold py_sum.
  assert (∀ a, is_float (fold_left py_add xs a) = true) as H; [|apply H].
  destruct Hall as [|x xs Hx Hxs]; [done|]. intros a. simpl.
  assert (is_float (py_add a x) = true) as Hax.
  { rewrite is_float_add, Hx. apply orb_true_r. }
  revert Hax. generalize (py_add a x). clear a x Hx Hne.
  induction Hxs as [|y ys Hy _ IH]; intros b Hb; simpl; [done|].
  apply IH. rewrite is_float_add, Hb. done.
Qed.

(** C10, amended: when the per-kernel summary is parsed and the call
    returns, ["nsys_kernel_durations"] is a list of strings, the rendering
    by [str] of each duration in milliseconds, not a list of numbers;
    ["nsys_gpu_kernel_sum"] is a number, the sum of those durations, a float
    as soon as the summary has a row; ["nsys_nvtx_range_duration"] is a
    float; and ["nsys_num_of_kernels"] is the common length of the names
    list and of the durations list. *)
Theorem nsys_value_shapes (w : Env) (path : string)
    (req : list string) (files : string → option (list Row))
    (kernel_rows : list Row) (parsed : list (Q * string)) (range : PyNum) :
  exported w path req files →
  "nvtx_kern_sum" ∈ reports_required req →
  files (csv_path w path "nvtx_kern_sum") = Some kernel_rows →
  Forall2 (row_parses float_of_string) kernel_rows parsed →
  range_summary_parses w path req files range →
  ∃ d (durations names : list string),
    read_nsys_report float_of_string str w path req
    = MkIO (nsys_trace w path req) (Ok d)
    ∧ durations = (λ p, str (quotient (PyFloat (fst p)) (PyInt 1000000))) <$> parsed
    ∧ length durations = length kernel_rows
    ∧ length names = length kernel_rows
    ∧ ("nsys_kernel_durations" ∈ req →
       d !! "nsys_kernel_durations" = Some (VList (VStr <$> durations)))
    ∧ ("nsys_kernel_names" ∈ req →
       d !! "nsys_kernel_names" = Some (VList (VStr <$> names)))
    ∧ ("nsys_num_of_kernels" ∈ req →
       d !! "nsys_num_of_kernels"
       = Some (VNum (PyInt (Z.of_nat (length kernel_rows)))))
    ∧ ("nsys_gpu_kernel_sum" ∈ req →
       ∃ total, d !! "nsys_gpu_kernel_sum" = Some (VNum total)
         ∧ total = py_sum ((λ p, quotient (PyFloat (fst p)) (PyInt 1000000)) <$> parsed)
         ∧ (kernel_rows ≠ [] → is_float total = true))
    ∧ ("nsys_nvtx_range_duration" ∈ req →
       ∃ x, d !! "nsys_nvtx_range_duration" = Some (VNum x) ∧ is_float x = true).
Proof.
  intros Hexp Hkern Hk Hparsed Hrange.
  pose proof (Forall2_length _ _ _ Hparsed) as Hlen.
  exists (select req (metrics_map str (kernel_ms parsed) (snd <$> parsed)
                        (py_sum (kernel_ms parsed)) range)),
         ((λ p, str (quotient (PyFloat (fst p)) (PyInt 1000000))) <$> parsed),
         (snd <$> parsed).
  split; [|split; [done|]].
  { apply (read_nsys_report_Ok w path req files parsed range); try done.
    - by apply (reports_nonempty _ "nvtx_kern_sum").
    - unfold kernel_summary_parses. by rewrite decide_True, Hk. }
  rewrite !length_fmap.
  repeat split; try done; intros Hin; rewrite select_lookup, decide_True by done.
  - unfold metrics_map, kernel_ms, ms_of_ns, million.
    rewrite <- !list_fmap_compose. reflexivity.
  - reflexivity.
  - rewrite Hlen, <- (length_fmap snd parsed). reflexivity.
  - eexists. split; [reflexivity|]. split; [reflexivity|].
    intros Hne. apply is_float_py_sum.
    + destruct Hparsed; [done|discriminate].
    + apply Forall_fmap, Forall_true. done.
  - exists range. split; [reflexivity|].
    assert ("nvtx_sum" ∈ reports_required req) as Hsum.
    { eapply (requested_reports _ "nsys_nvtx_range_duration"); [done|reflexivity|].
      apply list_elem_of_here. }
    unfold range_summary_parses in Hrange. rewrite decide_True in Hrange by done.
    destruct Hexp as (_ & _ & Hfiles). destruct (Hfiles _ Hsum) as [rows Hf].
    rewrite Hf in Hrange. by destruct Hrange as (row & t & ns & _ & _ & _ & ->).
Qed.

(** C8: when the range summary is parsed, a CSV with any number of rows
    other than one makes [read_nsys_report] raise, with no result (the
    assertion error itself unless the per-kernel summary already failed to
    parse); with exactly one row the range duration is that row's total
    time in milliseconds. *)
Theorem nvtx_sum_exactly_one_row (w : Env) (path : string)
    (req : list string) (files : string → option (list Row)) (rows : list Row) :
  exported w path req files →
  "nvtx_sum" ∈ reports_required req →
  files (csv_path w path "nvtx_sum") = Some rows →
  (length rows ≠ 1%nat →
   ∃ e, read_nsys_report float_of_string str w path req
        = MkIO (nsys_trace w path req) (Raise e)
     ∧ ∀ parsed, kernel_summary_parses w path req files parsed →
         e = AssertionError "")
  ∧ (∀ row t ns parsed,
       rows = [row] →
       row !! "Total Time (ns)" = Some t →
       float_of_string t = Some ns →
       kernel_summary_parses w path req files parsed →
       ∃ d, read_nsys_report float_of_string str w path req
            = MkIO (nsys_trace w path req) (Ok d)
         ∧ ("nsys_nvtx_range_duration" ∈ req →
            d !! "nsys_nvtx_range_duration"
            = Some (VNum (quotient (PyFloat ns) (PyInt 1000000))))).
Proof.
  intros Hexp Hsum Hrows.
  pose proof (reports_nonempty _ _ Hsum) as Hne. split.
  - intros Hlen.
    destruct (read_nsys_report_run float_of_string str w path req files Hne Hexp)
      as (csv & Hlook & ->).
    destruct (analyze_bad_range float_of_string str csv rows) as (e & -> & He);
      [by rewrite Hlook, decide_True | done |].
    exists e. split; [done|]. intros parsed Hp. apply (He parsed).
    unfold kernel_part. unfold kernel_summary_parses in Hp. by rewrite Hlook.
  - intros row t ns parsed -> Ht Hf Hk. eexists. split.
    + apply (read_nsys_report_Ok w path req files parsed (ms_of_ns ns)); try done.
      unfold range_summary_parses. rewrite decide_True, Hrows by done.
      by exists row, t, ns.
    + intros Hin. rewrite select_lookup, decide_True by done. reflexivity.
Qed.

(** C6, amended: called with no requested metric, the nsys analyzer
    raises its "no reports required" assertion before it runs the export
    command or reads any CSV; the NCU analyzer loads the report, checks its
    ranges and actions, and then returns the empty mapping. *)
Theorem empty_request :
  (∀ (w : Env) (path : string),
     path_exists w path = true →
     read_nsys_report float_of_string str w path []
     = MkIO [] (Raise (AssertionError "No nsys reports required")))
  ∧ (∀ (w : Ncu.Env) (path : string) k ks rest,
       NcuLoop.ready w path →
       Ncu.load_report w path = (k :: ks) :: rest →
       Ncu.read_ncu_report w path [] = MkIO [EvLoadReport path] (Ok ∅)).
Proof.
  split.
  - intros w path Hp. unfold read_nsys_report. rewrite Hp. reflexivity.
  - intros w path k ks rest Hready Hload.
    rewrite (NcuLoop.read_ncu_report_ready _ _ _ Hready), Hload.
    by rewrite NcuLoop.aggregate_nothing.
Qed.

(** C9, amended: a requested name that is in no dependency table
    changes nothing: either analyzer gives the outcome, result or error, it
    gives without that name, so there is no "unknown metric" error.  The
    nsys mapping holds only requested keys of its table.  The NCU mapping
    holds only the analyzer's own result keys, so it has no entry for the
    name unless the name is one of those keys. *)
Theorem unknown_metrics_ignored :
  (∀ (w : Ncu.Env) (path : string) (req : list string),
     Ncu.read_ncu_report w path req
     = Ncu.read_ncu_report w path (List.filter is_bench_metric req))
  ∧ (∀ (w : Ncu.Env) (path : string) (req : list string) d name,
       outcome (Ncu.read_ncu_report w path req) = Ok d →
       name ∉ NcuLoop.result_keys → d !! name = None)
  ∧ (∀ (w : Env) (path : string) (req : list string),
       read_nsys_report float_of_string str w path req
       = read_nsys_report float_of_string str w path (List.filter is_nsys_metric req))
  ∧ (∀ (w : Env) (path : string) (req : list string) d name,
       outcome (read_nsys_report float_of_string str w path req) = Ok d →
       is_Some (d !! name) →
       name ∈ req ∧ is_Some (nsys_metrics_to_reports !! name)).
Proof.
  repeat split.
  - apply read_ncu_report_ignores_unknown.
  - intros w path req d name Hd Hname. apply not_elem_of_dom.
    intros Hin. apply Hname. by apply (read_ncu_report_dom w path req d).
  - apply read_nsys_report_ignores_unknown.
  - by eapply read_nsys_report_keys.
  - by eapply read_nsys_report_keys.
Qed.

End NsysClaims.

(** ** The claims on concrete reports *)

Section Instances.
Import Nsys NsysFacts Examples.

Lemma reports_both :
  reports_required ["nsys_launch_overhead"] = ["nvtx_kern_sum"; "nvtx_sum"].
Proof. vm_compute. reflexivity. Qed.

Local Abbreviation two_kernels :=
  [kern_row "20000000" "matmul_kernel"; kern_row "30000000" "add_kernel"].

Lemma nsys_launch_overhead_difference_witness :
  ∃ d, read_nsys_report float_of_digits str_decimal
         (nsys_env two_kernels [range_row "100000000"]) "bench.nsys-rep"
         ["nsys_launch_overhead"]
       = MkIO (nsys_trace (nsys_env two_kernels [range_row "100000000"])
                 "bench.nsys-rep" ["nsys_launch_overhead"]) (Ok d)
    ∧ d !! "nsys_launch_overhead"
      = Some (VNum (py_sub (quotient (PyFloat 100000000) (PyInt 1000000))
                           (py_sum ((λ p, quotient (PyFloat (fst p)) (PyInt 1000000))
                                      <$> [(20000000%Q, "matmul_kernel");
                                           (30000000%Q, "add_kernel")])))).
Proof.
  apply (nsys_launch_overhead_difference float_of_digits str_decimal
           (nsys_env two_kernels [range_row "100000000"]) "bench.nsys-rep"
           ["nsys_launch_overhead"]
           (nsys_files two_kernels [range_row "100000000"])
           two_kernels
           [(20000000%Q, "matmul_kernel"); (30000000%Q, "add_kernel")]
           (range_row "100000000") "100000000" 100000000%Q).
  - split; [reflexivity|]. split; [reflexivity|].
    rewrite reports_both. intros r Hr.
    apply elem_of_cons in Hr as [->|Hr]; [eexists; reflexivity|].
    apply elem_of_cons in Hr as [->|Hr]; [eexists; reflexivity|].
    by apply not_elem_of_nil in Hr.
  - apply list_elem_of_here.
  - reflexivity.
  - constructor; [exists "20000000"; repeat split; reflexivity|].
    constructor; [exists "30000000"; repeat split; reflexivity|].
    constructor.
  - reflexivity.
  - reflexivity.
  - reflexivity.
Defined.

(** The spec's example: a range of 100 ms with kernels of 20 ms and 30 ms
    leaves 50 ms of launch overhead. *)
Example nsys_launch_overhead_50 :
  outcome (read_nsys_report float_of_digits str_decimal
             (nsys_env two_kernels [range_row "100000000"]) "bench.nsys-rep"
             ["nsys_launch_overhead"]) ≫= (λ d, Ok (d !! "nsys_launch_overhead"))
  = Ok (Some (VNum (PyFloat 50))).
Proof. vm_compute. reflexivity. Qed.

(** Kernels that outlast the range give a negative overhead, returned as it is. *)
Example nsys_launch_overhead_negative :
  outcome (read_nsys_report float_of_digits str_decimal
             (nsys_env two_kernels [range_row "40000000"]) "bench.nsys-rep"
             ["nsys_launch_overhead"]) ≫= (λ d, Ok (d !! "nsys_launch_overhead"))
  = Ok (Some (VNum (PyFloat (-10)))).
Proof. vm_compute. reflexivity. Qed.

Lemma reports_range_only :
  reports_required ["nsys_nvtx_range_duration"] = ["nvtx_sum"].
Proof. vm_compute. reflexivity. Qed.

Lemma nvtx_sum_exactly_one_row_witness :
  ∃ e, read_nsys_report float_of_digits str_decimal
         (nsys_env [] [range_row "100000000"; range_row "5"]) "bench.nsys-rep"
         ["nsys_nvtx_range_duration"]
       = MkIO (nsys_trace (nsys_env [] [range_row "100000000"; range_row "5"])
                 "bench.nsys-rep" ["nsys_nvtx_range_duration"]) (Raise e)
    ∧ ∀ parsed,
        kernel_summary_parses float_of_digits
          (nsys_env [] [range_row "100000000"; range_row "5"]) "bench.nsys-rep"
          ["nsys_nvtx_range_duration"]
          (nsys_files [] [range_row "100000000"; range_row "5"]) parsed →
        e = AssertionError "".
Proof.
  apply (nvtx_sum_exactly_one_row float_of_digits str_decimal
           (nsys_env [] [range_row "100000000"; range_row "5"]) "bench.nsys-rep"
           ["nsys_nvtx_range_duration"]
           (nsys_files [] [range_row "100000000"; range_row "5"])
           [range_row "100000000"; range_row "5"]).
  - split; [reflexivity|]. split; [reflexivity|].
    rewrite reports_range_only. intros r Hr.
    apply elem_of_cons in Hr as [->|Hr]; [eexists; reflexivity|].
    by apply not_elem_of_nil in Hr.
  - rewrite reports_range_only. apply list_elem_of_here.
  - reflexivity.
  - simpl. lia.
Defined.

Example nvtx_sum_two_rows :
  outcome (read_nsys_report float_of_digits str_decimal
             (nsys_env [] [range_row "100000000"; range_row "5"]) "bench.nsys-rep"
             ["nsys_nvtx_range_duration"])
  = Raise (AssertionError "").
Proof. vm_compute. reflexivity. Qed.

Example nvtx_sum_no_row :
  outcome (read_nsys_report float_of_digits str_decimal
             (nsys_env [] []) "bench.nsys-rep" ["nsys_nvtx_range_duration"])
  = Raise (AssertionError "").
Proof. vm_compute. reflexivity. Qed.

Example nvtx_sum_one_row :
  outcome (read_nsys_report float_of_digits str_decimal
             (nsys_env [] [range_row "100000000"]) "bench.nsys-rep"
             ["nsys_nvtx_range_duration"])
    ≫= (λ d, Ok (d !! "nsys_nvtx_range_duration"))
  = Ok (Some (VNum (PyFloat 100))).
Proof. vm_compute. reflexivity. Qed.

Local Abbreviation all_metrics :=
  ["nsys_kernel_durations"; "nsys_kernel_names"; "nsys_num_of_kernels";
   "nsys_gpu_kernel_sum"; "nsys_nvtx_range_duration"].

Lemma reports_all : reports_required all_metrics = ["nvtx_kern_sum"; "nvtx_sum"].
Proof. vm_compute. reflexivity. Qed.

Lemma nsys_value_shapes_witness :
  ∃ d, outcome (read_nsys_report float_of_digits str_decimal
                  (nsys_env two_kernels [range_row "100000000"]) "bench.nsys-rep"
                  all_metrics) = Ok d
    ∧ d !! "nsys_kernel_durations" = Some (VList [VStr "20.0"; VStr "30.0"])
    ∧ d !! "nsys_num_of_kernels" = Some (VNum (PyInt 2)).
Proof.
  destruct (nsys_value_shapes float_of_digits str_decimal
              (nsys_env two_kernels [range_row "100000000"]) "bench.nsys-rep"
              all_metrics
              (nsys_files two_kernels [range_row "100000000"])
              two_kernels
              [(20000000%Q, "matmul_kernel"); (30000000%Q, "add_kernel")]
              (ms_of_ns 100000000))
    as (d & durations & names & Hrun & Hdur & _ & _ & Hd & _ & Hn & _).
  - split; [reflexivity|]. split; [reflexivity|].
    rewrite reports_all. intros r Hr.
    apply elem_of_cons in Hr as [->|Hr]; [eexists; reflexivity|].
    apply elem_of_cons in Hr as [->|Hr]; [eexists; reflexivity|].
    by apply not_elem_of_nil in Hr.
  - rewrite reports_all. apply list_elem_of_here.
  - reflexivity.
  - constructor; [exists "20000000"; repeat split; reflexivity|].
    constructor; [exists "30000000"; repeat split; reflexivity|].
    constructor.
  - unfold range_summary_parses. rewrite reports_all.
    rewrite decide_True by apply list_elem_of_further, list_elem_of_here.
    exists (range_row "100000000"), "100000000", 100000000%Q.
    repeat split; reflexivity.
  - exists d. rewrite Hrun. split; [reflexivity|]. split.
    + rewrite Hd by apply list_elem_of_here. rewrite Hdur. vm_compute. reflexivity.
    + rewrite Hn by (do 2 apply list_elem_of_further; apply list_elem_of_here).
      reflexivity.
Defined.

(** C10, counterexample: a per-kernel summary without rows is summed by
    [sum([])], the int [0], so ["nsys_gpu_kernel_sum"] is not a float. *)
Lemma nsys_gpu_kernel_sum_int :
  outcome (read_nsys_report float_of_digits str_decimal
             (nsys_env [] [range_row "100000000"]) "bench.nsys-rep"
             ["nsys_gpu_kernel_sum"]) ≫= (λ d, Ok (d !! "nsys_gpu_kernel_sum"))
  = Ok (Some (VNum (PyInt 0)))
  ∧ is_float (PyInt 0) = false.
Proof. split; vm_compute; reflexivity. Qed.

Lemma empty_request_witness :
  read_nsys_report float_of_digits str_decimal
    (nsys_env two_kernels [range_row "100000000"]) "bench.nsys-rep" []
  = MkIO [] (Raise (AssertionError "No nsys reports required"))
  ∧ Ncu.read_ncu_report (ncu_env [[kernel_a; kernel_b]]) "bench.ncu-rep" []
    = MkIO [EvLoadReport "bench.ncu-rep"] (Ok ∅).
Proof.
  split.
  - apply (proj1 (empty_request float_of_digits str_decimal)). reflexivity.
  - apply (proj2 (empty_request float_of_digits str_decimal)
             (ncu_env [[kernel_a; kernel_b]]) "bench.ncu-rep" kernel_a [kernel_b] []).
    + split; [reflexivity|]. exists "/opt/nvidia/ncu". split; reflexivity.
    + reflexivity.
Defined.

(** C6, counterexample: with no requested metric the nsys analyzer returns
    no mapping at all, and the NCU analyzer returns the empty mapping only
    after it has loaded the report. *)
Lemma empty_request_not_silent :
  outcome (read_nsys_report float_of_digits str_decimal
             (nsys_env two_kernels [range_row "100000000"]) "bench.nsys-rep" [])
  = Raise (AssertionError "No nsys reports required")
  ∧ trace (Ncu.read_ncu_report (ncu_env [[kernel_a; kernel_b]]) "bench.ncu-rep" [])
    = [EvLoadReport "bench.ncu-rep"].
Proof. split; vm_compute; reflexivity. Qed.

Lemma unknown_metrics_ignored_witness :
  (∀ d, outcome (Ncu.read_ncu_report (ncu_env [[kernel_a]]) "bench.ncu-rep"
                   ["memory_traffic"; "memory_trafic"]) = Ok d →
        d !! "memory_trafic" = None)
  ∧ (∀ d, outcome (read_nsys_report float_of_digits str_decimal
                     (nsys_env two_kernels [range_row "100000000"]) "bench.nsys-rep"
                     ["nsys_num_of_kernels"; "nsys_kernels"]) = Ok d →
          is_Some (d !! "nsys_num_of_kernels") →
          "nsys_num_of_kernels" ∈ ["nsys_num_of_kernels"; "nsys_kernels"]
          ∧ is_Some (nsys_metrics_to_reports !! "nsys_num_of_kernels")).
Proof.
  destruct (unknown_metrics_ignored float_of_digits str_decimal)
    as (_ & Hncu & _ & Hnsys).
  split.
  - intros d Hd. apply (Hncu _ _ _ _ _ Hd).
    unfold NcuLoop.result_keys, NcuLoop.loop_keys.
    rewrite !elem_of_union, !elem_of_singleton.
    intros H. repeat destruct H as [H|H]; discriminate H.
  - intros d Hd. apply (Hnsys _ _ _ _ _ Hd).
Defined.

(** C9, counterexample for the NCU analyzer: ["durations"] is in no
    dependency table, yet requested next to [ncu_tflops] it has an entry in
    the returned mapping, the analyzer's own list of kernel durations. *)
Lemma unknown_metric_has_entry :
  is_bench_metric "durations" = false
  ∧ outcome (Ncu.read_ncu_report (ncu_env [[kernel_a]]) "bench.ncu-rep"
               ["ncu_tflops"; "durations"]) ≫= (λ d, Ok (d !! "durations"))
    = Ok (Some (VList [VNum (PyFloat 1000)])).
Proof. split; vm_compute; reflexivity. Qed.

End Instances.


(** * Further properties *)

(** ** The NCU analyzer: full result and failures *)

Module NcuMore.
Import Ncu NcuLoop.

#[local] Arguments entry : simpl never.
#[local] Arguments py_add : simpl never.
#[local] Arguments py_mul : simpl never.
#[local] Arguments quotient : simpl never.
#[local] Arguments counter : simpl never.
#[local] Arguments get_flops : simpl never.
#[local] Arguments get_duration : simpl never.
#[local] Arguments get_mem_traffic : simpl never.
#[local] Arguments intensity : simpl never.
#[local] Arguments pair_value : simpl never.
#[local] Arguments py_sum : simpl never.

Definition opt (b : bool) (v : value) : option value := if b then Some v else None.

(** Every entry of the dictionary [read_ncu_report] returns. *)
Definition final_lookup (req : list string) (ks : list Kernel) (key : string)
  : option value :=
  if decide (key = "memory_traffic") then
    opt (in_list "memory_traffic" req) (memory_traffic_value ks)
  else if decide (key = "memory_traffic_read_sum") then
    opt (in_list "memory_traffic" req)
        (VNum (py_sum ((λ k, fst (get_mem_traffic k)) <$> ks)))
  else if decide (key = "memory_traffic_write_sum") then
    opt (in_list "memory_traffic" req)
        (VNum (py_sum ((λ k, snd (get_mem_traffic k)) <$> ks)))
  else if decide (key = "arithmetic_intensity") then
    opt (in_list "arithmetic_intensity" req) (arithmetic_intensity_value ks)
  else if decide (key = "weighted_fp32_arithmetic_intensity") then
    opt (in_list "arithmetic_intensity" req)
        (VNum (quotient (py_sum (weighted32 <$> ks)) (py_sum (dram_bytes <$> ks))))
  else if decide (key = "weighted_fp64_arithmetic_intensity") then
    opt (in_list "arithmetic_intensity" req)
        (VNum (quotient (py_sum (weighted64 <$> ks)) (py_sum (dram_bytes <$> ks))))
  else if decide (key = "ncu_tflops") then
    opt (in_list "ncu_tflops" req) (ncu_tflops_value ks)
  else loop_lookup req ks key.

Lemma aggregate_result (req : list string) (ks : list Kernel) :
  ks ≠ [] →
  (in_list "arithmetic_intensity" req = true →
   Forall (λ k, py_is_zero (counter k "dram_bandwidth") = false) ks
   ∧ py_is_zero (py_sum (dram_bytes <$> ks)) = false) →
  (in_list "ncu_tflops" req = true →
   py_is_zero (py_sum (get_duration <$> ks)) = false) →
  ∃ d, aggregate req ks = Ok d ∧ ∀ key, d !! key = final_lookup req ks key.
Proof.
  intros Hne Hai Htf.
  destruct (loop_run req ks) as (st & Hrun & [Hd Hb H32 H64 Hr]).
  { intros H. by destruct (Hai H). }
  pose proof (Hr "durations") as R1.
  pose proof (Hr "memory_traffic_raw") as R2.
  pose proof (Hr "ncu_tflops_raw") as R4.
  rewrite loop_lookup_durations in R1.
  rewrite loop_lookup_memory_traffic_raw in R2.
  rewrite loop_lookup_ncu_tflops_raw in R4.
  unfold aggregate. rewrite Hrun. cbn [mbind result_bind].
  unfold needs_duration in *.
  destruct (in_list "memory_traffic" req) eqn:Emt,
           (in_list "arithmetic_intensity" req) eqn:Eai,
           (in_list "ncu_tflops" req) eqn:Etf;
    cbn [orb when] in *;
    try rewrite (entry_fmap _ _ Hne) in R1;
    try rewrite (entry_fmap _ _ Hne) in R2;
    try rewrite (entry_fmap _ _ Hne) in R4.
  all: try (destruct Hai as [_ Hbz]; [done|]).
  all: try specialize (Htf eq_refl).
  all: rewrite ?(finish_memory_traffic_Ok _ ks) by done; cbn [mbind result_bind].
  all: rewrite ?(finish_arithmetic_intensity_Ok _ _ ks) by done; cbn [mbind result_bind].
  all: rewrite ?(finish_ncu_tflops_Ok _ _ ks)
         by (try done; rewrite ?lookup_insert_ne by done; done);
       cbn [mbind result_bind].
  all: eexists; split; [reflexivity|].
  all: intros key; unfold final_lookup; rewrite ?Emt, ?Eai, ?Etf; unfold opt;
    rewrite ?lookup_insert; repeat case_decide; subst; try done.
  all: rewrite Hr; unfold loop_lookup; repeat case_decide; done.
Qed.

Lemma get_arithmetic_intensity_zero (k : Kernel) :
  py_is_zero (counter k "dram_bandwidth") = true →
  get_arithmetic_intensity k = Raise ZeroDivisionError.
Proof.
  intros Hz. unfold get_arithmetic_intensity.
  destruct (get_flops k) as [f32 f64]. unfold py_truediv. by rewrite Hz.
Qed.

Lemma loop_body_fail (req : list string) (ks : list Kernel) (st : LoopState)
    (k : Kernel) :
  loop_inv req ks st →
  in_list "arithmetic_intensity" req = true →
  py_is_zero (counter k "dram_bandwidth") = true →
  loop_body req st k = Raise ZeroDivisionError.
Proof.
  intros [Hd Hb H32 H64 Hr] Eai Hz.
  pose proof (Hr "durations") as R1.
  pose proof (Hr "memory_traffic_raw") as R2.
  rewrite loop_lookup_durations in R1.
  rewrite loop_lookup_memory_traffic_raw in R2.
  unfold loop_body, needs_duration in *. rewrite Eai in *.
  destruct (in_list "memory_traffic" req) eqn:Emt; simpl in *.
  all: repeat dd_step.
  all: by rewrite get_arithmetic_intensity_zero.
Qed.

Lemma first_zero (ks : list Kernel) :
  forallb (λ k, negb (py_is_zero (counter k "dram_bandwidth"))) ks = false →
  ∃ (pre : list Kernel) k post, ks = (pre ++ k :: post)%list
    ∧ Forall (λ k, py_is_zero (counter k "dram_bandwidth") = false) pre
    ∧ py_is_zero (counter k "dram_bandwidth") = true.
Proof.
  induction ks as [|k ks IH]; [discriminate|]. cbn [forallb].
  destruct (py_is_zero (counter k "dram_bandwidth")) eqn:Ek; cbn [negb andb].
  - intros _. by exists [], k, ks.
  - intros (pre & k' & post & -> & Hpre & Hk')%IH.
    exists (k :: pre), k', post. repeat split; [|done]. by constructor.
Qed.

Lemma loop_fail (req : list string) (ks : list Kernel) :
  in_list "arithmetic_intensity" req = true →
  forallb (λ k, negb (py_is_zero (counter k "dram_bandwidth"))) ks = false →
  foldM (loop_body req) ks init_state = Raise ZeroDivisionError.
Proof.
  intros Eai (pre & k & post & -> & Hpre & Hk)%first_zero.
  destruct (loop_run req pre) as (st & Hrun & Hinv); [done|].
  rewrite foldM_app, Hrun. cbn [mbind result_bind foldM].
  by rewrite (loop_body_fail req pre st k).
Qed.

Lemma finish_arithmetic_intensity_zero (st : LoopState) (d : gmap string value) :
  py_is_zero (total_dram_bytes st) = true →
  finish_arithmetic_intensity st d = Raise ZeroDivisionError.
Proof. intros Hz. unfold finish_arithmetic_intensity, py_truediv. by rewrite Hz. Qed.

Lemma finish_ncu_tflops_zero (st : LoopState) (d : gmap string value)
    (ks : list Kernel) :
  ks ≠ [] →
  d !! "durations" = Some (VList ((λ k, VNum (get_duration k)) <$> ks)) →
  d !! "ncu_tflops_raw" = Some (VList ((λ k, pair_value (get_flops k)) <$> ks)) →
  py_is_zero (total_duration st) = true →
  finish_ncu_tflops st d = Raise ZeroDivisionError.
Proof.
  intros Hne Hd Hraw Hz. unfold finish_ncu_tflops, dd_touch.
  rewrite Hd. cbv zeta. rewrite Hraw.
  rewrite (dd_get_Some _ _ _ Hd), (dd_get_Some _ _ _ Hraw).
  replace (truthy _) with true by (by destruct ks).
  cbn [py_assert mbind result_bind as_list].
  rewrite weighted_flops_sum_0, weighted_flops_sum_1. cbn [mbind result_bind].
  rewrite !(py_truediv_Ok _ tera) by done. cbn [mbind result_bind].
  unfold py_truediv. by rewrite Hz.
Qed.

(** The check that no division of the call is by zero, as a boolean. *)
Definition divisions_defined_b (req : list string) (ks : list Kernel) : bool :=
  (negb (in_list "arithmetic_intensity" req)
   || (forallb (λ k, negb (py_is_zero (counter k "dram_bandwidth"))) ks
       && negb (py_is_zero (py_sum (dram_bytes <$> ks)))))
  && (negb (in_list "ncu_tflops" req)
      || negb (py_is_zero (py_sum (get_duration <$> ks)))).

Lemma forallb_nonzero (ks : list Kernel) :
  forallb (λ k, negb (py_is_zero (counter k "dram_bandwidth"))) ks = true
  ↔ Forall (λ k, py_is_zero (counter k "dram_bandwidth") = false) ks.
Proof.
  rewrite forallb_forall, Forall_forall. split; intros H k Hk.
  - apply negb_true_iff, H. by apply list_elem_of_In.
  - apply negb_true_iff, H. by apply list_elem_of_In.
Qed.

Lemma divisions_defined_b_spec (req : list string) (ks : list Kernel) :
  divisions_defined_b req ks = true ↔ divisions_defined req ks.
Proof.
  unfold divisions_defined_b, divisions_defined.
  rewrite andb_true_iff, !orb_true_iff, andb_true_iff, !negb_true_iff,
    forallb_nonzero, <- !in_list_elem_of.
  destruct (in_list "arithmetic_intensity" req), (in_list "ncu_tflops" req);
    intuition congruence.
Qed.

Lemma aggregate_fail (req : list string) (ks : list Kernel) :
  ks ≠ [] → divisions_defined_b req ks = false →
  aggregate req ks = Raise ZeroDivisionError.
Proof.
  intros Hne Hb. unfold divisions_defined_b in Hb.
  destruct (in_list "arithmetic_intensity" req) eqn:Eai;
    [destruct (forallb _ ks) eqn:Enz|]; cbn [negb orb andb] in Hb.
  2: { unfold aggregate. by rewrite loop_fail. }
  all: destruct (loop_run req ks) as (st & Hrun & [Hd Hbytes H32 H64 Hr]);
    [first [by intros _; apply forallb_nonzero | by intros ?; congruence]|].
  all: pose proof (Hr "durations") as R1;
    pose proof (Hr "memory_traffic_raw") as R2;
    pose proof (Hr "ncu_tflops_raw") as R4;
    rewrite loop_lookup_durations in R1;
    rewrite loop_lookup_memory_traffic_raw in R2;
    rewrite loop_lookup_ncu_tflops_raw in R4;
    unfold aggregate; rewrite Hrun; cbn [mbind result_bind];
    unfold needs_duration in *; rewrite Eai in *.
  all: destruct (in_list "memory_traffic" req) eqn:Emt,
                (in_list "ncu_tflops" req) eqn:Etf;
    cbn [negb orb andb when] in *;
    try rewrite (entry_fmap _ _ Hne) in R1;
    try rewrite (entry_fmap _ _ Hne) in R2;
    try rewrite (entry_fmap _ _ Hne) in R4;
    try discriminate Hb.
  all: rewrite ?(finish_memory_traffic_Ok _ ks) by done; cbn [mbind result_bind].
  all: destruct (py_is_zero (py_sum (dram_bytes <$> ks))) eqn:Ez;
    cbn [negb orb andb] in Hb; try discriminate Hb.
  all: try (rewrite finish_arithmetic_intensity_zero by congruence; reflexivity).
  all: rewrite ?(finish_arithmetic_intensity_Ok _ _ ks) by done; cbn [mbind result_bind].
  all: apply negb_false_iff in Hb.
  all: apply (finish_ncu_tflops_zero _ _ ks);
    [done | by rewrite ?lookup_insert_ne by done
          | by rewrite ?lookup_insert_ne by done | congruence].
Qed.

Lemma aggregate_Ok_inv (req : list string) (ks : list Kernel) (d : gmap string value) :
  ks ≠ [] → aggregate req ks = Ok d →
  divisions_defined req ks ∧ ∀ key, d !! key = final_lookup req ks key.
Proof.
  intros Hne Hd.
  destruct (divisions_defined_b req ks) eqn:Eb.
  - split; [by apply divisions_defined_b_spec|].
    apply divisions_defined_b_spec in Eb as [Hai Htf].
    destruct (aggregate_result req ks Hne) as (d' & Hd' & Hlook).
    { intros H. by apply Hai, in_list_elem_of. }
    { intros H. by apply Htf, in_list_elem_of. }
    congruence.
  - rewrite (aggregate_fail req ks Hne Eb) in Hd. discriminate.
Qed.

Lemma read_ncu_report_inv (w : Env) (path : string) (req : list string)
    (d : gmap string value) :
  outcome (read_ncu_report w path req) = Ok d →
  ready w path
  ∧ ∃ k ks rest, load_report w path = (k :: ks) :: rest
      ∧ aggregate req (k :: ks) = Ok d.
Proof.
  unfold read_ncu_report, _import_ncu_python_path, ready.
  destruct (path_exists w path) eqn:Ep; [|discriminate].
  destruct (which_ncu w) as [ncu|] eqn:Encu; [|discriminate].
  destruct (path_exists w (os_path_join (os_path_dirname w ncu) "extras/python"))
    eqn:Ex; [|discriminate].
  destruct (load_report w path) as [|[|k ks] rest]; try discriminate.
  cbn -[aggregate]. intros Hd. split; [split; [done|]; by exists ncu|].
  by exists k, ks, rest.
Qed.

End NcuMore.

Section NcuExtras.
Import Ncu NcuLoop NcuMore Examples.


(** X2: when [read_ncu_report] returns, the mapping has an entry under a
    benchmark metric name exactly when that metric was requested. *)
Theorem bench_metric_entry_iff_requested (w : Env) (path : string)
    (req : list string) (d : gmap string value) (m : string) :
  outcome (read_ncu_report w path req) = Ok d →
  m ∈ ["memory_traffic"; "arithmetic_intensity"; "ncu_tflops"] →
  is_Some (d !! m) ↔ m ∈ req.
Proof.
  intros (_ & k & ks & rest & _ & Hagg)%read_ncu_report_inv Hm.
  destruct (aggregate_Ok_inv req (k :: ks) d) as [_ Hlook]; [done..|].
  rewrite Hlook, <- in_list_elem_of.
  repeat (apply elem_of_cons in Hm as [->|Hm]); [| | |by apply not_elem_of_nil in Hm].
  all: unfold final_lookup; repeat case_decide; try done.
  all: unfold opt; destruct (in_list _ req); split; (done || by intros [? ?]).
Qed.

(** X3: when [read_ncu_report] returns, the accumulator entries hold one
    item per kernel action, in the order of the default range: the durations
    under ["durations"] when [arithmetic_intensity] or [ncu_tflops] is
    requested, the (read, write) byte pairs under ["memory_traffic_raw"],
    the intensity pairs under ["arithmetic_intensity_raw"] and the FLOPS
    pairs under ["ncu_tflops_raw"]; an accumulator of a metric that is not
    requested has no entry. *)
Theorem accumulators_per_kernel (w : Env) (path : string)
    (req : list string) (ks : list Kernel) (rest : list (list Kernel))
    (d : gmap string value) :
  load_report w path = ks :: rest →
  outcome (read_ncu_report w path req) = Ok d →
  d !! "durations"
    = (if bool_decide ("arithmetic_intensity" ∈ req ∨ "ncu_tflops" ∈ req)
       then Some (VList ((λ k, VNum (get_duration k)) <$> ks)) else None)
  ∧ d !! "memory_traffic_raw"
    = (if bool_decide ("memory_traffic" ∈ req)
       then Some (VList ((λ k, VTuple (VNum (counter k "dram_bytes_read"))
                                      (VNum (counter k "dram_bytes_write"))) <$> ks))
       else None)
  ∧ d !! "arithmetic_intensity_raw"
    = (if bool_decide ("arithmetic_intensity" ∈ req)
       then Some (VList ((λ k,
              VTuple (VNum (quotient (fst (get_flops k)) (counter k "dram_bandwidth")))
                     (VNum (quotient (snd (get_flops k)) (counter k "dram_bandwidth"))))
              <$> ks))
       else None)
  ∧ d !! "ncu_tflops_raw"
    = (if bool_decide ("ncu_tflops" ∈ req)
       then Some (VList ((λ k, VTuple (VNum (fst (get_flops k)))
                                      (VNum (snd (get_flops k)))) <$> ks))
       else None).
Proof.
  intros Hload (_ & k & ks' & rest' & Hload' & Hagg)%read_ncu_report_inv.
  rewrite Hload in Hload'. injection Hload' as -> _.
  destruct (aggregate_Ok_inv req (k :: ks') d) as [_ Hlook]; [done..|].
  rewrite !Hlook.
  assert (∀ b (P : Prop) `{Decision P} (vs : list value),
            (b = true ↔ P) → vs ≠ [] →
            entry b vs = if bool_decide P then Some (VList vs) else None) as Hentry.
  { intros b P ? vs Hb Hvs. case_bool_decide as HP.
    - apply Hb in HP as ->. by destruct vs.
    - destruct b; [|done]. exfalso. by apply HP, Hb. }
  repeat split.
  - apply Hentry; [|done].
    unfold needs_duration. by rewrite orb_true_iff, !in_list_elem_of.
  - apply Hentry; [apply in_list_elem_of|done].
  - apply Hentry; [apply in_list_elem_of|done].
  - apply Hentry; [apply in_list_elem_of|done].
Qed.

(** X4: [read_ncu_report] loads the report only on a machine that has the
    report file and a complete profiler installation.  A missing report file
    is reported first, by an assertion error; then a missing [ncu] command
    and a missing [extras/python] directory, each by [FileNotFoundError];
    in all three cases nothing is loaded. *)
Theorem read_ncu_report_preconditions (w : Env) (path : string) (req : list string) :
  (path_exists w path = false →
   read_ncu_report w path req
   = MkIO [] (Raise (AssertionError ("The NCU report at " ++ path ++ " does not exist."))))
  ∧ (path_exists w path = true → which_ncu w = None →
     read_ncu_report w path req
     = MkIO [] (Raise (FileNotFoundError "Could not find 'ncu' command in PATH.")))
  ∧ (∀ ncu, path_exists w path = true → which_ncu w = Some ncu →
       path_exists w (os_path_join (os_path_dirname w ncu) "extras/python") = false →
       read_ncu_report w path req
       = MkIO [] (Raise (FileNotFoundError
           ("'extras/python' does not exist in the provided ncu_path: "
            ++ os_path_dirname w ncu))))
  ∧ (trace (read_ncu_report w path req) = [EvLoadReport path] ↔ ready w path).
Proof.
  unfold read_ncu_report, _import_ncu_python_path, ready.
  split; [by intros ->|].
  split; [by intros -> ->|].
  split; [by intros ncu -> -> ->|].
  split.
  - destruct (path_exists w path); [|discriminate].
    destruct (which_ncu w) as [ncu|]; [|discriminate].
    destruct (path_exists w (os_path_join (os_path_dirname w ncu) "extras/python"))
      eqn:Ex; [|discriminate].
    intros _. split; [done|]. by exists ncu.
  - intros (-> & ncu & -> & ->).
    by destruct (load_report w path) as [|[|k ks] rest].
Qed.

Lemma in_list_same (req req' : list string) (m : string) :
  (∀ m, m ∈ req ↔ m ∈ req') → in_list m req = in_list m req'.
Proof.
  intros H. apply eq_true_iff_eq. by rewrite !in_list_elem_of.
Qed.

(** X5: the order of the requested metrics and their repetitions do not
    matter to [read_ncu_report]: two requests with the same names give the
    same outcome. *)
Theorem read_ncu_report_same_names (w : Env) (path : string) (req req' : list string) :
  (∀ m, m ∈ req ↔ m ∈ req') →
  read_ncu_report w path req = read_ncu_report w path req'.
Proof.
  intros H. apply read_ncu_report_ext. intros ks.
  apply aggregate_flags; by apply in_list_same.
Qed.

Lemma arithmetic_intensity_value_perm (ks ks' : list Kernel) :
  ks ≡ₚ ks' → arithmetic_intensity_value ks = arithmetic_intensity_value ks'.
Proof.
  intros Hp. unfold arithmetic_intensity_value.
  by rewrite (py_sum_perm _ _ (fmap_Permutation weighted32 _ _ Hp)),
             (py_sum_perm _ _ (fmap_Permutation weighted64 _ _ Hp)),
             (py_sum_perm _ _ (fmap_Permutation dram_bytes _ _ Hp)).
Qed.

Lemma ncu_tflops_value_perm (ks ks' : list Kernel) :
  ks ≡ₚ ks' → ncu_tflops_value ks = ncu_tflops_value ks'.
Proof.
  intros Hp. unfold ncu_tflops_value.
  by rewrite (py_sum_perm _ _ (fmap_Permutation flops_time32 _ _ Hp)),
             (py_sum_perm _ _ (fmap_Permutation flops_time64 _ _ Hp)),
             (py_sum_perm _ _ (fmap_Permutation get_duration _ _ Hp)).
Qed.


(** The counters [get_ncu_metrics] asks the profiler for. *)
Definition collected (metrics : list string) : list string :=
  mjoin ((λ item : string * list string,
            if in_list (fst item) metrics
            then (λ short, default "" (short_ncu_metric_name !! short)) <$> snd item
            else []) <$> bench_metric_to_short_ncu_metric).

(** X7: [get_ncu_metrics] never raises: every short name of the dependency
    table is a key of [short_ncu_metric_name], and for every request the
    result lists, in table order, the full NCU counter names of the
    requested benchmark metrics; other requested names add nothing. *)
Theorem get_ncu_metrics_collects (metrics : list string) :
  get_ncu_metrics metrics = Ok (collected metrics)
  ∧ (∀ item short, item ∈ bench_metric_to_short_ncu_metric →
       short ∈ snd item → is_Some (short_ncu_metric_name !! short)).
Proof.
  split.
  - unfold get_ncu_metrics, collected, bench_metric_to_short_ncu_metric.
    cbn [foldM fmap list_fmap fst snd mbind result_bind].
    destruct (in_list "memory_traffic" metrics),
             (in_list "arithmetic_intensity" metrics),
             (in_list "ncu_tflops" metrics); reflexivity.
  - intros item short Hitem Hshort.
    unfold bench_metric_to_short_ncu_metric in Hitem.
    repeat (apply elem_of_cons in Hitem as [->|Hitem]);
      [| | |by apply not_elem_of_nil in Hitem]; cbn [snd] in Hshort.
    all: repeat (apply elem_of_cons in Hshort as [->|Hshort]);
      try (by apply not_elem_of_nil in Hshort); by eexists.
Qed.

(** Two kernel actions with the same values of the counters [names]. *)
Definition agree (names : list string) (k k' : Kernel) : Prop :=
  ∀ name, name ∈ names → metric_by_name k name = metric_by_name k' name.

Lemma counter_agree (req : list string) (k k' : Kernel)
    (m : string) (shorts : list string) (short : string) :
  agree (collected req) k k' →
  (m, shorts) ∈ bench_metric_to_short_ncu_metric →
  in_list m req = true → short ∈ shorts →
  counter k short = counter k' short.
Proof.
  intros Hagree Hitem Hm Hshort. apply Hagree.
  unfold collected. apply list_elem_of_join.
  exists ((λ short, default "" (short_ncu_metric_name !! short)) <$> shorts).
  split.
  - apply list_elem_of_fmap. by exists short.
  - apply list_elem_of_fmap. exists (m, shorts). cbn [fst snd]. by rewrite Hm.
Qed.

Lemma get_flops_agree (k k' : Kernel) :
  (∀ short, short ∈ ["inst_executed_fadd"; "inst_executed_fmul"; "inst_executed_ffma";
                     "inst_executed_dadd"; "inst_executed_dmul"; "inst_executed_dfma";
                     "sm_freq"] → counter k short = counter k' short) →
  get_flops k = get_flops k'.
Proof.
  intros H. unfold get_flops.
  rewrite !(H _) by (apply list_elem_of_In; simpl; tauto). reflexivity.
Qed.

Lemma loop_body_agree (req : list string) (st : LoopState) (k k' : Kernel) :
  agree (collected req) k k' → loop_body req st k = loop_body req st k'.
Proof.
  intros Hagree.
  assert (∀ short, in_list "memory_traffic" req = true →
            short ∈ ["dram_bytes_write"; "dram_bytes_read"] →
            counter k short = counter k' short) as Cmt.
  { intros short E Hs.
    eapply (counter_agree req k k' "memory_traffic"); [done| |done|exact Hs].
    apply list_elem_of_here. }
  assert (∀ short, in_list "arithmetic_intensity" req = true →
            short ∈ snd (default ("", []) (bench_metric_to_short_ncu_metric !! 1%nat)) →
            counter k short = counter k' short) as Cai.
  { intros short E Hs.
    eapply (counter_agree req k k' "arithmetic_intensity"); [done| |done|exact Hs].
    apply list_elem_of_further, list_elem_of_here. }
  assert (∀ short, in_list "ncu_tflops" req = true →
            short ∈ snd (default ("", []) (bench_metric_to_short_ncu_metric !! 2%nat)) →
            counter k short = counter k' short) as Ctf.
  { intros short E Hs.
    eapply (counter_agree req k k' "ncu_tflops"); [done| |done|exact Hs].
    do 2 apply list_elem_of_further. apply list_elem_of_here. }
  cbn [bench_metric_to_short_ncu_metric lookup list_lookup default snd] in Cai, Ctf.
  assert (in_list "memory_traffic" req = true →
          get_mem_traffic k = get_mem_traffic k') as Hmem.
  { intros E. unfold get_mem_traffic.
    by rewrite !(Cmt _ E) by (apply list_elem_of_In; simpl; tauto). }
  assert (in_list "arithmetic_intensity" req = true →
          get_duration k = get_duration k'
          ∧ counter k "dram_bytes" = counter k' "dram_bytes"
          ∧ get_arithmetic_intensity k = get_arithmetic_intensity k') as Hai.
  { intros E. unfold get_duration, get_arithmetic_intensity.
    rewrite (get_flops_agree k k').
    - by rewrite !(Cai _ E) by (apply list_elem_of_In; simpl; tauto).
    - intros short Hs. apply (Cai _ E).
      apply list_elem_of_In in Hs. apply list_elem_of_In. simpl in *. tauto. }
  assert (in_list "ncu_tflops" req = true →
          get_duration k = get_duration k' ∧ get_flops k = get_flops k') as Htf.
  { intros E. unfold get_duration. split.
    - by rewrite !(Ctf _ E) by (apply list_elem_of_In; simpl; tauto).
    - apply get_flops_agree. intros short Hs. apply (Ctf _ E).
      apply list_elem_of_In in Hs. apply list_elem_of_In. simpl in *. tauto. }
  unfold loop_body, needs_duration.
  destruct (in_list "memory_traffic" req),
           (in_list "arithmetic_intensity" req),
           (in_list "ncu_tflops" req); cbn [orb].
  all: try (destruct (Hai eq_refl) as (-> & -> & ->)).
  all: try (destruct (Htf eq_refl) as (? & ->)).
  all: try rewrite (Hmem eq_refl).
  all: try (destruct (Htf eq_refl) as (-> & _)).
  all: reflexivity.
Qed.

Lemma foldM_loop_agree (req : list string) (ks ks' : list Kernel) (st : LoopState) :
  Forall2 (agree (collected req)) ks ks' →
  foldM (loop_body req) ks st = foldM (loop_body req) ks' st.
Proof.
  intros H. revert st. induction H as [|k k' ks ks' Hk _ IH]; intros st; [done|].
  cbn [foldM]. rewrite (loop_body_agree req st k k' Hk).
  destruct (loop_body req st k'); cbn; [apply IH | done].
Qed.

(** X8: [read_ncu_report] reads no counter that [get_ncu_metrics] did not
    ask for: two reports whose kernel actions agree, one by one, on the
    counters collected for the request give the same outcome. *)
Theorem read_ncu_report_reads_collected_only (w w' : Env) (path : string)
    (req : list string) (names : list string)
    (ks ks' : list Kernel) (rest rest' : list (list Kernel)) :
  ready w path → load_report w path = ks :: rest →
  ready w' path → load_report w' path = ks' :: rest' →
  get_ncu_metrics req = Ok names →
  Forall2 (λ k k', ∀ name, name ∈ names →
                     metric_by_name k name = metric_by_name k' name) ks ks' →
  read_ncu_report w path req = read_ncu_report w' path req.
Proof.
  intros Hready Hload Hready' Hload' Hnames Hagree.
  rewrite (proj1 (get_ncu_metrics_collects req)) in Hnames.
  injection Hnames as <-.
  rewrite (read_ncu_report_ready _ _ _ Hready), Hload,
          (read_ncu_report_ready _ _ _ Hready'), Hload'.
  destruct Hagree as [|k k' ks ks' Hk Hks]; [done|].
  f_equal. unfold aggregate.
  by rewrite (foldM_loop_agree req (k :: ks) (k' :: ks')) by by constructor.
Qed.

(** X17: asking for fewer metrics never fails where asking for more
    returns: when [read_ncu_report] returns for a request, it returns for
    every request with no other names, and each entry of the smaller result
    is an entry of the larger one, with the same value. *)
Theorem read_ncu_report_fewer_metrics (w : Env) (path : string)
    (req req' : list string) (d' : gmap string value) :
  (∀ m, m ∈ req → m ∈ req') →
  outcome (read_ncu_report w path req') = Ok d' →
  ∃ d, read_ncu_report w path req = MkIO [EvLoadReport path] (Ok d) ∧ d ⊆ d'.
Proof.
  intros Hsub (Hready & k & ks & rest & Hload & Hagg)%read_ncu_report_inv.
  destruct (aggregate_Ok_inv req' (k :: ks) d') as [[Hai Htf] Hlook']; [done..|].
  assert (∀ m, in_list m req = true → in_list m req' = true) as Hin.
  { intros m. rewrite !in_list_elem_of. apply Hsub. }
  destruct (aggregate_result req (k :: ks)) as (d & Hd & Hlook); [done|..].
  { intros H. by apply Hai, in_list_elem_of, Hin. }
  { intros H. by apply Htf, in_list_elem_of, Hin. }
  exists d. split.
  { by rewrite (read_ncu_report_ready _ _ _ Hready), Hload, Hd. }
  apply map_subseteq_spec. intros key v. rewrite Hlook, Hlook'.
  assert (∀ m x, opt (in_list m req) x = Some v → opt (in_list m req') x = Some v)
    as Hopt.
  { intros m x. unfold opt. destruct (in_list m req) eqn:E; [|done].
    by rewrite (Hin _ E). }
  assert (∀ m xs, entry (in_list m req) xs = Some v → entry (in_list m req') xs = Some v)
    as Hentry.
  { intros m xs. unfold entry. destruct (in_list m req) eqn:E; [|done].
    by rewrite (Hin _ E). }
  unfold final_lookup, loop_lookup. repeat case_decide; auto.
  unfold entry, needs_duration.
  destruct (in_list "arithmetic_intensity" req) eqn:E1;
    [rewrite (Hin _ E1); done|].
  destruct (in_list "ncu_tflops" req) eqn:E2; [|done].
  by rewrite (Hin _ E2), !orb_true_r.
Qed.

(** X18: the assertions of [read_ncu_report] that can fail are the three
    at its start: the report file exists, the report has a range, the
    default range has an action.  The one before the TFLOPS are computed,
    "No kernel durations found in the NCU report.", never fails. *)
Theorem read_ncu_report_assertions (w : Env) (path : string) (req : list string) :
  (∀ msg, outcome (read_ncu_report w path req) = Raise (AssertionError msg) →
     msg = "The NCU report at " ++ path ++ " does not exist."
     ∨ msg = "No profile data found in the NCU report at " ++ path
     ∨ msg = "No profile data found in the default range of the NCU report at "
             ++ path)
  ∧ outcome (read_ncu_report w path req)
    ≠ Raise (AssertionError "No kernel durations found in the NCU report.").
Proof.
  assert (∀ msg, outcome (read_ncu_report w path req) = Raise (AssertionError msg) →
     msg = "The NCU report at " ++ path ++ " does not exist."
     ∨ msg = "No profile data found in the NCU report at " ++ path
     ∨ msg = "No profile data found in the default range of the NCU report at "
             ++ path) as Hmsg.
  { intros msg. unfold read_ncu_report, _import_ncu_python_path.
    destruct (path_exists w path) eqn:Ep; [|intros [= <-]; by left].
    destruct (which_ncu w) as [ncu|] eqn:Encu; [|discriminate].
    destruct (path_exists w (os_path_join (os_path_dirname w ncu) "extras/python"))
      eqn:Ex; [|discriminate].
    destruct (load_report w path) as [|[|k ks] rest].
    - intros [= <-]. right. by left.
    - intros [= <-]. right. by right.
    - cbn -[aggregate]. intros H. exfalso.
      destruct (divisions_defined_b req (k :: ks)) eqn:Eb.
      + apply divisions_defined_b_spec in Eb as [Hai Htf].
        destruct (aggregate_result req (k :: ks)) as (d & Hd & _); [done|..].
        { intros Hin. by apply Hai, in_list_elem_of. }
        { intros Hin. by apply Htf, in_list_elem_of. }
        rewrite Hd in H. discriminate.
      + rewrite (aggregate_fail req (k :: ks)) in H by done. discriminate. }
  split; [exact Hmsg|].
  intros H. apply Hmsg in H as [H|[H|H]]; cbn in H; discriminate.
Qed.

(** X19: when [read_ncu_report] returns, each requested benchmark metric
    is the pair of the two summary numbers: [memory_traffic] of the entries
    ["memory_traffic_read_sum"] and ["memory_traffic_write_sum"],
    [arithmetic_intensity] of the two weighted intensities, which are
    floats, and [ncu_tflops] of two floats. *)
Theorem summary_entries_paired (w : Env) (path : string) (req : list string)
    (d : gmap string value) :
  outcome (read_ncu_report w path req) = Ok d →
  ("memory_traffic" ∈ req →
   ∃ r wr, d !! "memory_traffic_read_sum" = Some (VNum r)
     ∧ d !! "memory_traffic_write_sum" = Some (VNum wr)
     ∧ d !! "memory_traffic" = Some (VTuple (VNum r) (VNum wr)))
  ∧ ("arithmetic_intensity" ∈ req →
     ∃ a b, d !! "weighted_fp32_arithmetic_intensity" = Some (VNum a)
       ∧ d !! "weighted_fp64_arithmetic_intensity" = Some (VNum b)
       ∧ d !! "arithmetic_intensity" = Some (VTuple (VNum a) (VNum b))
       ∧ is_float a = true ∧ is_float b = true)
  ∧ ("ncu_tflops" ∈ req →
     ∃ a b, d !! "ncu_tflops" = Some (VTuple (VNum a) (VNum b))
       ∧ is_float a = true ∧ is_float b = true).
Proof.
  intros (_ & k & ks & rest & _ & Hagg)%read_ncu_report_inv.
  destruct (aggregate_Ok_inv req (k :: ks) d) as [_ Hlook]; [done..|].
  split; [|split]; intros Hin%in_list_elem_of.
  - eexists _, _. rewrite !Hlook. unfold final_lookup.
    repeat case_decide; try done. rewrite Hin. by repeat split.
  - eexists _, _. rewrite !Hlook. unfold final_lookup.
    repeat case_decide; try done. rewrite Hin. by repeat split.
  - eexists _, _. rewrite !Hlook. unfold final_lookup.
    repeat case_decide; try done. rewrite Hin. by repeat split.
Qed.

End NcuExtras.

(** ** More about the nsys analyzer *)

Module NsysMore.
Import Nsys NsysFacts.

Lemma filter_sublist {A} (f : A → bool) (l : list A) : List.filter f l `sublist_of` l.
Proof.
  induction l as [|x l IH]; simpl; [constructor|].
  destruct (f x); by constructor.
Qed.

Lemma table_keys (m : string) :
  is_Some (nsys_metrics_to_reports !! m) ↔ m ∈ fst <$> nsys_metrics_to_reports_items.
Proof.
  unfold nsys_metrics_to_reports.
  rewrite <- elem_of_dom, dom_list_to_map_L, elem_of_list_to_set. done.
Qed.

Lemma table_entry (m : string) (rs : list string) :
  nsys_metrics_to_reports !! m = Some rs → (m, rs) ∈ nsys_metrics_to_reports_items.
Proof. apply elem_of_list_to_map_2. Qed.

(** Every metric of the table needs at least one report, and only the two
    summaries are ever needed. *)
Lemma table_entry_reports (m : string) (rs : list string) :
  nsys_metrics_to_reports !! m = Some rs →
  rs ≠ [] ∧ ∀ r, r ∈ rs → r = "nvtx_kern_sum" ∨ r = "nvtx_sum".
Proof.
  intros H%table_entry. unfold nsys_metrics_to_reports_items in H.
  repeat (apply elem_of_cons in H as [[= -> ->]|H]);
    [..|by apply not_elem_of_nil in H].
  all: split; [done|]; intros r Hr.
  all: repeat (apply elem_of_cons in Hr as [->|Hr]); auto; by apply not_elem_of_nil in Hr.
Qed.

Lemma get_nsys_metrics_elem (metrics : list string) (m : string) :
  m ∈ get_nsys_metrics metrics
  ↔ m ∈ metrics ∧ is_Some (nsys_metrics_to_reports !! m).
Proof.
  unfold get_nsys_metrics.
  rewrite table_keys, !list_elem_of_In, filter_In, <- !list_elem_of_In, in_list_elem_of.
  tauto.
Qed.

Lemma reports_required_nil (req : list string) :
  reports_required req = [] ↔ get_nsys_metrics req = [].
Proof.
  split; intros H.
  - destruct (get_nsys_metrics req) as [|m ms] eqn:E; [done|]. exfalso.
    assert (m ∈ get_nsys_metrics req) as [Hm [rs Hrs]]%get_nsys_metrics_elem
      by (rewrite E; left).
    destruct (table_entry_reports m rs Hrs) as [Hne _].
    destruct rs as [|r rs]; [done|].
    assert (r ∈ reports_required req) as Hr.
    { apply reports_required_elem. exists m, (r :: rs). repeat split; [done..|left]. }
    rewrite H in Hr. by apply not_elem_of_nil in Hr.
  - destruct (reports_required req) as [|r rs] eqn:E; [done|]. exfalso.
    assert (r ∈ reports_required req) as (m & rs' & Hm & Hrs & _)%reports_required_elem
      by (rewrite E; left).
    assert (m ∈ get_nsys_metrics req) as Hin by (apply get_nsys_metrics_elem; eauto).
    rewrite H in Hin. by apply not_elem_of_nil in Hin.
Qed.

Lemma reports_required_NoDup (req : list string) : NoDup (reports_required req).
Proof. unfold reports_required. apply NoDup_elements. Qed.

Lemma select_dom (req : list string) (mm : gmap string value) (k : string) :
  dom mm = dom nsys_metrics_to_reports →
  is_Some (select req mm !! k) ↔ k ∈ get_nsys_metrics req.
Proof.
  intros Hdom. rewrite select_lookup, get_nsys_metrics_elem, <- !elem_of_dom, <- Hdom.
  rewrite elem_of_dom. case_decide; [tauto|]. split; [by intros [? ?]|tauto].
Qed.

Lemma read_csvs_ext (w w' : Env) (files files' : string → option (list Row))
    (path : string) (reports : list string) (csv0 : gmap string (list Row)) :
  os_path_stem w path = os_path_stem w' path →
  (∀ r, r ∈ reports → files (csv_path w path r) = files' (csv_path w path r)) →
  read_csvs w files path reports csv0 = read_csvs w' files' path reports csv0.
Proof.
  intros Hstem. revert csv0. induction reports as [|r reports IH]; intros csv0 H; [done|].
  cbn [read_csvs].
  assert (csv_path w' path r = csv_path w path r) as -> by (unfold csv_path; by rewrite Hstem).
  rewrite <- (H r) by left.
  destruct (files (csv_path w path r)) as [rows|]; [|done].
  rewrite !io_emit_bind, IH; [done|]. intros r' Hr'. apply H. by right.
Qed.

Lemma read_csvs_error (w : Env) (files : string → option (list Row)) (path : string)
    (reports : list string) (csv0 : gmap string (list Row)) (e : exn) :
  outcome (read_csvs w files path reports csv0) = Raise e →
  ∃ r, r ∈ reports
    ∧ e = RuntimeError ("Expected CSV report not found at " ++ csv_path w path r).
Proof.
  revert csv0. induction reports as [|r reports IH]; intros csv0 H; [discriminate|].
  cbn [read_csvs] in H. destruct (files (csv_path w path r)) as [rows|].
  - rewrite io_emit_bind in H. cbn [outcome] in H.
    destruct (IH _ H) as (r' & Hr' & ->). exists r'. split; [by right|done].
  - injection H as <-. exists r. split; [left|done].
Qed.

Lemma bind_Raise {A B} (m : result A) (f : A → result B) (e : exn) :
  (m ≫= f) = Raise e → m = Raise e ∨ ∃ a, m = Ok a ∧ f a = Raise e.
Proof. destruct m as [a|e']; simpl; [eauto | intros [= ->]; by left]. Qed.

(** The errors of a row that cannot be read. *)
Definition row_error (e : exn) : Prop :=
  (∃ key, e = KeyError key) ∨ (∃ t, e = ValueError t).

Section WithBuiltins.

Variable float_of_string : string → option Q.
Variable str : PyNum → string.

#[local] Arguments metrics_map : simpl never.
#[local] Arguments py_sum : simpl never.
#[local] Arguments py_sub : simpl never.
#[local] Arguments quotient : simpl never.
#[local] Arguments million : simpl never.
#[local] Arguments py_truediv : simpl never.

(** The three ways a row of the per-kernel summary stops the loop. *)
Definition row_fails (row : Row) (e : exn) : Prop :=
  (row !! "Total Time (ns)" = None ∧ e = KeyError "Total Time (ns)")
  ∨ (∃ t, row !! "Total Time (ns)" = Some t ∧ float_of_string t = None
        ∧ e = ValueError t)
  ∨ (∃ t ns, row !! "Total Time (ns)" = Some t ∧ float_of_string t = Some ns
        ∧ row !! "Kernel Name" = None ∧ e = KeyError "Kernel Name").

Lemma kernel_row_fails (acc : list PyNum * list string) (row : Row) (e : exn) :
  row_fails row e → kernel_row float_of_string acc row = Raise e.
Proof.
  unfold kernel_row, row_get, py_float.
  intros [[Ht ->]|[(t & Ht & Hf & ->)|(t & ns & Ht & Hf & Hn & ->)]];
    rewrite Ht; cbn; [done|..]; rewrite Hf; cbn; [done|].
  rewrite py_truediv_million. cbn. by rewrite Hn.
Qed.

Lemma foldM_kernel_row_fails (pre post : list Row) (row : Row)
    (parsed : list (Q * string)) (e : exn) (acc : list PyNum * list string) :
  Forall2 (row_parses float_of_string) pre parsed → row_fails row e →
  foldM (kernel_row float_of_string) (pre ++ row :: post)%list acc = Raise e.
Proof.
  intros Hpre Hrow.
  rewrite foldM_app, (foldM_kernel_row float_of_string _ _ _ Hpre). cbn.
  by rewrite (kernel_row_fails _ _ _ Hrow).
Qed.

Lemma analyze_bad_row (csv : gmap string (list Row)) (pre post : list Row) (row : Row)
    (parsed : list (Q * string)) (e : exn) :
  csv !! "nvtx_kern_sum" = Some (pre ++ row :: post)%list →
  Forall2 (row_parses float_of_string) pre parsed → row_fails row e →
  analyze float_of_string str csv = Raise e.
Proof.
  intros Hcsv Hpre Hrow. unfold analyze.
  by rewrite Hcsv, (foldM_kernel_row_fails _ _ _ _ _ _ Hpre Hrow).
Qed.

Lemma foldM_kernel_row_length (rows : list Row) (acc acc' : list PyNum * list string) :
  foldM (kernel_row float_of_string) rows acc = Ok acc' →
  length (fst acc) = length (snd acc) →
  length (fst acc') = length (snd acc')
  ∧ length (snd acc') = (length (snd acc) + length rows)%nat.
Proof.
  revert acc. induction rows as [|row rows IH]; intros acc H Hlen.
  - cbn in H. apply Ok_inj in H as <-. split; [done|]. cbn. lia.
  - cbn [foldM] in H. apply bind_Ok in H as (acc1 & H1 & H).
    unfold kernel_row in H1.
    apply bind_Ok in H1 as (t & _ & H1). apply bind_Ok in H1 as (ns & _ & H1).
    apply bind_Ok in H1 as (ms & _ & H1). apply bind_Ok in H1 as (name & _ & H1).
    apply Ok_inj in H1 as <-.
    destruct (IH _ H) as [IH1 IH2].
    + cbn [fst snd]. rewrite !length_app. cbn. lia.
    + split; [done|]. rewrite IH2. cbn [fst snd]. rewrite length_app. cbn. lia.
Qed.

(** What [analyze] returns when it returns. *)
Lemma analyze_Ok_inv (csv : gmap string (list Row)) (mm : gmap string value) :
  analyze float_of_string str csv = Ok mm →
  ∃ (ds : list PyNum) (names : list string) (range : PyNum),
    mm = metrics_map str ds names (py_sum ds) range
    ∧ length ds = length names
    ∧ (∀ rows, csv !! "nvtx_kern_sum" = Some rows → length names = length rows)
    ∧ (is_Some (csv !! "nvtx_sum") → is_float range = true).
Proof.
  unfold analyze. intros H.
  apply bind_Ok in H as ([[ds names] s] & Hk & H).
  apply bind_Ok in H as (range & Hr & H).
  apply bind_Ok in H as (_ & _ & H). apply Ok_inj in H as <-.
  exists ds, names, range.
  assert (s = py_sum ds ∧ length ds = length names
          ∧ ∀ rows, csv !! "nvtx_kern_sum" = Some rows → length names = length rows)
    as (-> & Hlen & Hrows).
  { destruct (csv !! "nvtx_kern_sum") as [rows|].
    - apply bind_Ok in Hk as (acc & Hacc & Hk). apply Ok_inj in Hk.
      injection Hk as <- <- <-.
      destruct (foldM_kernel_row_length _ _ _ Hacc eq_refl) as [H1 H2].
      repeat split; [done|]. intros rows' [= <-]. by rewrite H2.
    - apply Ok_inj in Hk. injection Hk as <- <- <-. by repeat split. }
  repeat split; [done..|].
  intros [rows Hrows']. rewrite Hrows' in Hr.
  apply bind_Ok in Hr as (_ & _ & Hr). apply bind_Ok in Hr as (row & _ & Hr).
  apply bind_Ok in Hr as (t & _ & Hr). apply bind_Ok in Hr as (ns & Hns & Hr).
  unfold py_float in Hns. destruct (float_of_string t) as [q|]; [|discriminate].
  apply Ok_inj in Hns as <-. rewrite py_truediv_million in Hr.
  by apply Ok_inj in Hr as <-.
Qed.

Lemma read_csvs_missing (w : Env) (files : string → option (list Row)) (path : string)
    (pre post : list string) (r : string) (csv0 : gmap string (list Row)) :
  (∀ r', r' ∈ pre → is_Some (files (csv_path w path r'))) →
  files (csv_path w path r) = None →
  read_csvs w files path (pre ++ r :: post)%list csv0
  = MkIO ((λ r', EvReadCsv (csv_path w path r')) <$> pre)
         (Raise (RuntimeError ("Expected CSV report not found at " ++ csv_path w path r))).
Proof.
  intros Hpre Hr. revert csv0. induction pre as [|r0 pre IH]; intros csv0.
  - cbn [app read_csvs]. by rewrite Hr.
  - destruct (Hpre r0) as [rows Hrows]; [left|].
    cbn [app read_csvs]. rewrite Hrows, io_emit_bind, IH; [done|].
    intros r' Hr'. apply Hpre. by right.
Qed.

Lemma read_csvs_inv (w : Env) (files : string → option (list Row)) (path : string)
    (reports : list string) (csv0 csv : gmap string (list Row)) :
  outcome (read_csvs w files path reports csv0) = Ok csv →
  ∀ r, r ∈ reports ∨ is_Some (csv0 !! r) → is_Some (csv !! r).
Proof.
  revert csv0. induction reports as [|r0 reports IH]; intros csv0 H r Hr.
  - cbn in H. apply Ok_inj in H as <-. destruct Hr as [Hr|Hr]; [|done].
    by apply not_elem_of_nil in Hr.
  - cbn [read_csvs] in H. destruct (files (csv_path w path r0)) as [rows|]; [|discriminate].
    rewrite io_emit_bind in H. cbn [outcome] in H.
    apply (IH _ H). destruct (decide (r = r0)) as [->|Hne].
    + right. rewrite lookup_insert_eq. by eexists.
    + rewrite lookup_insert_ne by done.
      destruct Hr as [Hr|Hr]; [|by right]. left.
      apply elem_of_cons in Hr as [?|?]; done.
Qed.

(** What [read_nsys_report] returns when it returns. *)
Lemma read_nsys_report_Ok_inv (w : Env) (path : string) (req : list string)
    (d : gmap string value) :
  outcome (read_nsys_report float_of_string str w path req) = Ok d →
  ∃ csv mm, (∀ r, r ∈ reports_required req → is_Some (csv !! r))
    ∧ analyze float_of_string str csv = Ok mm ∧ d = select req mm.
Proof.
  unfold read_nsys_report.
  destruct (path_exists w path); [|discriminate]. cbn [io_assert].
  rewrite io_ret_bind. cbv zeta.
  destruct (reports_required req) as [|r0 rs]; [discriminate|]. cbn [io_assert].
  rewrite io_ret_bind, io_emit_bind. cbn [outcome].
  destruct (check_call w _) as [files|]; [|discriminate].
  destruct (read_csvs w files path (r0 :: rs) ∅) as [tr [csv|e]] eqn:Ecsv;
    [|discriminate].
  rewrite io_Ok_bind, io_lift_bind_ret. cbn [outcome].
  destruct (analyze float_of_string str csv) as [mm|e] eqn:E; [|discriminate].
  intros [= <-]. exists csv, mm. repeat split; [|done].
  intros r Hr. apply (read_csvs_inv w files path (r0 :: rs) ∅ csv).
  - by rewrite Ecsv.
  - by left.
Qed.

Lemma kernel_row_error (acc : list PyNum * list string) (row : Row) (e : exn) :
  kernel_row float_of_string acc row = Raise e → row_error e.
Proof.
  unfold kernel_row, row_get, py_float, row_error. intros H.
  destruct (row !! "Total Time (ns)") as [t|]; cbn in H;
    [|injection H as <-; left; eauto].
  destruct (float_of_string t) as [q|]; cbn in H;
    [|injection H as <-; right; eauto].
  rewrite py_truediv_million in H. cbn in H.
  destruct (row !! "Kernel Name"); cbn in H; [discriminate|].
  injection H as <-. left. eauto.
Qed.

Lemma foldM_kernel_row_error (rows : list Row) (acc : list PyNum * list string)
    (e : exn) :
  foldM (kernel_row float_of_string) rows acc = Raise e → row_error e.
Proof.
  revert acc. induction rows as [|row rows IH]; intros acc H; [discriminate|].
  cbn [foldM] in H. apply bind_Raise in H as [H|(acc1 & _ & H)].
  - by eapply kernel_row_error.
  - by eapply IH.
Qed.

(** The errors of [analyze]: a row that cannot be read, or a range summary
    that does not have exactly one row. *)
Lemma analyze_error (csv : gmap string (list Row)) (e : exn) :
  analyze float_of_string str csv = Raise e →
  row_error e ∨ e = AssertionError "".
Proof.
  unfold analyze. intros H.
  apply bind_Raise in H as [H|([[ds names] s] & Hk & H)].
  - destruct (csv !! "nvtx_kern_sum") as [rows|]; [|discriminate].
    apply bind_Raise in H as [H|(acc & _ & H)]; [|discriminate].
    left. by eapply foldM_kernel_row_error.
  - apply bind_Raise in H as [H|(range & Hr & H)].
    + destruct (csv !! "nvtx_sum") as [rows|]; [|discriminate].
      apply bind_Raise in H as [H|(_ & _ & H)].
      { right. unfold py_assert in H.
        destruct (Z.of_nat (length rows) =? 1); [discriminate|]. by injection H as <-. }
      apply bind_Raise in H as [H|(row & _ & H)].
      { destruct (rows !! 0%nat); [discriminate|]. injection H as <-. left. left. eauto. }
      apply bind_Raise in H as [H|(t & _ & H)].
      { unfold row_get in H. destruct (row !! "Total Time (ns)"); [discriminate|].
        injection H as <-. left. left. eauto. }
      apply bind_Raise in H as [H|(ns & _ & H)].
      { unfold py_float in H. destruct (float_of_string t); [discriminate|].
        injection H as <-. left. right. eauto. }
      by rewrite py_truediv_million in H.
    + exfalso. rewrite bool_decide_eq_true_2 in H by apply metrics_map_dom.
      discriminate.
Qed.

End WithBuiltins.
End NsysMore.

Section NsysExtras.
Import Nsys NsysFacts NsysMore Examples.

Variable float_of_string : string → option Q.
Variable str : PyNum → string.

(** X9: [get_nsys_metrics] returns the requested names that are keys of
    the report table, each once and in the order of the table, whatever the
    order and the repetitions of the request; calling it again on its result
    changes nothing. *)
Theorem get_nsys_metrics_spec (metrics : list string) :
  (∀ m, m ∈ get_nsys_metrics metrics
        ↔ m ∈ metrics ∧ is_Some (nsys_metrics_to_reports !! m))
  ∧ NoDup (get_nsys_metrics metrics)
  ∧ get_nsys_metrics metrics `sublist_of` (fst <$> nsys_metrics_to_reports_items)
  ∧ get_nsys_metrics (get_nsys_metrics metrics) = get_nsys_metrics metrics.
Proof.
  clear float_of_string str.
  split; [apply get_nsys_metrics_elem|].
  assert (NoDup (fst <$> nsys_metrics_to_reports_items)) as Hkeys.
  { apply (bool_decide_unpack _). by vm_compute. }
  split; [|split].
  - eapply sublist_NoDup; [done|apply filter_sublist].
  - apply filter_sublist.
  - unfold get_nsys_metrics at 1 3. apply filter_ext_in. intros m Hm.
    apply list_elem_of_In, table_keys in Hm.
    destruct (in_list m metrics) eqn:E.
    + apply in_list_elem_of, get_nsys_metrics_elem. by apply in_list_elem_of in E.
    + destruct (in_list m (get_nsys_metrics metrics)) eqn:E'; [|done].
      apply in_list_elem_of, get_nsys_metrics_elem in E' as [E' _].
      apply in_list_elem_of in E'. congruence.
Qed.

(** X10: the request needs no report exactly when it names no metric of the
    table, that is when [get_nsys_metrics] finds nothing in it; on an
    existing report such a request stops at the assertion "No nsys reports
    required" before any command is run. *)
Theorem no_known_metric_no_reports (w : Env) (path : string) (req : list string) :
  (reports_required req = [] ↔ get_nsys_metrics req = [])
  ∧ (path_exists w path = true → get_nsys_metrics req = [] →
     read_nsys_report float_of_string str w path req
     = MkIO [] (Raise (AssertionError "No nsys reports required"))).
Proof.
  split; [apply reports_required_nil|].
  intros Hp Hnone%reports_required_nil.
  unfold read_nsys_report. by rewrite Hp, Hnone.
Qed.

(** X11: without the report file [read_nsys_report] stops at its first
    assertion, whatever is requested; when the export command exits with a
    non-zero status the error of [check_call] is raised again, after that
    one command and before any CSV is looked for. *)
Theorem read_nsys_report_early_failures (w : Env) (path : string) (req : list string) :
  (path_exists w path = false →
   read_nsys_report float_of_string str w path req
   = MkIO [] (Raise (AssertionError
                       ("The nsys report at " ++ path ++ " does not exist."))))
  ∧ (path_exists w path = true → reports_required req ≠ [] →
     check_call w (nsys_cmd (reports_required req) path) = None →
     read_nsys_report float_of_string str w path req
     = MkIO [EvSubprocess (nsys_cmd (reports_required req) path)]
            (Raise (CalledProcessError (nsys_cmd (reports_required req) path)))).
Proof.
  split.
  - intros Hp. unfold read_nsys_report. by rewrite Hp.
  - intros Hp Hne Hcall. unfold read_nsys_report. rewrite Hp. cbn [io_assert].
    rewrite io_ret_bind. cbv zeta.
    destruct (reports_required req) as [|r0 rs]; [done|]. cbn [io_assert].
    by rewrite io_ret_bind, io_emit_bind, Hcall.
Qed.


(** X13: the reports exported and read are the two summaries at most, each
    once: the per-kernel summary exactly when a requested metric other than
    [nsys_nvtx_range_duration] is in the table, the range summary exactly
    when [nsys_gpu_kernel_sum], [nsys_launch_overhead] or
    [nsys_nvtx_range_duration] is requested. *)
Theorem reports_required_needed_once (req : list string) :
  NoDup (reports_required req)
  ∧ (∀ r, r ∈ reports_required req → r = "nvtx_kern_sum" ∨ r = "nvtx_sum")
  ∧ ("nvtx_kern_sum" ∈ reports_required req
     ↔ ∃ m, m ∈ req ∧ m ∈ ["nsys_gpu_kernel_sum"; "nsys_launch_overhead";
                            "nsys_kernel_names"; "nsys_kernel_durations";
                            "nsys_num_of_kernels"])
  ∧ ("nvtx_sum" ∈ reports_required req
     ↔ ∃ m, m ∈ req ∧ m ∈ ["nsys_gpu_kernel_sum"; "nsys_launch_overhead";
                            "nsys_nvtx_range_duration"]).
Proof.
  clear float_of_string str.
  split; [apply reports_required_NoDup|]. split; [|split].
  - intros r (m & rs & _ & Hrs & Hr)%reports_required_elem.
    by apply (table_entry_reports m rs Hrs).
  - rewrite reports_required_elem. split.
    + intros (m & rs & Hm & Hrs%table_entry & Hr). exists m. split; [done|].
      unfold nsys_metrics_to_reports_items in Hrs.
      repeat (apply elem_of_cons in Hrs as [[= -> ->]|Hrs]);
        [..|by apply not_elem_of_nil in Hrs].
      all: try (apply list_elem_of_In; simpl; tauto).
      apply elem_of_cons in Hr as [?|Hr]; [done|]. by apply not_elem_of_nil in Hr.
    + intros (m & Hm & Hin).
      repeat (apply elem_of_cons in Hin as [->|Hin]);
        [..|by apply not_elem_of_nil in Hin].
      all: eexists _, _; split; [done|]; split; [reflexivity|].
      all: apply list_elem_of_In; simpl; tauto.
  - rewrite reports_required_elem. split.
    + intros (m & rs & Hm & Hrs%table_entry & Hr). exists m. split; [done|].
      unfold nsys_metrics_to_reports_items in Hrs.
      repeat (apply elem_of_cons in Hrs as [[= -> ->]|Hrs]);
        [..|by apply not_elem_of_nil in Hrs].
      all: try (apply list_elem_of_In; simpl; tauto).
      all: apply elem_of_cons in Hr as [?|Hr]; [done|]; by apply not_elem_of_nil in Hr.
    + intros (m & Hm & Hin).
      repeat (apply elem_of_cons in Hin as [->|Hin]);
        [..|by apply not_elem_of_nil in Hin].
      all: eexists _, _; split; [done|]; split; [reflexivity|].
      all: apply list_elem_of_In; simpl; tauto.
Qed.


(** X15: when [read_nsys_report] returns, the keys of the mapping are
    exactly the names [get_nsys_metrics] keeps of the request. *)
Theorem read_nsys_report_result_keys (w : Env) (path : string) (req : list string)
    (d : gmap string value) :
  outcome (read_nsys_report float_of_string str w path req) = Ok d →
  ∀ k, is_Some (d !! k) ↔ k ∈ get_nsys_metrics req.
Proof.
  intros (csv & mm & Han & ->)%read_nsys_report_inv k.
  apply select_dom. by apply (analyze_dom _ _ _ _ Han).
Qed.

(** X16: whenever [read_nsys_report] returns, the returned values fit
    together: there are durations [ds], names and a range duration such
    that the names are as many as the durations, the requested entries are
    the strings of [ds], the names, their number, the sum of [ds], the
    range duration and the range duration minus that sum; a returned range
    duration is a float, never the initial [0]; and with the per-kernel
    summary among the required reports there is one name per row. *)
Theorem read_nsys_report_values_consistent (w : Env) (path : string)
    (req : list string) (d : gmap string value) :
  outcome (read_nsys_report float_of_string str w path req) = Ok d →
  ∃ (ds : list PyNum) (names : list string) (range : PyNum),
    length ds = length names
    ∧ ("nsys_kernel_durations" ∈ req →
       d !! "nsys_kernel_durations" = Some (VList ((λ x, VStr (str x)) <$> ds)))
    ∧ ("nsys_kernel_names" ∈ req →
       d !! "nsys_kernel_names" = Some (VList (VStr <$> names)))
    ∧ ("nsys_num_of_kernels" ∈ req →
       d !! "nsys_num_of_kernels" = Some (VNum (PyInt (Z.of_nat (length names)))))
    ∧ ("nsys_gpu_kernel_sum" ∈ req →
       d !! "nsys_gpu_kernel_sum" = Some (VNum (py_sum ds)))
    ∧ ("nsys_nvtx_range_duration" ∈ req →
       d !! "nsys_nvtx_range_duration" = Some (VNum range) ∧ is_float range = true)
    ∧ ("nsys_launch_overhead" ∈ req →
       d !! "nsys_launch_overhead" = Some (VNum (py_sub range (py_sum ds)))
       ∧ is_float range = true).
Proof.
  intros (csv & mm & Hcsv & Han & ->)%read_nsys_report_Ok_inv.
  apply analyze_Ok_inv in Han as (ds & names & range & -> & Hlen & _ & Hfloat).
  exists ds, names, range. split; [done|].
  assert (∀ k, k ∈ req →
            select req (metrics_map str ds names (py_sum ds) range) !! k
            = metrics_map str ds names (py_sum ds) range !! k) as Hsel.
  { intros k Hk. by rewrite select_lookup, decide_True. }
  do 4 (split; [intros Hin; by rewrite Hsel|]).
  split; intros Hin; (split; [by rewrite Hsel|]); apply Hfloat, Hcsv.
  - eapply (requested_reports _ "nsys_nvtx_range_duration"); [done|reflexivity|].
    apply list_elem_of_here.
  - eapply (requested_reports _ "nsys_launch_overhead"); [done|reflexivity|].
    apply list_elem_of_further, list_elem_of_here.
Qed.


(** X21: the assertions of [read_nsys_report] that can fail are the one on
    the report file, the one on the required reports and the one on the
    single row of the range summary; the check of the keys of the metrics
    map against the report table never fails. *)
Theorem read_nsys_report_assertions (w : Env) (path : string) (req : list string) :
  (∀ msg, outcome (read_nsys_report float_of_string str w path req)
          = Raise (AssertionError msg) →
     msg = "The nsys report at " ++ path ++ " does not exist."
     ∨ msg = "No nsys reports required"
     ∨ msg = "")
  ∧ outcome (read_nsys_report float_of_string str w path req)
    ≠ Raise (AssertionError
               "Mismatch between metrics_map keys and nsys_metrics_to_reports keys.").
Proof.
  assert (∀ msg, outcome (read_nsys_report float_of_string str w path req)
                 = Raise (AssertionError msg) →
     msg = "The nsys report at " ++ path ++ " does not exist."
     ∨ msg = "No nsys reports required"
     ∨ msg = "") as Hmsg.
  { intros msg. unfold read_nsys_report.
    destruct (path_exists w path); [|intros [= <-]; by left]. cbn [io_assert].
    rewrite io_ret_bind. cbv zeta.
    destruct (reports_required req) as [|r0 rs]; [intros [= <-]; right; by left|].
    cbn [io_assert]. rewrite io_ret_bind, io_emit_bind. cbn [outcome].
    destruct (check_call w _) as [files|]; [|discriminate].
    destruct (read_csvs w files path (r0 :: rs) ∅) as [tr [csv|e]] eqn:Ecsv.
    - rewrite io_Ok_bind, io_lift_bind_ret. cbn [outcome].
      destruct (analyze float_of_string str csv) as [mm|e] eqn:E; [discriminate|].
      cbn. intros [= ->].
      apply analyze_error in E as [[[key [=]]|[t [=]]]|[= <-]]. right. by right.
    - cbn. intros [= ->].
      destruct (read_csvs_error w files path (r0 :: rs) ∅ (AssertionError msg))
        as (r & _ & [=]).
      by rewrite Ecsv. }
  split; [exact Hmsg|].
  intros H. apply Hmsg in H as [H|[H|H]]; cbn in H; discriminate.
Qed.

End NsysExtras.

(** ** The further properties on concrete reports *)

Module MoreExamples.

(** Machines without the report file, without the [ncu] command, and with
    an installation that lacks [extras/python]. *)
Definition ncu_env_no_report : Ncu.Env :=
  Ncu.MkEnv (λ _, false) (Some "/opt/nvidia/ncu") (λ _, "/opt/nvidia") (λ _, []).
Definition ncu_env_no_ncu : Ncu.Env :=
  Ncu.MkEnv (λ _, true) None (λ _, "") (λ _, []).
Definition ncu_env_no_extras : Ncu.Env :=
  Ncu.MkEnv (λ p, String.eqb p "bench.ncu-rep") (Some "/opt/nvidia/ncu")
            (λ _, "/opt/nvidia") (λ _, []).

(** Machines without the nsys report, with a failing export, and with an
    export that leaves only the per-kernel summary. *)
Definition nsys_env_no_report : Nsys.Env :=
  Nsys.MkEnv (λ _, false) (λ _, "bench") (λ _, None).
Definition nsys_env_export_fails : Nsys.Env :=
  Nsys.MkEnv (λ _, true) (λ _, "bench") (λ _, None).
Definition nsys_files_kern_only (kern_rows : list Nsys.Row)
  : string → option (list Nsys.Row) :=
  λ path, if String.eqb path "bench_nvtx_kern_sum.csv" then Some kern_rows else None.
Definition nsys_env_kern_only (kern_rows : list Nsys.Row) : Nsys.Env :=
  Nsys.MkEnv (λ _, true) (λ _, "bench") (λ _, Some (nsys_files_kern_only kern_rows)).

End MoreExamples.

Section NcuExtraInstances.
Import Ncu NcuLoop NcuMore Examples MoreExamples.

Lemma ncu_env_ready (ranges : list (list Kernel)) : ready (ncu_env ranges) "bench.ncu-rep".
Proof. split; [reflexivity|]. exists "/opt/nvidia/ncu". split; reflexivity. Qed.


Lemma bench_metric_entry_iff_requested_witness :
  ∃ d, outcome (read_ncu_report (ncu_env [[kernel_a; kernel_b]]) "bench.ncu-rep"
                  ["memory_traffic"; "ncu_tflops"]) = Ok d
    ∧ (is_Some (d !! "arithmetic_intensity")
       ↔ "arithmetic_intensity" ∈ ["memory_traffic"; "ncu_tflops"]).
Proof.
  destruct (outcome (read_ncu_report (ncu_env [[kernel_a; kernel_b]]) "bench.ncu-rep"
                       ["memory_traffic"; "ncu_tflops"])) as [d|e] eqn:E;
    [|vm_compute in E; discriminate E].
  exists d. split; [reflexivity|].
  apply (bench_metric_entry_iff_requested
           (ncu_env [[kernel_a; kernel_b]]) "bench.ncu-rep"
           ["memory_traffic"; "ncu_tflops"] d "arithmetic_intensity" E).
  apply list_elem_of_further, list_elem_of_here.
Defined.

Lemma accumulators_per_kernel_witness :
  ∃ d, outcome (read_ncu_report (ncu_env [[kernel_a; kernel_b]]) "bench.ncu-rep"
                  ["memory_traffic"]) = Ok d
    ∧ d !! "memory_traffic_raw"
      = Some (VList [VTuple (VNum (PyFloat 60)) (VNum (PyFloat 40));
                     VTuple (VNum (PyFloat 200)) (VNum (PyFloat 100))])
    ∧ d !! "durations" = None.
Proof.
  destruct (outcome (read_ncu_report (ncu_env [[kernel_a; kernel_b]]) "bench.ncu-rep"
                       ["memory_traffic"])) as [d|e] eqn:E;
    [|vm_compute in E; discriminate E].
  exists d. split; [reflexivity|].
  destruct (accumulators_per_kernel
              (ncu_env [[kernel_a; kernel_b]]) "bench.ncu-rep" ["memory_traffic"]
              [kernel_a; kernel_b] [] d eq_refl E) as (Hd & Hm & _).
  split.
  - rewrite Hm. reflexivity.
  - rewrite Hd. reflexivity.
Defined.

Lemma read_ncu_report_preconditions_witness :
  read_ncu_report ncu_env_no_report "bench.ncu-rep" ["memory_traffic"]
  = MkIO [] (Raise (AssertionError "The NCU report at bench.ncu-rep does not exist."))
  ∧ read_ncu_report ncu_env_no_ncu "bench.ncu-rep" ["memory_traffic"]
    = MkIO [] (Raise (FileNotFoundError "Could not find 'ncu' command in PATH."))
  ∧ read_ncu_report ncu_env_no_extras "bench.ncu-rep" ["memory_traffic"]
    = MkIO [] (Raise (FileNotFoundError
        "'extras/python' does not exist in the provided ncu_path: /opt/nvidia"))
  ∧ trace (read_ncu_report (ncu_env [[kernel_a]]) "bench.ncu-rep" ["memory_traffic"])
    = [EvLoadReport "bench.ncu-rep"].
Proof.
  split; [|split; [|split]].
  - apply (proj1 (read_ncu_report_preconditions ncu_env_no_report "bench.ncu-rep"
                    ["memory_traffic"])).
    reflexivity.
  - apply (proj1 (proj2 (read_ncu_report_preconditions ncu_env_no_ncu "bench.ncu-rep"
                           ["memory_traffic"]))); reflexivity.
  - apply (proj1 (proj2 (proj2 (read_ncu_report_preconditions ncu_env_no_extras
                                  "bench.ncu-rep" ["memory_traffic"])))
             "/opt/nvidia/ncu"); reflexivity.
  - apply (proj2 (proj2 (proj2 (read_ncu_report_preconditions (ncu_env [[kernel_a]])
                                  "bench.ncu-rep" ["memory_traffic"])))).
    apply ncu_env_ready.
Defined.

Lemma read_ncu_report_same_names_witness :
  read_ncu_report (ncu_env [[kernel_a; kernel_b]]) "bench.ncu-rep"
    ["ncu_tflops"; "memory_traffic"; "ncu_tflops"]
  = read_ncu_report (ncu_env [[kernel_a; kernel_b]]) "bench.ncu-rep"
      ["memory_traffic"; "ncu_tflops"].
Proof.
  apply (read_ncu_report_same_names (ncu_env [[kernel_a; kernel_b]]) "bench.ncu-rep"
           ["ncu_tflops"; "memory_traffic"; "ncu_tflops"]
           ["memory_traffic"; "ncu_tflops"]).
  intros m. rewrite !elem_of_cons, !elem_of_nil. tauto.
Defined.


Lemma read_ncu_report_reads_collected_only_witness :
  read_ncu_report (ncu_env [[kernel_a]]) "bench.ncu-rep" ["memory_traffic"]
  = read_ncu_report (ncu_env [[with_metric "gpu__time_duration.sum" (PyFloat 7) kernel_a]])
      "bench.ncu-rep" ["memory_traffic"].
Proof.
  apply (read_ncu_report_reads_collected_only
           (ncu_env [[kernel_a]])
           (ncu_env [[with_metric "gpu__time_duration.sum" (PyFloat 7) kernel_a]])
           "bench.ncu-rep" ["memory_traffic"]
           ["dram__bytes_write.sum"; "dram__bytes_read.sum"]
           [kernel_a] [with_metric "gpu__time_duration.sum" (PyFloat 7) kernel_a] [] []).
  - apply ncu_env_ready.
  - reflexivity.
  - apply ncu_env_ready.
  - reflexivity.
  - reflexivity.
  - constructor; [|constructor]. intros name Hname.
    apply elem_of_cons in Hname as [->|Hname]; [reflexivity|].
    apply elem_of_cons in Hname as [->|Hname]; [reflexivity|].
    by apply not_elem_of_nil in Hname.
Defined.

Lemma read_ncu_report_fewer_metrics_witness :
  ∃ d' d,
    outcome (read_ncu_report (ncu_env [[kernel_a; kernel_b]]) "bench.ncu-rep"
               ["memory_traffic"; "ncu_tflops"]) = Ok d'
    ∧ read_ncu_report (ncu_env [[kernel_a; kernel_b]]) "bench.ncu-rep" ["ncu_tflops"]
      = MkIO [EvLoadReport "bench.ncu-rep"] (Ok d)
    ∧ d ⊆ d'.
Proof.
  destruct (outcome (read_ncu_report (ncu_env [[kernel_a; kernel_b]]) "bench.ncu-rep"
                       ["memory_traffic"; "ncu_tflops"])) as [d'|e] eqn:E;
    [|vm_compute in E; discriminate E].
  destruct (read_ncu_report_fewer_metrics
              (ncu_env [[kernel_a; kernel_b]]) "bench.ncu-rep"
              ["ncu_tflops"] ["memory_traffic"; "ncu_tflops"] d') as (d & Hd & Hsub).
  - intros m Hm. by right.
  - exact E.
  - exists d', d. split; [reflexivity|]. split; [exact Hd|exact Hsub].
Defined.

Lemma read_ncu_report_assertions_witness :
  no_ranges_msg "bench.ncu-rep" = "The NCU report at bench.ncu-rep does not exist."
  ∨ no_ranges_msg "bench.ncu-rep"
    = "No profile data found in the NCU report at bench.ncu-rep"
  ∨ no_ranges_msg "bench.ncu-rep"
    = "No profile data found in the default range of the NCU report at bench.ncu-rep".
Proof.
  apply (proj1 (read_ncu_report_assertions (ncu_env []) "bench.ncu-rep" ["ncu_tflops"])
           (no_ranges_msg "bench.ncu-rep")).
  reflexivity.
Defined.

Lemma summary_entries_paired_witness :
  ∃ d r wr,
    outcome (read_ncu_report (ncu_env [[kernel_a; kernel_b]]) "bench.ncu-rep"
               ["memory_traffic"]) = Ok d
    ∧ d !! "memory_traffic_read_sum" = Some (VNum r)
    ∧ d !! "memory_traffic_write_sum" = Some (VNum wr)
    ∧ d !! "memory_traffic" = Some (VTuple (VNum r) (VNum wr)).
Proof.
  destruct (outcome (read_ncu_report (ncu_env [[kernel_a; kernel_b]]) "bench.ncu-rep"
                       ["memory_traffic"])) as [d|e] eqn:E;
    [|vm_compute in E; discriminate E].
  destruct (proj1 (summary_entries_paired
                     (ncu_env [[kernel_a; kernel_b]]) "bench.ncu-rep"
                     ["memory_traffic"] d E)) as (r & wr & Hr & Hw & Hm).
  - apply list_elem_of_here.
  - exists d, r, wr. split; [reflexivity|]. split; [exact Hr|]. split; [exact Hw|exact Hm].
Defined.

End NcuExtraInstances.

Section NsysExtraInstances.
Import Nsys NsysFacts NsysMore Examples MoreExamples.

Local Abbreviation two_kernels :=
  [kern_row "20000000" "matmul_kernel"; kern_row "30000000" "add_kernel"].

Lemma no_known_metric_no_reports_witness :
  read_nsys_report float_of_digits str_decimal
    (nsys_env two_kernels [range_row "100000000"]) "bench.nsys-rep"
    ["latency"; "memory_traffic"]
  = MkIO [] (Raise (AssertionError "No nsys reports required")).
Proof.
  apply (proj2 (no_known_metric_no_reports float_of_digits str_decimal
                  (nsys_env two_kernels [range_row "100000000"]) "bench.nsys-rep"
                  ["latency"; "memory_traffic"])); reflexivity.
Defined.

Lemma read_nsys_report_early_failures_witness :
  read_nsys_report float_of_digits str_decimal nsys_env_no_report "bench.nsys-rep"
    ["nsys_launch_overhead"]
  = MkIO [] (Raise (AssertionError "The nsys report at bench.nsys-rep does not exist."))
  ∧ read_nsys_report float_of_digits str_decimal nsys_env_export_fails "bench.nsys-rep"
      ["nsys_launch_overhead"]
    = MkIO [EvSubprocess (nsys_cmd (reports_required ["nsys_launch_overhead"])
                            "bench.nsys-rep")]
           (Raise (CalledProcessError
                     (nsys_cmd (reports_required ["nsys_launch_overhead"])
                        "bench.nsys-rep"))).
Proof.
  split.
  - apply (proj1 (read_nsys_report_early_failures float_of_digits str_decimal
                    nsys_env_no_report "bench.nsys-rep" ["nsys_launch_overhead"])).
    reflexivity.
  - apply (proj2 (read_nsys_report_early_failures float_of_digits str_decimal
                    nsys_env_export_fails "bench.nsys-rep" ["nsys_launch_overhead"])).
    + reflexivity.
    + rewrite reports_both. discriminate.
    + reflexivity.
Defined.



Lemma read_nsys_report_result_keys_witness :
  ∃ d, outcome (read_nsys_report float_of_digits str_decimal
                  (nsys_env two_kernels [range_row "100000000"]) "bench.nsys-rep"
                  ["nsys_num_of_kernels"; "latency"]) = Ok d
    ∧ ∀ k, is_Some (d !! k) ↔ k ∈ get_nsys_metrics ["nsys_num_of_kernels"; "latency"].
Proof.
  destruct (outcome (read_nsys_report float_of_digits str_decimal
                       (nsys_env two_kernels [range_row "100000000"]) "bench.nsys-rep"
                       ["nsys_num_of_kernels"; "latency"])) as [d|e] eqn:E;
    [|vm_compute in E; discriminate E].
  exists d. split; [reflexivity|].
  apply (read_nsys_report_result_keys float_of_digits str_decimal
           (nsys_env two_kernels [range_row "100000000"]) "bench.nsys-rep"
           ["nsys_num_of_kernels"; "latency"] d E).
Defined.

Lemma read_nsys_report_values_consistent_witness :
  ∃ d (ds : list PyNum) (names : list string) (range : PyNum),
    outcome (read_nsys_report float_of_digits str_decimal
               (nsys_env two_kernels [range_row "100000000"]) "bench.nsys-rep"
               ["nsys_launch_overhead"; "nsys_gpu_kernel_sum"]) = Ok d
    ∧ length ds = length names
    ∧ d !! "nsys_gpu_kernel_sum" = Some (VNum (py_sum ds))
    ∧ d !! "nsys_launch_overhead" = Some (VNum (py_sub range (py_sum ds)))
    ∧ is_float range = true.
Proof.
  destruct (outcome (read_nsys_report float_of_digits str_decimal
                       (nsys_env two_kernels [range_row "100000000"]) "bench.nsys-rep"
                       ["nsys_launch_overhead"; "nsys_gpu_kernel_sum"]))
    as [d|e] eqn:E; [|vm_compute in E; discriminate E].
  destruct (read_nsys_report_values_consistent float_of_digits str_decimal
              (nsys_env two_kernels [range_row "100000000"]) "bench.nsys-rep"
              ["nsys_launch_overhead"; "nsys_gpu_kernel_sum"] d E)
    as (ds & names & range & Hlen & _ & _ & _ & Hsum & _ & Hover).
  exists d, ds, names, range. split; [reflexivity|]. split; [exact Hlen|].
  split; [apply Hsum, list_elem_of_further, list_elem_of_here|].
  apply Hover, list_elem_of_here.
Defined.

Lemma reports_kernel_only :
  reports_required ["nsys_kernel_names"] = ["nvtx_kern_sum"].
Proof. vm_compute. reflexivity. Qed.


Lemma read_nsys_report_assertions_witness :
  "" = "The nsys report at bench.nsys-rep does not exist."
  ∨ "" = "No nsys reports required"
  ∨ "" = "".
Proof.
  apply (proj1 (read_nsys_report_assertions float_of_digits str_decimal
                  (nsys_env [] [range_row "100000000"; range_row "5"])
                  "bench.nsys-rep" ["nsys_nvtx_range_duration"]) "").
  vm_compute. reflexivity.
Defined.

End NsysExtraInstances.
